(** * Nebula NeoForge support: a shallow embedding and its properties

    The development follows three source files of the repository:
    - [src/util/VersionUtil.ts]                      (module [VersionUtil])
    - the NeoForge mod structure ([NeoForgeModStructure.processZip])
    - [src/resolver/neoforge/NeoForge.resolver.ts]   (module [NeoForgeResolver])

    JavaScript strings are modelled by [string] (a sequence of 8-bit
    characters), arrays by [list], objects used as dictionaries by [gmap],
    [undefined]/[null] by [None].  Code that throws, logs or touches the
    disk is written in a state-and-exception monad. *)

From Stdlib Require Import Ascii String DecimalString.
From stdpp Require Import gmap strings list fin_maps.

Local Open Scope stdpp_scope.
Set Warnings "-register-all".

(* ===================================================================== *)
(** * JavaScript string primitives *)
(* ===================================================================== *)

Module JS.

(** [s.startsWith(p)] *)
Fixpoint startsWith (s p : string) {struct p} : bool :=
  match p with
  | EmptyString => true
  | String c p' =>
      match s with
      | EmptyString => false
      | String d s' => if Ascii.eqb d c then startsWith s' p' else false
      end
  end.

(** [s.endsWith(p)] *)
Fixpoint endsWith (s p : string) : bool :=
  if String.eqb s p then true
  else match s with
       | EmptyString => false
       | String _ s' => endsWith s' p
       end.

(** The rest of [s] after the prefix [p], when [s] starts with [p]. *)
Fixpoint stripPrefix (s p : string) {struct p} : option string :=
  match p with
  | EmptyString => Some s
  | String c p' =>
      match s with
      | EmptyString => None
      | String d s' => if Ascii.eqb d c then stripPrefix s' p' else None
      end
  end.

(** Search for the first occurrence of [p] in [s]: the text before it and the
    text after it; [None] when [p] does not occur. *)
Fixpoint splitFirst (s p : string) : option (string * string) :=
  match stripPrefix s p with
  | Some post => Some (EmptyString, post)
  | None =>
      match s with
      | EmptyString => None
      | String c s' =>
          match splitFirst s' p with
          | Some (pre, post) => Some (String c pre, post)
          | None => None
          end
      end
  end.

(** [s.includes(p)] *)
Definition includes (s p : string) : bool :=
  match splitFirst s p with Some _ => true | None => false end.

(** The replacement-template expansion of [String.prototype.replace] when
    the pattern is a string (there are no capture groups, so [$1], [$<n>]
    and a lone [$] stay literal): [$$] is a dollar, [$&] the matched text,
    [$`] the text before the match and [$'] the text after it. *)
Fixpoint getSubstitution (matched pre post template : string) : string :=
  match template with
  | EmptyString => EmptyString
  | String c rest =>
      if Ascii.eqb c "$" then
        match rest with
        | String d rest' =>
            if Ascii.eqb d "$" then String "$" (getSubstitution matched pre post rest')
            else if Ascii.eqb d "&" then matched +:+ getSubstitution matched pre post rest'
            else if Ascii.eqb d "`" then pre +:+ getSubstitution matched pre post rest'
            else if Ascii.eqb d "'" then post +:+ getSubstitution matched pre post rest'
            else String c (getSubstitution matched pre post rest)
        | EmptyString => String c EmptyString
        end
      else String c (getSubstitution matched pre post rest)
  end.

(** A template without any of the four patterns. *)
Fixpoint plainTemplate (template : string) : bool :=
  match template with
  | EmptyString => true
  | String c rest =>
      if Ascii.eqb c "$" then
        match rest with
        | String d _ =>
            negb (Ascii.eqb d "$" || Ascii.eqb d "&" || Ascii.eqb d "`" || Ascii.eqb d "'")
            && plainTemplate rest
        | EmptyString => true
        end
      else plainTemplate rest
  end.

(** [s.replace(p, r)] with a string pattern: only the first occurrence is
    replaced, by the expansion of the template [r]. *)
Definition replace (s p r : string) : string :=
  match splitFirst s p with
  | Some (pre, post) => pre +:+ getSubstitution p pre post r +:+ post
  | None => s
  end.

(** [s.split(sep)] for a one-character separator. *)
Fixpoint splitChar (sep : ascii) (s : string) : list string :=
  match s with
  | EmptyString => [EmptyString]
  | String c s' =>
      if Ascii.eqb c sep then EmptyString :: splitChar sep s'
      else match splitChar sep s' with
           | cur :: more => String c cur :: more
           | [] => [String c EmptyString]
           end
  end.

(** [arr.join(sep)] *)
Definition join (sep : string) (arr : list string) : string := String.concat sep arr.

Definition lowerChar (c : ascii) : ascii :=
  let n := nat_of_ascii c in
  if (65 <=? n)%nat && (n <=? 90)%nat then ascii_of_nat (n + 32) else c.

(** [s.toLowerCase()] on the characters of the model. *)
Fixpoint toLowerCase (s : string) : string :=
  match s with
  | EmptyString => EmptyString
  | String c s' => String (lowerChar c) (toLowerCase s')
  end.

(** Decimal rendering of a non-negative integer, as in [n + '.'] *)
Definition numberToString (n : N) : string := NilZero.string_of_uint (N.to_uint n).

Definition isWhiteSpace (c : ascii) : bool :=
  match c with
  | "009" | "010" | "011" | "012" | "013" | " " => true
  | _ => false
  end%char.

Fixpoint trimStart (s : string) : string :=
  match s with
  | EmptyString => EmptyString
  | String c s' => if isWhiteSpace c then trimStart s' else s
  end.

Fixpoint trimEnd (s : string) : string :=
  match s with
  | EmptyString => EmptyString
  | String c s' =>
      match trimEnd s' with
      | EmptyString => if isWhiteSpace c then EmptyString else String c EmptyString
      | t => String c t
      end
  end.

(** [s.trim()] *)
Definition trim (s : string) : string := trimEnd (trimStart s).

Definition newline : ascii := "010"%char.
Definition tab : ascii := "009"%char.

End JS.

(* ===================================================================== *)
(** * Exceptions, logging and the state monad *)
(* ===================================================================== *)

Inductive Level := Debug | Info | Warn | Error.

Record LogEntry := mkLog { logger : string; level : Level; message : string }.

Inductive Exn :=
| JsError (msg : string)      (** [throw new Error(msg)] in the sources *)
| TypeError (what : string)   (** property access on [undefined] and the like *)
| SyntaxError (what : string) (** [JSON.parse] on malformed text *)
| IOError (what : string).    (** an error out of a file-system or archive call *)

Inductive Outcome (A : Type) :=
| Return (a : A)
| Throw (e : Exn).
Arguments Return {A} a.
Arguments Throw {A} e.

Definition M (S A : Type) : Type := S → Outcome A * S.

Definition ret {S A} (a : A) : M S A := λ s, (Return a, s).

Definition bind {S A B} (m : M S A) (k : A → M S B) : M S B :=
  λ s, match m s with
       | (Return a, s') => k a s'
       | (Throw e, s') => (Throw e, s')
       end.

Definition throw {S A} (e : Exn) : M S A := λ s, (Throw e, s).

(** [try { m } catch { h }] *)
Definition tryCatch {S A} (m : M S A) (h : Exn → M S A) : M S A :=
  λ s, match m s with
       | (Return a, s') => (Return a, s')
       | (Throw e, s') => h e s'
       end.

Definition gets {S A} (f : S → A) : M S A := λ s, (Return (f s), s).
Definition modify {S} (f : S → S) : M S unit := λ s, (Return tt, f s).

Notation "'let*' x ':=' m 'in' k" := (bind m (λ x, k))
  (at level 10, x name, m at level 100, k at level 200, only parsing).
Notation "m ;;; k" := (bind m (λ _, k))
  (at level 100, k at level 200, right associativity, only parsing).

Definition isReturn {A S} (r : Outcome A * S) : bool :=
  match r with (Return _, _) => true | _ => false end.

(* ===================================================================== *)
(** * VersionUtil *)
(* ===================================================================== *)

Module VersionUtil.

(** [MinecraftVersion] as seen through its getters and [toString()]. *)
Record MinecraftVersion := mkMinecraftVersion {
  getMajor : N;
  getMinor : N;
  getRevision : option N;
  mcToString : string
}.

Record PromotionsSlim := mkPromotionsSlim { promos : gmap string string }.

Record NeoForgeVersionIndex := mkNeoForgeVersionIndex { versions : list string }.

Record FabricLoaderMeta := mkFabricLoaderMeta { fabricVersion : string; fabricStable : bool }.

Definition Logs := list LogEntry.

Definition warn (msg : string) : M Logs unit :=
  modify (λ l, l ++ [mkLog "VersionUtil" Warn msg]).

Definition attemptLatest : string := "Attempting to pull latest version instead.".

(** [getPromotedForgeVersion]; [res] is the fetched promotion index. *)
Definition getPromotedForgeVersion (res : PromotionsSlim)
    (minecraftVersion : MinecraftVersion) (promotion : string) : M Logs string :=
  let workingPromotion := JS.toLowerCase promotion in
  match promos res !! (mcToString minecraftVersion +:+ "-" +:+ workingPromotion) with
  | Some version => ret version
  | None =>
      warn ("No " +:+ workingPromotion +:+ " version found for Forge " +:+ mcToString minecraftVersion +:+ ".") ;;;
      warn attemptLatest ;;;
      match promos res !! (mcToString minecraftVersion +:+ "-latest") with
      | Some version => ret version
      | None => throw (JsError ("No latest version found for Forge " +:+ mcToString minecraftVersion +:+ "."))
      end
  end.

(** [findNeoForgePromotedVersion]: a [forEach] over the filtered array that
    overwrites [latestAvailable]. *)
Definition findNeoForgePromotedVersion (index : NeoForgeVersionIndex)
    (stable : bool) (workingVersion : string) : option string :=
  fold_left
    (λ latestAvailable version,
       if stable then
         if negb (JS.endsWith version "-beta") then Some version else latestAvailable
       else Some version)
    (List.filter (λ version, JS.startsWith version workingVersion) (versions index))
    None.

Definition workingVersionOf (minecraftVersion : MinecraftVersion) : string :=
  JS.numberToString (getMinor minecraftVersion) +:+ "." +:+
  JS.numberToString (match getRevision minecraftVersion with
                     | Some r => if N.eqb r 0 then 0%N else r
                     | None => 0%N
                     end).

(** [getPromotedNeoForgeVersion]; [index] is the fetched version index. *)
Definition getPromotedNeoForgeVersion (index : NeoForgeVersionIndex)
    (minecraftVersion : MinecraftVersion) (promotion : string) : M Logs string :=
  let stable := String.eqb (JS.toLowerCase promotion) "recommended" in
  let workingVersion := workingVersionOf minecraftVersion in
  match findNeoForgePromotedVersion index stable workingVersion with
  | Some version => ret version
  | None =>
      warn ("No " +:+ JS.toLowerCase promotion +:+ " version found for NeoForge " +:+ mcToString minecraftVersion +:+ ".") ;;;
      warn attemptLatest ;;;
      match findNeoForgePromotedVersion index false workingVersion with
      | Some version => ret version
      | None => throw (JsError ("No latest version found for Forge " +:+ mcToString minecraftVersion +:+ "."))
      end
  end.

(** [getPromotedFabricVersion]; [fabricLoaderMeta] is the fetched list.
    Reading [.version] of a missing element is a [TypeError]. *)
Definition getPromotedFabricVersion (fabricLoaderMeta : list FabricLoaderMeta)
    (promotion : string) : M Logs string :=
  let stable := String.eqb (JS.toLowerCase promotion) "recommended" in
  if negb stable then
    match fabricLoaderMeta !! 0%nat with
    | Some e => ret (fabricVersion e)
    | None => throw (TypeError "Cannot read properties of undefined (reading 'version')")
    end
  else
    match List.find fabricStable fabricLoaderMeta with
    | Some e => ret (fabricVersion e)
    | None => throw (TypeError "Cannot read properties of undefined (reading 'version')")
    end.

(** ** Version predicates *)

(** JavaScript numbers as far as [VersionUtil] uses them: [Number(x)] on a
    string, the comparison [>] and numeric literals. Nothing is assumed about
    them; [NaN] and the like live inside [Num]. *)
Class Numbers := {
  Num : Type;
  jsNumber : string → Num;
  gt : Num → Num → bool;
  literal : N → Num
}.

(** [isVersionAcceptable]: [find] returns the element found, and a number is
    never [null]. *)
Definition isVersionAcceptable (version : MinecraftVersion) (acceptable : list N) : bool :=
  if N.eqb (getMajor version) 1 then
    match List.find (λ element, N.eqb (getMinor version) element) acceptable with
    | Some _ => true
    | None => false
    end
  else false.

Definition PROMOTION_TYPE : list string := ["recommended"; "latest"].

(** [isPromotionVersion] *)
Definition isPromotionVersion (version : string) : bool :=
  bool_decide (JS.toLowerCase version ∈ PROMOTION_TYPE).

(** [getPromotedVersionStrict]; a missing key reads as [undefined]. *)
Definition getPromotedVersionStrict (index : PromotionsSlim)
    (minecraftVersion : MinecraftVersion) (promotion : string) : option string :=
  let workingPromotion := JS.toLowerCase promotion in
  promos index !! (mcToString minecraftVersion +:+ "-" +:+ workingPromotion).

Section WithNumbers.
Context `{Numbers}.

(** [a > b] where either side may be [undefined]: such a comparison is
    [false]. *)
Definition gtUndefined (a b : option Num) : bool :=
  match a, b with
  | Some x, Some y => gt x y
  | _, _ => false
  end.

(** [versionGte] *)
Definition versionGte (version min : string) : Outcome bool :=
  if String.eqb version min then Return true
  else
    let left := List.map jsNumber (JS.splitChar "." version) in
    let right := List.map jsNumber (JS.splitChar "." min) in
    if negb (Nat.eqb (length left) (length right)) then
      Throw (JsError "Cannot compare mismatched versions.")
    else
      Return (existsb (λ i, gtUndefined (left !! i) (right !! i)) (seq 0 (length left))).

(** [isOneDotTwelveFG2]: the loop returns [false] at the first component
    that exceeds its bound. *)
Definition isOneDotTwelveFG2 (libraryVersion : string) : bool :=
  let maxFG2 := [literal 14; literal 23; literal 5; literal 2847] in
  let verSplit := List.map jsNumber (JS.splitChar "." libraryVersion) in
  forallb (λ i, negb (gtUndefined (verSplit !! i) (maxFG2 !! i))) (seq 0 (length maxFG2)).

End WithNumbers.

End VersionUtil.

(* ===================================================================== *)
(** * NeoForgeModStructure *)
(* ===================================================================== *)

Module NeoForgeModStructure.

(** One [[mods]] entry of a parsed [neoforge.mods.toml]. *)
Record ModEntry := mkModEntry {
  modId : string;
  version : string;
  displayName : string;
  description : string
}.

(** A metadata document as the structure holds it. [toml.parse] is cast to
    [ModsToml] without a check, so the [mods] array of the declared type may
    be missing from a parsed document: [None] is a document without an
    iterable [mods] (no [[mods]] table in the file). *)
Record ModsToml := mkModsToml {
  modLoader : string;
  loaderVersion : string;
  mods : option (list ModEntry)
}.

(** The pair returned by [attemptCrudeInference]. *)
Record CrudeInference := mkCrudeInference { crudeName : string; crudeVersion : string }.

(** What Claritas reports for one jar; only [id] is read here. *)
Record ClaritasModuleMetadata := mkClaritas { claritasGroup : option string; claritasIdOf : option string }.

(** A [StreamZip] archive seen through [entryDataSync]: entry name to the
    text of the entry. *)
Definition StreamZip := gmap string string.

(** Instance state of the structure: the per-name metadata cache, the
    Claritas results and the logger output. *)
Record ModState := mkModState {
  modMetadata : gmap string ModsToml;
  claritasResult : option (gmap string ClaritasModuleMetadata);
  modLogs : list LogEntry
}.

(** Members of the base class and of sibling modules that [processZip] calls
    and whose bodies are not part of the sources at hand. The pattern
    [IMPLEMENTATION_VERSION_REGEX] is used through [exec] only, and only its
    first capture group is read: [implementationVersionExec key] is [match[1]]
    of a successful match and [None] when [exec] returns [null]. [tomlParse]
    is [toml.parse] followed by the cast to [ModsToml], [None] when it
    throws; the document it yields need not have a [mods] array. *)
Class Collaborators := {
  EXAMPLE_MOD_ID : string;
  attemptCrudeInference : string → CrudeInference;
  implementationVersionExec : string → option string;
  tomlParse : string → option ModsToml;
  capitalize : string → string
}.

(** Modelled from the spec: [discernResult] belongs to the base mod structure,
    which is not among the sources. Section 4.1: "prefer staticAnalysisHint
    (an independently computed structural-analysis identifier) when it is
    non-null; otherwise fall back to" the filename derivation. *)
Definition discernResult (claritasValue : option string) (crudeInference : string) : string :=
  match claritasValue with
  | Some hint => hint
  | None => crudeInference
  end.

Definition JAR_VERSION_WILDCARD : string := "${file.jarVersion}".

Definition logErr (msg : string) : M ModState unit :=
  modify (λ s, mkModState (modMetadata s) (claritasResult s)
                 (modLogs s ++ [mkLog "NeoForgeModStructure" Error msg])).

Definition logDebug (msg : string) : M ModState unit :=
  modify (λ s, mkModState (modMetadata s) (claritasResult s)
                 (modLogs s ++ [mkLog "NeoForgeModStructure" Debug msg])).

Definition setModMetadata (name : string) (md : ModsToml) : M ModState unit :=
  modify (λ s, mkModState (<[name := md]> (modMetadata s)) (claritasResult s) (modLogs s)).

(** [zip.entryDataSync(entry)] throws when the entry is missing. *)
Definition entryDataSync (zip : StreamZip) (entry : string) : M ModState string :=
  match zip !! entry with
  | Some data => ret data
  | None => throw (IOError ("Entry not found: " +:+ entry))
  end.

Fixpoint forEachEntry {S A B} (f : A → M S B) (l : list A) : M S (list B) :=
  match l with
  | [] => ret []
  | x :: l' =>
      let* y := f x in
      let* ys := forEachEntry f l' in
      ret (y :: ys)
  end.

Section WithCollaborators.
Context `{Collaborators}.

(** The scan of the manifest lines: every matching line overwrites
    [version]. *)
Definition scanManifest (keys : list string) (version : string) : string :=
  fold_left
    (λ version key,
       match implementationVersionExec key with
       | Some captured => captured
       | None => version
       end)
    keys version.

(** The [try]/[catch] of the version wildcard. The only call that can throw
    is [entryDataSync], before [version] is first reassigned, so the handler
    sees the initial value. *)
Definition inferVersion (zip : StreamZip) (name : string) (crudeInference : CrudeInference)
  : M ModState string :=
  let version := crudeVersion crudeInference in
  tryCatch
    (let* manifest := entryDataSync zip "META-INF/MANIFEST.MF" in
     let keys := JS.splitChar JS.newline manifest in
     let version := scanManifest keys version in
     logDebug ("NeoForgeMod " +:+ name +:+ " contains a version wildcard, inferring " +:+ version) ;;;
     ret version)
    (λ _,
     logDebug ("NeoForgeMod " +:+ name +:+ " contains a version wildcard yet no MANIFEST.MF.. Defaulting to " +:+ version) ;;;
     ret version).

(** The body of [for (const entry of x.mods)]: the entry is updated in
    place, first its id and display name, then its version. *)
Definition processEntry (zip : StreamZip) (name : string) (claritasId : option string)
    (crudeInference : CrudeInference) (entry : ModEntry) : M ModState ModEntry :=
  let entry :=
    if String.eqb (modId entry) EXAMPLE_MOD_ID then
      mkModEntry (discernResult claritasId (JS.toLowerCase (crudeName crudeInference)))
                 (version entry)
                 (crudeName crudeInference)
                 (description entry)
    else entry in
  if String.eqb (version entry) JAR_VERSION_WILDCARD then
    let* version := inferVersion zip name crudeInference in
    ret (mkModEntry (modId entry) version (displayName entry) (description entry))
  else ret entry.

Definition processZip (zip : StreamZip) (name path : string) : M ModState ModsToml :=
  let* raw :=
    tryCatch (let* data := entryDataSync zip "META-INF/neoforge.mods.toml" in ret (Some data))
             (λ _, ret None) in
  match raw with
  | Some raw =>
      match tomlParse raw with
      | Some parsed => setModMetadata name parsed
      | None => logErr ("NeoForgeNeoMod " +:+ name +:+ " contains an invalid neoforge.mods.toml file.")
      end
  | None => logErr ("NeoForgeMod " +:+ name +:+ " does not contain neoforge.mods.toml file.")
  end ;;;
  let* cRes := gets (λ s, claritasResult s ≫= λ results, results !! path) in
  match cRes with
  | None =>
      logErr ("Claritas failed to yield metadata for NeoForgeMod " +:+ name +:+ "!") ;;;
      logErr "Is this mod malformatted or does Claritas need an update?"
  | Some _ => ret tt
  end ;;;
  let claritasId := cRes ≫= claritasIdOf in
  let crudeInference := attemptCrudeInference name in
  let* cached := gets (λ s, modMetadata s !! name) in
  match cached with
  | Some x =>
      match mods x with
      | None => throw (TypeError "x.mods is not iterable")
      | Some declared =>
          let* entries :=
            forEachEntry (processEntry zip name claritasId crudeInference) declared in
          let x := mkModsToml (modLoader x) (loaderVersion x) (Some entries) in
          setModMetadata name x ;;;
          ret x
      end
  | None =>
      let x := mkModsToml "javafml" EmptyString
                 (Some [mkModEntry (discernResult claritasId (JS.toLowerCase (crudeName crudeInference)))
                                   (crudeVersion crudeInference)
                                   (crudeName crudeInference)
                                   EmptyString]) in
      setModMetadata name x ;;;
      ret x
  end.

(** The entry that [processEntry] leaves, as a function of the archive: the
    state only receives log lines. *)
Definition resolvedEntry (zip : StreamZip) (claritasId : option string)
    (crudeInference : CrudeInference) (entry : ModEntry) : ModEntry :=
  let placeholder := String.eqb (modId entry) EXAMPLE_MOD_ID in
  mkModEntry
    (if placeholder then discernResult claritasId (JS.toLowerCase (crudeName crudeInference))
     else modId entry)
    (if String.eqb (version entry) JAR_VERSION_WILDCARD then
       match zip !! "META-INF/MANIFEST.MF" with
       | Some manifest =>
           scanManifest (JS.splitChar JS.newline manifest) (crudeVersion crudeInference)
       | None => crudeVersion crudeInference
       end
     else version entry)
    (if placeholder then crudeName crudeInference else displayName entry)
    (description entry).

(** The record synthesised for a unit without usable metadata. *)
Definition defaultMetadata (claritasId : option string) (crudeInference : CrudeInference) : ModsToml :=
  mkModsToml "javafml" EmptyString
    (Some [mkModEntry (discernResult claritasId (JS.toLowerCase (crudeName crudeInference)))
                      (crudeVersion crudeInference)
                      (crudeName crudeInference)
                      EmptyString]).

(** The document [processZip] works on: the one just parsed when the archive
    holds metadata that parses, else what the cache holds under the name. *)
Definition workingDocument (zip : StreamZip) (name : string) (s : ModState) : option ModsToml :=
  match zip !! "META-INF/neoforge.mods.toml" ≫= tomlParse with
  | Some parsed => Some parsed
  | None => modMetadata s !! name
  end.

(** [getModuleName], given the metadata that [getModMetadata] resolves to. *)
Definition getModuleName (fmData : ModsToml) : M ModState string :=
  match mods fmData with
  | None => throw (TypeError "Cannot read properties of undefined (reading '0')")
  | Some entries =>
      match entries !! 0%nat with
      | Some first => ret (capitalize (displayName first))
      | None => throw (TypeError "Cannot read properties of undefined (reading 'displayName')")
      end
  end.

End WithCollaborators.

End NeoForgeModStructure.

(* ===================================================================== *)
(** * NeoForgeResolver *)
(* ===================================================================== *)

Module NeoForgeResolver.

(** ** Paths and the file system

    Paths are strings with [/] as separator, as the resolver handles them.
    [pathJoin] does not normalise: the segments the resolver joins are plain
    names and already-normalised relative paths. *)

Definition pathJoin (segments : list string) : string := JS.join "/" segments.

Definition basename (p : string) : string := List.last (JS.splitChar "/" p) EmptyString.

Definition dirname (p : string) : string := JS.join "/" (List.removelast (JS.splitChar "/" p)).

(** [p] is [dir] itself or lies below it. *)
Definition within (dir p : string) : bool :=
  String.eqb p dir || JS.startsWith p (dir +:+ "/").

Inductive Node :=
| File (content : string)
| Dir.

Record Stats := mkStats { size : N }.

(** What the pipeline does to the disk and to child processes, in order. *)
Inductive Event :=
| EvPathExists (p : string)
| EvRead (p : string)
| EvLstat (p : string)
| EvWrite (p : string)
| EvCopy (src dst : string)
| EvRemove (p : string)
| EvMkdirs (p : string)
| EvSpawn (command : string) (args : list string) (cwd : string).

(** The paths probed with [pathExists], in order. *)
Definition probesOf (events : list Event) : list string :=
  omap (λ e, match e with EvPathExists p => Some p | _ => None end) events.

(** ** Data model *)

Module GeneratedFile.
Record t := mk {
  name : string;
  group : string;
  artifact : string;
  version : string;
  classifiers : list (option string);
  skipIfNotPresent : option bool;
  classpath : option bool
}.
Definition withVersion (f : t) (v : string) : t :=
  mk (name f) (group f) (artifact f) v (classifiers f) (skipIfNotPresent f) (classpath f).
End GeneratedFile.

(** The members of the distribution [Type] enumeration the resolver uses. *)
Inductive ModuleType := Library | ForgeHosted | VersionManifest.

Record Artifact := mkArtifact { artifactSize : N; MD5 : string; url : string }.

Inductive Module := mkModule {
  id : string;
  name : string;
  type : ModuleType;
  classpath : option bool;
  artifact : Artifact;
  subModules : option (list Module)
}.

Definition typeEqb (a b : ModuleType) : bool :=
  match a, b with
  | Library, Library | ForgeHosted, ForgeHosted | VersionManifest, VersionManifest => true
  | _, _ => false
  end.

(** How many modules of a tree have a given type. *)
Fixpoint countType (t : ModuleType) (m : Module) : nat :=
  match m with
  | mkModule _ _ ty _ _ subs =>
      ((if typeEqb ty t then 1 else 0) +
       match subs with
       | Some children =>
           (fix total (l : list Module) : nat :=
              match l with
              | [] => 0
              | child :: rest => countType t child + total rest
              end) children
       | None => 0
       end)%nat
  end.

Definition setType (m : Module) (t : ModuleType) : Module :=
  mkModule (id m) (name m) t (classpath m) (artifact m) (subModules m).

Definition setSubModules (m : Module) (subs : option (list Module)) : Module :=
  mkModule (id m) (name m) (type m) (classpath m) (artifact m) subs.

Module ManifestLibrary.
Record downloadArtifact := mkDownload {
  path : string;
  url : string;
  sha1 : string;
  size : N
}.
Record t := mk {
  name : string;
  downloads_artifact : downloadArtifact
}.
End ManifestLibrary.

(** [VersionManifestNeoForge] *)
Record VersionManifestNeoForge := mkVersionManifest {
  vm_id : string;
  vm_time : string;
  vm_releaseTime : string;
  vm_type : string;
  vm_mainClass : string;
  vm_inheritsFrom : string;
  arguments_game : list string;
  libraries : list ManifestLibrary.t
}.

Record MavenComponents := mkMavenComponents {
  mc_group : string;
  mc_artifact : string;
  mc_version : string;
  mc_classifier : option string;
  mc_extension : string
}.

(** ** State *)

(** The disk, the log, the trace of effects, and the two fields of the
    resolver object that are assigned after construction. *)
Record State := mkState {
  fs : gmap string Node;
  logs : list LogEntry;
  trace : list Event;
  generatedFiles : option (list GeneratedFile.t);
  wildcardsInUse : option (list string)
}.

Definition setFs (f : gmap string Node → gmap string Node) (s : State) : State :=
  mkState (f (fs s)) (logs s) (trace s) (generatedFiles s) (wildcardsInUse s).

Definition addTrace (events : list Event) (s : State) : State :=
  mkState (fs s) (logs s) (trace s ++ events) (generatedFiles s) (wildcardsInUse s).

Definition emit (e : Event) : M State unit := modify (addTrace [e]).

Definition log (who : string) (lvl : Level) (msg : string) : M State unit :=
  modify (λ s, mkState (fs s) (logs s ++ [mkLog who lvl msg]) (trace s) (generatedFiles s) (wildcardsInUse s)).

Definition setGeneratedFiles (g : option (list GeneratedFile.t)) : M State unit :=
  modify (λ s, mkState (fs s) (logs s) (trace s) g (wildcardsInUse s)).

(** ** File-system primitives ([fs-extra], [fs/promises]) *)

Definition pathExists (p : string) : M State bool :=
  emit (EvPathExists p) ;;;
  gets (λ s, bool_decide (is_Some (fs s !! p))).

Definition readFile (p : string) : M State string :=
  emit (EvRead p) ;;;
  let* node := gets (λ s, fs s !! p) in
  match node with
  | Some (File content) => ret content
  | Some Dir => throw (IOError ("EISDIR: " +:+ p))
  | None => throw (IOError ("ENOENT: " +:+ p))
  end.

(** The resolver calls [lstat] on files it has just read; the size reported
    for a directory is never used. *)
Definition lstat (p : string) : M State Stats :=
  emit (EvLstat p) ;;;
  let* node := gets (λ s, fs s !! p) in
  match node with
  | Some (File content) => ret (mkStats (N.of_nat (String.length content)))
  | Some Dir => ret (mkStats 0)
  | None => throw (IOError ("ENOENT: " +:+ p))
  end.

(** [remove(p)]: the path and everything below it; a missing path is not an
    error. *)
Definition remove (p : string) : M State unit :=
  emit (EvRemove p) ;;;
  modify (setFs (filter (λ kv, ¬ Is_true (within p kv.1)))).

Fixpoint inits {A} (l : list A) : list (list A) :=
  match l with
  | [] => [[]]
  | x :: l' => [] :: List.map (cons x) (inits l')
  end.

(** The ancestors of a path, outermost first, the path itself last. *)
Definition ancestors (p : string) : list string :=
  List.map pathJoin (List.tl (inits (JS.splitChar "/" p))).

Definition mkdirsFs (p : string) (f : gmap string Node) : option (gmap string Node) :=
  fold_left
    (λ acc d,
       match acc with
       | None => None
       | Some f =>
           match f !! d with
           | None => Some (<[d := Dir]> f)
           | Some Dir => Some f
           | Some (File _) => None
           end
       end)
    (ancestors p) (Some f).

Definition mkdirsQuiet (p : string) : M State unit :=
  let* f := gets fs in
  match mkdirsFs p f with
  | Some f' => modify (setFs (λ _, f'))
  | None => throw (IOError ("ENOTDIR: " +:+ p))
  end.

Definition mkdirs (p : string) : M State unit :=
  emit (EvMkdirs p) ;;; mkdirsQuiet p.

(** What [copy] makes of the disk when its source is a regular file with the
    given content: the error it refuses with, or the disk it leaves. *)
Definition copyFile (src dst content : string) (disk : gmap string Node)
  : Exn + gmap string Node :=
  if String.eqb src dst then inl (IOError "Source and destination must not be the same.")
  else
    match disk !! dst with
    | Some Dir =>
        inl (IOError ("Cannot overwrite directory '" +:+ dst +:+
                      "' with non-directory '" +:+ src +:+ "'."))
    | _ =>
        match mkdirsFs (dirname dst) disk with
        | Some prepared => inr (<[dst := File content]> prepared)
        | None => inl (IOError ("ENOTDIR: " +:+ dirname dst))
        end
    end.

(** [writeFile] needs the parent directory. *)
Definition writeFile (p content : string) : M State unit :=
  emit (EvWrite p) ;;;
  let* f := gets fs in
  match f !! dirname p, f !! p with
  | Some Dir, Some Dir => throw (IOError ("EISDIR: " +:+ p))
  | Some Dir, _ => modify (setFs (insert p (File content)))
  | _, _ => throw (IOError ("ENOENT: " +:+ p))
  end.

(** ** The resolver object and its collaborators *)

(** Constructor arguments. [minecraftVersion] is the version as its
    [toString()] renders it. *)
Record Resolver := mkResolver {
  baseUrl : string;
  minecraftVersion : string;
  neoforgeVersion : string;
  discardOutput : bool;
  invalidateCache : bool
}.

(** Classes and functions the resolver calls whose bodies are not part of the
    sources at hand: the repository structures, [MavenUtil], [JavaUtil],
    [BaseResolver.generateArtifact], [JSON.parse] at the manifest type, the
    download of the installer, and the installer process itself, which maps
    the disk to a new disk, the chunks it printed ([true] for stderr) and its
    exit code ([None] when killed by a signal).

    [resolveUrl input base] is [new URL(input, base).toString()], [None] when
    the constructor throws: the base is not an absolute URL, or the input
    cannot be parsed against it.

    [copyDirectory src dst disk] is what fs-extra's [copy] does below a
    source directory once its checks on the two paths have passed: the disk
    it leaves and, when it fails on the way (an entry below the source meets
    an entry of the other kind below the destination), the message of its
    error. The order of its visits is the library's. *)
Class Collaborators := {
  NEOFORGE_GROUP : string;
  NEOFORGE_ARTIFACT : string;
  MINECRAFT_GROUP : string;
  MINECRAFT_CLIENT_ARTIFACT : string;
  getLocalNeoForge : string → string → string;
  getNeoForgeCacheDirectory : string → string;
  versionRepoRelativeRoot : string;
  versionRepoContainerDirectory : string;
  getArtifactUrlByComponents : string → string → string → string → option string → option string → string;
  getArtifactByComponents : string → string → string → option string → option string → string;
  mavenComponentsAsNormalizedPath : string → string → string → option string → string;
  mavenComponentsToIdentifier : string → string → string → option string → string;
  getMavenComponents : string → MavenComponents;
  getJavaExecutable : string;
  generateArtifact : string → Stats → string → Artifact;
  parseManifest : string → option VersionManifestNeoForge;
  resolveUrl : string → string → option string;
  copyDirectory : string → string → gmap string Node → option string * gmap string Node;
  artifactExists : string → M State bool;
  downloadArtifactByComponents : string → string → string → string → string → string → M State unit;
  installerProcess : string → list string → string → gmap string Node
                     → gmap string Node * list (bool * string) * option Z
}.

Definition WILDCARD_NEOFORM_VERSION : string := "${formVersion}".
Definition REMOTE_REPOSITORY : string := "https://maven.neoforged.net/".

Definition resolverLogger : string := "NeoForgeResolver".
Definition installerLogger : string := "NeoForge Installer".

(** The exit code as the logger prints it. *)
Definition showExitCode (code : option Z) : string :=
  match code with
  | Some z => NilZero.string_of_int (Z.to_int z)
  | None => "null"
  end.

Fixpoint forEach {A} (f : A → M State unit) (l : list A) : M State unit :=
  match l with
  | [] => ret tt
  | x :: l' => f x ;;; forEach f l'
  end.

Section WithCollaborators.
Context `{Collaborators}.

(** ** [copy] of fs-extra

    With its default [overwrite], as the resolver calls it. The library
    first looks at the two paths: a missing source, a destination that is the
    source, a directory in the way of a file or a file in the way of a
    directory, and a destination inside the source directory are refused
    before anything is written. It then creates the parent directory of the
    destination and copies; a regular file replaces the file at the
    destination. *)
Definition copy (src dst : string) : M State unit :=
  emit (EvCopy src dst) ;;;
  let* disk := gets fs in
  match disk !! src with
  | None => throw (IOError ("ENOENT: " +:+ src))
  | Some node =>
      if String.eqb src dst then
        throw (IOError "Source and destination must not be the same.")
      else
        match node, disk !! dst with
        | File _, Some Dir =>
            throw (IOError ("Cannot overwrite directory '" +:+ dst +:+
                            "' with non-directory '" +:+ src +:+ "'."))
        | File content, _ =>
            mkdirsQuiet (dirname dst) ;;;
            modify (setFs (insert dst (File content)))
        | Dir, Some (File _) =>
            throw (IOError ("Cannot overwrite non-directory '" +:+ dst +:+
                            "' with directory '" +:+ src +:+ "'."))
        | Dir, _ =>
            if within src dst then
              throw (IOError ("Cannot copy '" +:+ src +:+
                              "' to a subdirectory of itself, '" +:+ dst +:+ "'."))
            else
              mkdirsQuiet (dirname dst) ;;;
              let* prepared := gets fs in
              let result := copyDirectory src dst prepared in
              modify (setFs (λ _, result.2)) ;;;
              match result.1 with
              | Some message => throw (IOError message)
              | None => ret tt
              end
        end
  end.

(** ** [configure] *)

Definition configuredFiles (self : Resolver) : list GeneratedFile.t :=
  let neoFormUnifiedVersion := minecraftVersion self +:+ "-" +:+ WILDCARD_NEOFORM_VERSION in
  [ GeneratedFile.mk "universal jar" NEOFORGE_GROUP NEOFORGE_ARTIFACT (neoforgeVersion self)
      [Some "universal"] None (Some false);
    GeneratedFile.mk "client jar" NEOFORGE_GROUP NEOFORGE_ARTIFACT (neoforgeVersion self)
      [Some "client"] None (Some false);
    GeneratedFile.mk "client extra" MINECRAFT_GROUP MINECRAFT_CLIENT_ARTIFACT neoFormUnifiedVersion
      [Some "extra"] None (Some false);
    GeneratedFile.mk "client slim" MINECRAFT_GROUP MINECRAFT_CLIENT_ARTIFACT neoFormUnifiedVersion
      [Some "slim"] None (Some false);
    GeneratedFile.mk "client srg" MINECRAFT_GROUP MINECRAFT_CLIENT_ARTIFACT neoFormUnifiedVersion
      [Some "srg"] None (Some false) ].

Definition configure (self : Resolver) : M State unit :=
  modify (λ s, mkState (fs s) (logs s) (trace s)
                 (Some (configuredFiles self)) (Some [WILDCARD_NEOFORM_VERSION])).

(** ** Installer *)

Definition getVersionManifestName (self : Resolver) : string :=
  "neoforge-" +:+ neoforgeVersion self.

Definition getVersionManifestPath (self : Resolver) (installerOutputDir : string) : string :=
  let versionName := getVersionManifestName self in
  pathJoin [installerOutputDir; "versions"; versionName; versionName +:+ ".json"].

(** The promise of [runInstaller] is resolved on [close] whatever the exit
    code; nothing rejects it. *)
Definition runInstaller (installerPath outputDir : string) : M State unit :=
  let args := ["-jar"; installerPath; "--installClient"; outputDir] in
  let cwd := dirname installerPath in
  emit (EvSpawn getJavaExecutable args cwd) ;;;
  let* disk := gets fs in
  let result := installerProcess getJavaExecutable args cwd disk in
  modify (setFs (λ _, result.1.1)) ;;;
  forEach (λ chunk : bool * string,
             log installerLogger (if chunk.1 then Error else Info) (JS.trim chunk.2))
          result.1.2 ;;;
  match result.2 with
  | Some 0%Z => log installerLogger Info ("Installer exited with code " +:+ showExitCode result.2)
  | code => log installerLogger Error ("Installer exited with code " +:+ showExitCode code)
  end.

Definition verifyInstallerRan (self : Resolver) (installerOutputDir : string) : M State unit :=
  let versionManifestPath := getVersionManifestPath self installerOutputDir in
  let* present := pathExists versionManifestPath in
  if negb present then
    remove installerOutputDir ;;;
    throw (JsError "NeoForge installation failed.")
  else ret tt.

(** ** Version manifest *)

Definition processVersionManifest (self : Resolver) (installerOutDir : string)
  : M State (VersionManifestNeoForge * Module) :=
  let manifestPath := getVersionManifestPath self installerOutDir in
  let manifestName := getVersionManifestName self in
  let* manifestBuffer := readFile manifestPath in
  match parseManifest manifestBuffer with
  | None => throw (SyntaxError "JSON.parse")
  | Some manifest =>
      let* stats := lstat manifestPath in
      match resolveUrl (pathJoin [versionRepoRelativeRoot; manifestName; manifestName +:+ ".json"])
                       (baseUrl self) with
      | None => throw (TypeError "Invalid URL")
      | Some url =>
          let manifestModule :=
            mkModule (neoforgeVersion self) "Minecraft NeoForge (version.json)" VersionManifest None
              (generateArtifact manifestBuffer stats url)
              None in
          let destination :=
            pathJoin [versionRepoContainerDirectory; manifestName; manifestName +:+ ".json"] in
          copy manifestPath destination ;;;
          ret (manifest, manifestModule)
      end
  end.

(** ** Generated files *)

(** [getNeoFormVersion]: the element after the first occurrence of the flag;
    [None] stands for both [null] and the [undefined] read past the end. *)
Fixpoint getNeoFormVersion (args : list string) : option string :=
  match args with
  | [] => None
  | arg :: rest =>
      if String.eqb arg "--fml.neoFormVersion" then List.head rest
      else getNeoFormVersion rest
  end.

Definition substituteVersion (mcpVersion : string) (f : GeneratedFile.t) : GeneratedFile.t :=
  if JS.includes (GeneratedFile.version f) WILDCARD_NEOFORM_VERSION then
    GeneratedFile.withVersion f
      (JS.replace (GeneratedFile.version f) WILDCARD_NEOFORM_VERSION mcpVersion)
  else f.

(** Lines 257-276 of [processNeoForgeModule]. *)
Definition substituteWildcards (versionManifest : VersionManifestNeoForge) : M State unit :=
  let* inUse := gets wildcardsInUse in
  match inUse with
  | Some wildcards =>
      if bool_decide (WILDCARD_NEOFORM_VERSION ∈ wildcards) then
        match getNeoFormVersion (arguments_game versionManifest) with
        | None => throw (JsError "NeoForm Version not found.. did NeoForge change their format?")
        | Some mcpVersion =>
            let* files := gets generatedFiles in
            match files with
            | None => throw (TypeError "Cannot read properties of undefined (reading 'map')")
            | Some files => setGeneratedFiles (Some (List.map (substituteVersion mcpVersion) files))
            end
        end
      else ret tt
  | None => ret tt
  end.

Definition generatedModule (self : Resolver) (entry : GeneratedFile.t) (_classifier : option string)
    (content : string) (stats : Stats) : Module :=
  mkModule
    (mavenComponentsToIdentifier (GeneratedFile.group entry) (GeneratedFile.artifact entry)
       (GeneratedFile.version entry) _classifier)
    ("Minecraft NeoForge (" +:+ GeneratedFile.name entry +:+ ")")
    Library
    (Some (default true (GeneratedFile.classpath entry)))
    (generateArtifact content stats
       (getArtifactUrlByComponents (baseUrl self) (GeneratedFile.group entry)
          (GeneratedFile.artifact entry) (GeneratedFile.version entry) _classifier None))
    (Some []).

Definition targetLocalPathOf (libDir : string) (entry : GeneratedFile.t) (_classifier : option string) : string :=
  pathJoin [libDir;
            mavenComponentsAsNormalizedPath (GeneratedFile.group entry) (GeneratedFile.artifact entry)
              (GeneratedFile.version entry) _classifier].

(** The labelled [classifierLoop]. It returns [located], the
    [targetLocations] collected so far and the grown [mdls]. *)
Fixpoint classifierLoop (self : Resolver) (libDir : string) (entry : GeneratedFile.t)
    (remaining : list (option string)) (targetLocations : list string) (mdls : list Module)
  : M State (bool * list string * list Module) :=
  match remaining with
  | [] => ret (false, targetLocations, mdls)
  | _classifier :: rest =>
      let targetLocalPath := targetLocalPathOf libDir entry _classifier in
      let targetLocations := targetLocations ++ [targetLocalPath] in
      let* present := pathExists targetLocalPath in
      if present then
        let* content := readFile targetLocalPath in
        let* stats := lstat targetLocalPath in
        let mdls := mdls ++ [generatedModule self entry _classifier content stats] in
        let destination :=
          getArtifactByComponents (GeneratedFile.group entry) (GeneratedFile.artifact entry)
            (GeneratedFile.version entry) _classifier None in
        copy targetLocalPath destination ;;;
        ret (true, targetLocations, mdls)
      else classifierLoop self libDir entry rest targetLocations mdls
  end.

Definition notFoundMessage (entry : GeneratedFile.t) (targetLocations : list string) : string :=
  "Required file " +:+ GeneratedFile.name entry +:+ " not found at any expected location:" +:+
  String JS.newline (String JS.tab
    (JS.join (String JS.newline (String JS.tab EmptyString)) targetLocations)).

(** One turn of [for (const entry of this.generatedFiles!)]. *)
Definition processGeneratedFile (self : Resolver) (libDir : string) (entry : GeneratedFile.t)
    (mdls : list Module) : M State (list Module) :=
  let* result := classifierLoop self libDir entry (GeneratedFile.classifiers entry) [] mdls in
  let located := result.1.1 in
  let targetLocations := result.1.2 in
  if negb (default false (GeneratedFile.skipIfNotPresent entry)) && negb located then
    throw (JsError (notFoundMessage entry targetLocations))
  else ret result.2.

Fixpoint generatedFilesLoop (self : Resolver) (libDir : string) (entries : list GeneratedFile.t)
    (mdls : list Module) : M State (list Module) :=
  match entries with
  | [] => ret mdls
  | entry :: rest =>
      let* mdls := processGeneratedFile self libDir entry mdls in
      generatedFilesLoop self libDir rest mdls
  end.

Definition processNeoForgeModule (self : Resolver) (versionManifest : VersionManifestNeoForge)
    (installerOutputDir : string) : M State Module :=
  let libDir := pathJoin [installerOutputDir; "libraries"] in
  substituteWildcards versionManifest ;;;
  let* files := gets generatedFiles in
  match files with
  | None => throw (TypeError "undefined is not iterable")
  | Some entries =>
      let* mdls := generatedFilesLoop self libDir entries [] in
      match mdls with
      | [] => throw (TypeError "Cannot set properties of undefined (setting 'type')")
      | forgeModule :: mdls =>
          let forgeModule := setType forgeModule ForgeHosted in
          let forgeModule := setSubModules forgeModule (Some mdls) in
          ret forgeModule
      end
  end.

(** ** Libraries *)

Definition libraryModule (self : Resolver) (entry : ManifestLibrary.t) (content : string)
    (stats : Stats) : Module :=
  let components := getMavenComponents (ManifestLibrary.name entry) in
  mkModule
    (ManifestLibrary.name entry)
    ("Minecraft NeoForge (" +:+ mc_artifact components +:+ ")")
    Library
    None
    (generateArtifact content stats
       (getArtifactUrlByComponents (baseUrl self) (mc_group components) (mc_artifact components)
          (mc_version components) (mc_classifier components) (Some (mc_extension components))))
    None.

Fixpoint librariesLoop (self : Resolver) (libDir : string) (entries : list ManifestLibrary.t)
    (mdls : list Module) : M State (list Module) :=
  match entries with
  | [] => ret mdls
  | entry :: rest =>
      let artifact := ManifestLibrary.downloads_artifact entry in
      if negb (String.eqb (ManifestLibrary.url artifact) EmptyString) then
        let targetLocalPath := pathJoin [libDir; ManifestLibrary.path artifact] in
        let* present := pathExists targetLocalPath in
        if negb present then
          throw (JsError ("Expected library " +:+ ManifestLibrary.name entry +:+ " not found!"))
        else
          let components := getMavenComponents (ManifestLibrary.name entry) in
          let* content := readFile targetLocalPath in
          let* stats := lstat targetLocalPath in
          let mdls := mdls ++ [libraryModule self entry content stats] in
          let destination :=
            getArtifactByComponents (mc_group components) (mc_artifact components)
              (mc_version components) (mc_classifier components) (Some (mc_extension components)) in
          copy targetLocalPath destination ;;;
          librariesLoop self libDir rest mdls
      else librariesLoop self libDir rest mdls
  end.

Definition processLibraries (self : Resolver) (manifest : VersionManifestNeoForge)
    (installerOutputDir : string) : M State (list Module) :=
  let libDir := pathJoin [installerOutputDir; "libraries"] in
  librariesLoop self libDir (libraries manifest) [].

(** ** The pipeline *)

Definition processWithInstaller (self : Resolver) (installerPath : string) : M State Module :=
  let cacheDir := getNeoForgeCacheDirectory (neoforgeVersion self) in
  let* cached := pathExists cacheDir in
  let* installLoader :=
    (if cached then
       if invalidateCache self then
         log resolverLogger Info ("Removing existing cache " +:+ cacheDir +:+ "..") ;;;
         remove cacheDir ;;;
         ret true
       else
         log resolverLogger Info ("Using cached results at " +:+ cacheDir +:+ ".") ;;;
         ret false
     else
       mkdirs cacheDir ;;;
       ret true) in
  let installerOutDir := cacheDir in
  (if installLoader : bool then
     let installer := pathJoin [installerOutDir; basename installerPath] in
     copy installerPath installer ;;;
     writeFile (pathJoin [installerOutDir; "launcher_profiles.json"]) "{}" ;;;
     log resolverLogger Debug "Starting NeoForge installer." ;;;
     runInstaller installer installerOutDir ;;;
     log resolverLogger Debug "Installer finished, beginning processing.."
   else ret tt) ;;;
  verifyInstallerRan self installerOutDir ;;;
  log resolverLogger Debug "Processing Version Manifest" ;;;
  let* versionManifestTuple := processVersionManifest self installerOutDir in
  let versionManifest := versionManifestTuple.1 in
  log resolverLogger Debug "Processing generated NeoForge files." ;;;
  let* forgeModule := processNeoForgeModule self versionManifest installerOutDir in
  let forgeModule :=
    match subModules forgeModule with
    | Some subs => setSubModules forgeModule (Some (versionManifestTuple.2 :: subs))
    | None => forgeModule
    end in
  log resolverLogger Debug "Processing Libraries" ;;;
  let* libs := processLibraries self versionManifest installerOutDir in
  let forgeModule :=
    setSubModules forgeModule
      (match subModules forgeModule with
       | Some subs => Some (subs ++ libs)
       | None => None
       end) in
  (if discardOutput self then
     log resolverLogger Info ("Removing installer output at " +:+ installerOutDir +:+ "..") ;;;
     remove installerOutDir ;;;
     log resolverLogger Info "Removed installer output successfully."
   else ret tt) ;;;
  ret forgeModule.

Definition process (self : Resolver) : M State Module :=
  let installerPath := getLocalNeoForge (neoforgeVersion self) "installer" in
  log resolverLogger Debug ("Checking for NeoForge installer at " +:+ installerPath +:+ "..") ;;;
  let* present := artifactExists installerPath in
  (if negb present then
     log resolverLogger Debug "NeoForge installer not found locally, initializing download.." ;;;
     downloadArtifactByComponents REMOTE_REPOSITORY NEOFORGE_GROUP NEOFORGE_ARTIFACT
       (neoforgeVersion self) "installer" "jar"
   else log resolverLogger Debug "Using locally discovered NeoForge installer.") ;;;
  log resolverLogger Debug
    ("Beginning processing of NeoForge v" +:+ neoforgeVersion self +:+
     " (Minecraft " +:+ minecraftVersion self +:+ ")") ;;;
  processWithInstaller self installerPath.

(** [getModule] *)
Definition getModule (self : Resolver) : M State Module := process self.

(** ** The stages of [processWithInstaller]

    The pipeline read in three parts, around the call of [runInstaller] and
    the call of [verifyInstallerRan]. *)

(** Lines 135-156: the cache check and, when the loader is to be installed,
    the copy of the installer into the output directory and the launcher
    profile. The result is [installLoader]. *)
Definition beforeInstaller (self : Resolver) (installerPath : string) : M State bool :=
  let cacheDir := getNeoForgeCacheDirectory (neoforgeVersion self) in
  let* cached := pathExists cacheDir in
  let* installLoader :=
    (if cached then
       if invalidateCache self then
         log resolverLogger Info ("Removing existing cache " +:+ cacheDir +:+ "..") ;;;
         remove cacheDir ;;;
         ret true
       else
         log resolverLogger Info ("Using cached results at " +:+ cacheDir +:+ ".") ;;;
         ret false
     else
       mkdirs cacheDir ;;;
       ret true) in
  let installerOutDir := cacheDir in
  if installLoader : bool then
    let installer := pathJoin [installerOutDir; basename installerPath] in
    copy installerPath installer ;;;
    writeFile (pathJoin [installerOutDir; "launcher_profiles.json"]) "{}" ;;;
    ret true
  else ret false.

(** Lines 158-160: the run of the installer between its two log lines. *)
Definition installLoaderStage (installer installerOutDir : string) : M State unit :=
  log resolverLogger Debug "Starting NeoForge installer." ;;;
  runInstaller installer installerOutDir ;;;
  log resolverLogger Debug "Installer finished, beginning processing..".

(** Lines 165-186: what follows the verification. *)
Definition afterVerification (self : Resolver) (installerOutDir : string) : M State Module :=
  log resolverLogger Debug "Processing Version Manifest" ;;;
  let* versionManifestTuple := processVersionManifest self installerOutDir in
  let versionManifest := versionManifestTuple.1 in
  log resolverLogger Debug "Processing generated NeoForge files." ;;;
  let* forgeModule := processNeoForgeModule self versionManifest installerOutDir in
  let forgeModule :=
    match subModules forgeModule with
    | Some subs => setSubModules forgeModule (Some (versionManifestTuple.2 :: subs))
    | None => forgeModule
    end in
  log resolverLogger Debug "Processing Libraries" ;;;
  let* libs := processLibraries self versionManifest installerOutDir in
  let forgeModule :=
    setSubModules forgeModule
      (match subModules forgeModule with
       | Some subs => Some (subs ++ libs)
       | None => None
       end) in
  (if discardOutput self then
     log resolverLogger Info ("Removing installer output at " +:+ installerOutDir +:+ "..") ;;;
     remove installerOutDir ;;;
     log resolverLogger Info "Removed installer output successfully."
   else ret tt) ;;;
  ret forgeModule.

(** ** Vocabulary for the shape of the result *)

(** A spec together with the classifier variant that was accepted for it and
    the file that was read. *)
Record Pick := mkPick {
  pickEntry : GeneratedFile.t;
  pickClassifier : option string;
  pickContent : string;
  pickStats : Stats
}.

Definition pickModule (self : Resolver) (p : Pick) : Module :=
  generatedModule self (pickEntry p) (pickClassifier p) (pickContent p) (pickStats p).

(** A manifest library that declares a download URL. *)
Definition hasUrl (entry : ManifestLibrary.t) : bool :=
  negb (String.eqb (ManifestLibrary.url (ManifestLibrary.downloads_artifact entry)) EmptyString).

End WithCollaborators.

(** A computation that never assigns [generatedFiles]. *)
Definition keepsSpecs {A} (m : M State A) : Prop :=
  ∀ s r s', m s = (r, s') → generatedFiles s' = generatedFiles s.

(** A computation whose exceptions all satisfy [P]. *)
Definition raisesOnly (P : Exn → Prop) {A} (m : M State A) : Prop :=
  ∀ s e s', m s = (Throw e, s') → P e.

Definition installationFailed : Exn := JsError "NeoForge installation failed.".

(** Exceptions other than the installation error. *)
Definition elsewhere (e : Exn) : Prop := e ≠ installationFailed.

(** [isForVersion] *)
Definition isForVersion `{VersionUtil.Numbers} (version : VersionUtil.MinecraftVersion)
    (libraryVersion : string) : bool :=
  if N.eqb (VersionUtil.getMinor version) 12 && VersionUtil.isOneDotTwelveFG2 libraryVersion
  then false
  else VersionUtil.isVersionAcceptable version [12; 13; 14; 15; 16; 17; 18; 19; 20; 21]%N.

(** The child processes started, in order. *)
Definition spawnsOf (events : list Event) : list Event :=
  List.filter (λ e, match e with EvSpawn _ _ _ => true | _ => false end) events.

(** A computation that starts no process. *)
Definition spawnFree {A} (m : M State A) : Prop :=
  ∀ s r s', m s = (r, s') → spawnsOf (trace s') = spawnsOf (trace s).

(** A computation that starts no process, or [ev] and nothing else. *)
Definition spawnsAtMost (ev : Event) {A} (m : M State A) : Prop :=
  ∀ s r s', m s = (r, s') →
    spawnsOf (trace s') = spawnsOf (trace s) ∨ spawnsOf (trace s') = spawnsOf (trace s) ++ [ev].

End NeoForgeResolver.

(* ===================================================================== *)
(** * The promotion resolvers seen as one family-indexed resolver *)
(* ===================================================================== *)

Module Promotion.
Import VersionUtil.

(** The fetched index of a loader family. *)
Inductive PromotionIndex :=
| ForgeIndex (res : PromotionsSlim)
| NeoForgeIndex (index : NeoForgeVersionIndex)
| FabricIndex (fabricLoaderMeta : list FabricLoaderMeta).

(** The resolver of each family. *)
Definition getPromotedVersion (idx : PromotionIndex) (minecraftVersion : MinecraftVersion)
    (promotion : string) : M Logs string :=
  match idx with
  | ForgeIndex res => getPromotedForgeVersion res minecraftVersion promotion
  | NeoForgeIndex index => getPromotedNeoForgeVersion index minecraftVersion promotion
  | FabricIndex meta => getPromotedFabricVersion meta promotion
  end.

(** What "the lookup for a promotion kind" means in each index shape: a key
    of the flat map, a walk of the version list, a search of the loader list
    (the first stable loader for "recommended", the first loader otherwise). *)
Definition lookupPromotion (idx : PromotionIndex) (minecraftVersion : MinecraftVersion)
    (kind : string) : option string :=
  match idx with
  | ForgeIndex res => promos res !! (mcToString minecraftVersion +:+ "-" +:+ kind)
  | NeoForgeIndex index =>
      findNeoForgePromotedVersion index (String.eqb kind "recommended")
        (workingVersionOf minecraftVersion)
  | FabricIndex meta =>
      if String.eqb kind "recommended"
      then fabricVersion <$> List.find fabricStable meta
      else fabricVersion <$> meta !! 0%nat
  end.

(** An entry the selection may return: it matches the prefix and, under the
    stability filter, does not end in [-beta]. *)
Definition eligible (stable : bool) (workingVersion version : string) : bool :=
  JS.startsWith version workingVersion && (negb stable || negb (JS.endsWith version "-beta")).

Definition hasFallback (idx : PromotionIndex) : bool :=
  match idx with
  | FabricIndex _ => false
  | _ => true
  end.

Definition familyName (idx : PromotionIndex) : string :=
  match idx with
  | ForgeIndex _ => "Forge"
  | NeoForgeIndex _ => "NeoForge"
  | FabricIndex _ => "Fabric"
  end.

Definition missWarning (idx : PromotionIndex) (minecraftVersion : MinecraftVersion)
    (promotion : string) : LogEntry :=
  mkLog "VersionUtil" Warn
    ("No " +:+ JS.toLowerCase promotion +:+ " version found for " +:+ familyName idx +:+ " " +:+
     mcToString minecraftVersion +:+ ".").

Definition fallbackWarning : LogEntry := mkLog "VersionUtil" Warn attemptLatest.

End Promotion.

(* ===================================================================== *)
(** * Sample data *)
(* ===================================================================== *)

Module Samples.
Import VersionUtil.

Definition mc1201 : MinecraftVersion := mkMinecraftVersion 1 20 (Some 1%N) "1.20.1".

Definition forgeOnlyLatest : PromotionsSlim :=
  mkPromotionsSlim {[ "1.20.1-latest" := "47.2.0" ]}.

Definition neoIndex : NeoForgeVersionIndex :=
  mkNeoForgeVersionIndex ["20.1.10"; "20.1.50-beta"; "20.2.3"; "20.1.60"; "20.1.70-beta"].

Definition neoOnlyBeta : NeoForgeVersionIndex :=
  mkNeoForgeVersionIndex ["20.1.50-beta"; "20.2.3"].

Definition fabricNoStable : list FabricLoaderMeta :=
  [mkFabricLoaderMeta "0.15.0" false; mkFabricLoaderMeta "0.14.9" false].

(** A stand-in for JavaScript numbers on the strings that occur in version
    numbers: decimal digits give their value (the empty string gives 0),
    anything else is [NaN], here [None]; a comparison with [NaN] is [false]. *)
Fixpoint digitsValue (acc : N) (s : string) : option N :=
  match s with
  | EmptyString => Some acc
  | String c rest =>
      match Ascii.is_nat c with
      | Some d => digitsValue (acc * 10 + N.of_nat d) rest
      | None => None
      end
  end.

Definition decimalNumbers : Numbers := {|
  Num := option N;
  jsNumber := digitsValue 0;
  gt := λ a b, match a, b with
               | Some x, Some y => N.ltb y x
               | _, _ => false
               end;
  literal := Some
|}.

Definition fabricMixed : list FabricLoaderMeta :=
  [mkFabricLoaderMeta "0.16.0-beta" false; mkFabricLoaderMeta "0.15.11" true;
   mkFabricLoaderMeta "0.15.10" true].

End Samples.


(** Stand-ins for the collaborators of the mod structure, enough to run it
    on the examples of section 8 of the specification. *)
Module ModSamples.
Import NeoForgeModStructure.

(** Modelled from the spec: the filename heuristic is not among the sources;
    for "CoolMod-1.0.jar" it yields the name "CoolMod" and the version guess
    "1.0" (text before and after the first dash, extension dropped). *)
Definition sampleCrudeInference (name : string) : CrudeInference :=
  let stem := match JS.splitFirst name ".jar" with
              | Some (pre, _) => pre
              | None => name
              end in
  match JS.splitFirst stem "-" with
  | Some (pre, post) => mkCrudeInference pre post
  | None => mkCrudeInference (JS.toLowerCase stem) "0.0.0"
  end.

(** Modelled from the spec: "one line matches a fixed implementation-version
    pattern whose captured value is the recovered version"; the line
    [Implementation-Version: 3.2.1] captures [3.2.1]. *)
Definition sampleImplementationVersion (key : string) : option string :=
  if JS.startsWith key "Implementation-Version: " then
    match JS.trimEnd (String.substring 24 (String.length key) key) with
    | EmptyString => None
    | captured => Some captured
    end
  else None.

Definition upperChar (c : ascii) : ascii :=
  let n := nat_of_ascii c in
  if (97 <=? n)%nat && (n <=? 122)%nat then ascii_of_nat (n - 32) else c.

Definition sampleCapitalize (s : string) : string :=
  match s with
  | EmptyString => EmptyString
  | String c rest => String (upperChar c) rest
  end.

Definition placeholderEntries : list ModEntry :=
  [mkModEntry "examplemod" "${file.jarVersion}" "Example Mod" "An example."].

Definition placeholderToml : ModsToml :=
  mkModsToml "javafml" "[1,)" (Some placeholderEntries).

(** The parser, on the one document the examples use. *)
Definition sampleTomlParse (raw : string) : option ModsToml :=
  if String.eqb raw "placeholder.toml" then Some placeholderToml else None.

#[export] Instance sampleCollaborators : Collaborators := {|
  EXAMPLE_MOD_ID := "examplemod";
  attemptCrudeInference := sampleCrudeInference;
  implementationVersionExec := sampleImplementationVersion;
  tomlParse := sampleTomlParse;
  capitalize := sampleCapitalize
|}.

Definition lf : string := String JS.newline EmptyString.

Definition manifestOneVersion : string :=
  "Manifest-Version: 1.0" +:+ lf +:+ "Implementation-Version: 3.2.1" +:+ lf.

Definition manifestTwoVersions : string :=
  "Implementation-Version: 1.0.0" +:+ lf +:+ "Created-By: gradle" +:+ lf +:+
  "Implementation-Version: 2.0.0" +:+ lf.

Definition manifestNoVersion : string :=
  "Manifest-Version: 1.0" +:+ lf.

Definition zipWith (manifest : option string) : StreamZip :=
  match manifest with
  | Some text => {[ "META-INF/neoforge.mods.toml" := "placeholder.toml"; "META-INF/MANIFEST.MF" := text ]}
  | None => {[ "META-INF/neoforge.mods.toml" := "placeholder.toml" ]}
  end.

Definition declaredEntries : list ModEntry :=
  [mkModEntry "coolmod" "1.4.2" "Cool Mod" "Cool things.";
   mkModEntry "coolmod_extras" "1.4.2" "Cool Mod Extras" "More cool things."].

Definition declaredToml : ModsToml :=
  mkModsToml "javafml" "[2,)" (Some declaredEntries).

(** A file with the two header keys and no [[mods]] table. *)
Definition headerOnlyToml : ModsToml :=
  mkModsToml "javafml" "[2,)" None.

Definition passThroughCollaborators : Collaborators := {|
  EXAMPLE_MOD_ID := "examplemod";
  attemptCrudeInference := sampleCrudeInference;
  implementationVersionExec := sampleImplementationVersion;
  tomlParse := λ raw,
    if String.eqb raw "declared.toml" then Some declaredToml
    else if String.eqb raw "header.toml" then Some headerOnlyToml
    else None;
  capitalize := sampleCapitalize
|}.

Definition declaredZip : StreamZip :=
  {[ "META-INF/neoforge.mods.toml" := "declared.toml" ]}.

Definition headerOnlyZip : StreamZip :=
  {[ "META-INF/neoforge.mods.toml" := "header.toml" ]}.

Definition jarName : string := "CoolMod-1.0.jar".
Definition jarPath : string := "/mods/CoolMod-1.0.jar".

Definition stateWithHint (hint : option string) : ModState :=
  mkModState ∅ (Some {[ jarPath := mkClaritas (Some "com.example") hint ]}) [].

End ModSamples.

(** Stand-ins for the collaborators of the resolver: a Maven-style layout,
    an installer that unpacks a fixed distribution and exits with code 1, and
    a parser that knows the one manifest the installer writes. *)
Module ResolverSamples.
Import NeoForgeResolver.

Definition classifierSuffix (sep : string) (classifier : option string) : string :=
  match classifier with
  | Some c => sep +:+ c
  | None => EmptyString
  end.

(** Modelled from the spec: section 6, "local directory trees keyed by
    group/artifact/version/classifier (Maven-style)". *)
Definition samplePath (group artifact version : string) (classifier : option string) : string :=
  group +:+ "/" +:+ artifact +:+ "/" +:+ version +:+ "/" +:+
  artifact +:+ "-" +:+ version +:+ classifierSuffix "-" classifier +:+ ".jar".

(** Modelled from the spec: "a coordinate-derived identifier". *)
Definition sampleIdentifier (group artifact version : string) (classifier : option string) : string :=
  group +:+ ":" +:+ artifact +:+ ":" +:+ version +:+ classifierSuffix ":" classifier.

Definition sampleComponents (name : string) : MavenComponents :=
  match JS.splitChar ":" name with
  | [g; a; v] => mkMavenComponents g a v None "jar"
  | [g; a; v; c] => mkMavenComponents g a v (Some c) "jar"
  | _ => mkMavenComponents name name EmptyString None "jar"
  end.

Definition sampleManifest : VersionManifestNeoForge :=
  mkVersionManifest "neoforge-20.1.88" "2023-11-01" "2023-11-01" "release"
    "cpw.mods.bootstraplauncher.BootstrapLauncher" "1.20.1"
    ["--launchTarget"; "forgeclient"; "--fml.neoFormVersion"; "20231019.002401";
     "--fml.mcVersion"; "1.20.1"]
    [ManifestLibrary.mk "cpw.mods:securejarhandler:2.1.24"
       (ManifestLibrary.mkDownload "cpw/mods/securejarhandler/2.1.24/securejarhandler-2.1.24.jar"
          "https://maven.neoforged.net/securejarhandler-2.1.24.jar" "da39a3ee" 6);
     ManifestLibrary.mk "net.neoforged:embedded:1.0"
       (ManifestLibrary.mkDownload "net/neoforged/embedded/1.0/embedded-1.0.jar" EmptyString EmptyString 0);
     ManifestLibrary.mk "org.ow2.asm:asm:9.5"
       (ManifestLibrary.mkDownload "org/ow2/asm/asm/9.5/asm-9.5.jar"
          "https://maven.neoforged.net/asm-9.5.jar" "da39a3ef" 3)].

Definition sampleParseManifest (raw : string) : option VersionManifestNeoForge :=
  if String.eqb raw "version.json" then Some sampleManifest else None.

(** What the sample installer leaves below its output directory. *)
Definition installedFiles (outDir : string) : gmap string Node :=
  list_to_map
    [(outDir +:+ "/versions/neoforge-20.1.88/neoforge-20.1.88.json", File "version.json");
     (outDir +:+ "/libraries/" +:+ samplePath "net.neoforged" "neoforge" "20.1.88" (Some "universal"),
      File "universal");
     (outDir +:+ "/libraries/" +:+ samplePath "net.neoforged" "neoforge" "20.1.88" (Some "client"),
      File "client");
     (outDir +:+ "/libraries/" +:+
        samplePath "net.minecraft" "client" "1.20.1-20231019.002401" (Some "extra"), File "extra");
     (outDir +:+ "/libraries/" +:+
        samplePath "net.minecraft" "client" "1.20.1-20231019.002401" (Some "slim"), File "slim");
     (outDir +:+ "/libraries/" +:+
        samplePath "net.minecraft" "client" "1.20.1-20231019.002401" (Some "srg"), File "srg");
     (outDir +:+ "/libraries/cpw/mods/securejarhandler/2.1.24/securejarhandler-2.1.24.jar",
      File "secure");
     (outDir +:+ "/libraries/org/ow2/asm/asm/9.5/asm-9.5.jar", File "asm")].

Definition sampleInstaller (command : string) (args : list string) (cwd : string)
    (disk : gmap string Node) : gmap string Node * list (bool * string) * option Z :=
  match args with
  | [_; _; _; outDir] =>
      (installedFiles outDir ∪ disk, [(false, "Extracting libraries  "); (true, " deprecated flag")],
       Some 1%Z)
  | _ => (disk, [(true, "usage")], Some 2%Z)
  end.

(** The entries of a directory tree rooted at [src], re-rooted at [dst]. *)
Definition rerooted (src dst : string) (f : gmap string Node) : gmap string Node :=
  list_to_map
    (omap (λ kv : string * Node,
             if within src kv.1
             then Some (dst +:+ String.substring (String.length src) (String.length kv.1) kv.1, kv.2)
             else None)
          (map_to_list f)).

(** A recursive copy that meets no conflict: the entries below the source
    replace those of the same path below the destination. *)
Definition sampleCopyDirectory (src dst : string) (disk : gmap string Node)
  : option string * gmap string Node :=
  (None, rerooted src dst disk ∪ disk).

(** URL resolution against a base with a scheme; any other base is refused. *)
Definition sampleResolveUrl (relative base : string) : option string :=
  if JS.includes base "://" then Some (base +:+ relative) else None.

(** An installer that writes the version manifest and nothing else, and
    exits with code 0. *)
Definition manifestOnlyInstaller (command : string) (args : list string) (cwd : string)
    (disk : gmap string Node) : gmap string Node * list (bool * string) * option Z :=
  match args with
  | [_; _; _; outDir] =>
      (<[outDir +:+ "/versions/neoforge-20.1.88/neoforge-20.1.88.json" := File "version.json"]> disk,
       [(false, "Done")], Some 0%Z)
  | _ => (disk, [(true, "usage")], Some 2%Z)
  end.

(** An installer that crashes without writing anything. *)
Definition brokenInstaller (command : string) (args : list string) (cwd : string)
    (disk : gmap string Node) : gmap string Node * list (bool * string) * option Z :=
  (disk, [(true, "java.lang.OutOfMemoryError")], Some 0%Z).

Definition collaboratorsWith
    (installer : string → list string → string → gmap string Node
                 → gmap string Node * list (bool * string) * option Z) : Collaborators := {|
  NEOFORGE_GROUP := "net.neoforged";
  NEOFORGE_ARTIFACT := "neoforge";
  MINECRAFT_GROUP := "net.minecraft";
  MINECRAFT_CLIENT_ARTIFACT := "client";
  getLocalNeoForge := λ version classifier,
    "/repo/lib/" +:+ samplePath "net.neoforged" "neoforge" version (Some classifier);
  getNeoForgeCacheDirectory := λ version, "/cache/neoforge/" +:+ version;
  versionRepoRelativeRoot := "repo/versions";
  versionRepoContainerDirectory := "/repo/versions";
  getArtifactUrlByComponents := λ base group artifact version classifier extension,
    base +:+ "repo/lib/" +:+ samplePath group artifact version classifier;
  getArtifactByComponents := λ group artifact version classifier extension,
    "/repo/lib/" +:+ samplePath group artifact version classifier;
  mavenComponentsAsNormalizedPath := samplePath;
  mavenComponentsToIdentifier := sampleIdentifier;
  getMavenComponents := sampleComponents;
  getJavaExecutable := "java";
  generateArtifact := λ content stats url, mkArtifact (size stats) ("md5(" +:+ content +:+ ")") url;
  parseManifest := sampleParseManifest;
  resolveUrl := sampleResolveUrl;
  copyDirectory := sampleCopyDirectory;
  artifactExists := pathExists;
  downloadArtifactByComponents := λ repo group artifact version classifier extension,
    modify (setFs (insert ("/repo/lib/" +:+ samplePath group artifact version (Some classifier))
                          (File "downloaded")));
  installerProcess := installer
|}.

Definition sampleCollaborators : Collaborators := collaboratorsWith sampleInstaller.
Definition brokenCollaborators : Collaborators := collaboratorsWith brokenInstaller.
Definition manifestOnlyCollaborators : Collaborators := collaboratorsWith manifestOnlyInstaller.

Definition sampleResolver : Resolver :=
  mkResolver "https://example.org/" "1.20.1" "20.1.88" false false.

Definition emptyState (disk : gmap string Node) : State := mkState disk [] [] None None.

(** The state a freshly constructed resolver starts from. *)
Definition constructed (C : Collaborators) (self : Resolver) (disk : gmap string Node) : State :=
  (@configure C self (emptyState disk)).2.

Definition manifestWithArguments (args : list string) : VersionManifestNeoForge :=
  mkVersionManifest "neoforge-20.1.88" EmptyString EmptyString "release" EmptyString "1.20.1" args [].

(** A resolver state that holds a single generated-file spec. *)
Definition oneSpec (version : string) : GeneratedFile.t :=
  GeneratedFile.mk "client extra" "net.minecraft" "client" version [Some "extra"] None (Some false).

Definition oneSpecState (version : string) : State :=
  mkState ∅ [] [] (Some [oneSpec version]) (Some [WILDCARD_NEOFORM_VERSION]).

(** Section 8, classifier fallback order: two acceptable variants. *)
Definition twoVariants : GeneratedFile.t :=
  GeneratedFile.mk "universal jar" "net.neoforged" "neoforge" "20.1.88"
    [Some "universal"; Some "client"] None (Some false).

Definition onlyClientOnDisk : gmap string Node :=
  {[ "/cache/libraries/net.neoforged/neoforge/20.1.88/neoforge-20.1.88-client.jar" := File "client" ]}.

Definition freshDisk : gmap string Node :=
  {[ "/repo/lib/net.neoforged/neoforge/20.1.88/neoforge-20.1.88-installer.jar" := File "installer" ]}.

(** The [client] variant in the installer output, and a directory where its
    copy in the artifact repository should go. *)
Definition destinationTaken : gmap string Node :=
  <["/repo/lib/net.neoforged/neoforge/20.1.88/neoforge-20.1.88-client.jar" := Dir]> onlyClientOnDisk.

(** A spec that tolerates absence. *)
Definition tolerantSpec : GeneratedFile.t :=
  GeneratedFile.mk "server jar" "net.neoforged" "neoforge" "20.1.88"
    [Some "server"; Some "server-slim"] (Some true) None.

Definition sampleInstallerPath : string :=
  "/repo/lib/net.neoforged/neoforge/20.1.88/neoforge-20.1.88-installer.jar".

(** A disk on which an earlier run left its cache. *)
Definition cachedDisk : gmap string Node :=
  <["/cache/neoforge/20.1.88" := Dir]> (installedFiles "/cache/neoforge/20.1.88" ∪ freshDisk).

Definition discardingResolver : Resolver :=
  mkResolver "https://example.org/" "1.20.1" "20.1.88" true false.

Definition manifestOnDisk : gmap string Node :=
  {[ "/cache/neoforge/20.1.88/versions/neoforge-20.1.88/neoforge-20.1.88.json" := File "version.json" ]}.

(** The pipeline with the installer that writes the manifest only. *)
Definition manifestOnlyRun : Outcome Module * State :=
  @processWithInstaller manifestOnlyCollaborators sampleResolver sampleInstallerPath
    (constructed manifestOnlyCollaborators sampleResolver freshDisk).

(** The sample resolution, from a disk that holds the installer only. *)
Definition sampleRun : Outcome Module * State :=
  @process sampleCollaborators sampleResolver
    (constructed sampleCollaborators sampleResolver freshDisk).

Definition noModule : Module :=
  mkModule EmptyString EmptyString Library None (mkArtifact 0 EmptyString EmptyString) None.

Definition sampleRoot : Module :=
  match sampleRun.1 with
  | Return root => root
  | Throw _ => noModule
  end.

End ResolverSamples.

(* ===================================================================== *)
(** * Properties of the string primitives *)
(* ===================================================================== *)

Module JSFacts.
Import JS.

Lemma append_nil_r (s : string) : s +:+ EmptyString = s.
Proof. induction s as [|c s IH]; simpl; [done|]. unfold String.app in *. simpl. by rewrite IH. Qed.

Lemma append_assoc (a b c : string) : (a +:+ b) +:+ c = a +:+ (b +:+ c).
Proof.
  unfold String.app. induction a as [|x a IH]; simpl; [done|]. by rewrite IH.
Qed.

Lemma startsWith_spec (s p : string) :
  startsWith s p = true ↔ ∃ t, s = p +:+ t.
Proof.
  unfold String.app. revert s. induction p as [|c p IH]; intros s; simpl.
  - split; [intros _; by exists s | done].
  - destruct s as [|d s]; simpl.
    + split; [done | intros [t Ht]; discriminate].
    + destruct (Ascii.eqb_spec d c) as [->|Hne].
      * rewrite IH. split; intros [t Ht]; exists t; [by rewrite Ht | by injection Ht].
      * split; [done | intros [t Ht]; injection Ht; congruence].
Qed.

Lemma endsWith_spec (s p : string) :
  endsWith s p = true ↔ ∃ t, s = t +:+ p.
Proof.
  unfold String.app. induction s as [|c s IH]; cbn [endsWith].
  - destruct (String.eqb_spec EmptyString p) as [<-|Hne].
    + split; [intros _; by exists EmptyString | done].
    + split; [done | intros [[|d t] Ht]; simpl in Ht; [congruence | discriminate]].
  - destruct (String.eqb_spec (String c s) p) as [<-|Hne].
    + split; [intros _; by exists EmptyString | done].
    + rewrite IH. split.
      * intros [t ->]. by exists (String c t).
      * intros [[|d t] Ht]; simpl in Ht; [congruence|].
        injection Ht as _ ->. by exists t.
Qed.

Lemma append_cons (c : ascii) (a b : string) : String c a +:+ b = String c (a +:+ b).
Proof. reflexivity. Qed.

Lemma append_length (a b : string) :
  String.length (a +:+ b) = (String.length a + String.length b)%nat.
Proof. induction a as [|c a IH]; [done|]. rewrite append_cons. simpl. by rewrite IH. Qed.

(** Two splits of one string at the same position agree. *)
Lemma append_eq_length (a a' b b' : string) :
  a +:+ b = a' +:+ b' → String.length a = String.length a' → a = a' ∧ b = b'.
Proof.
  revert a'. induction a as [|c a IH]; intros [|c' a'] Heq Hlen; try discriminate.
  - done.
  - rewrite !append_cons in Heq. injection Heq as -> Heq. simpl in Hlen.
    destruct (IH a' Heq) as [-> ->]; [lia | done].
Qed.

Lemma stripPrefix_spec (s p t : string) :
  stripPrefix s p = Some t ↔ s = p +:+ t.
Proof.
  revert s. induction p as [|c p IH]; intros s; simpl.
  - split; [by intros [= ->] | by intros ->].
  - destruct s as [|d s].
    + split; [done | rewrite append_cons; discriminate].
    + rewrite append_cons. destruct (Ascii.eqb_spec d c) as [->|Hne].
      * rewrite IH. split; [by intros -> | by intros [= ->]].
      * split; [done | intros [= ? ?]; congruence].
Qed.

Lemma stripPrefix_None (s p : string) :
  stripPrefix s p = None → ∀ t, s ≠ p +:+ t.
Proof.
  intros Hnone t Heq. apply stripPrefix_spec in Heq. congruence.
Qed.

(** [splitFirst] finds an occurrence, and no occurrence starts before it. *)
Lemma splitFirst_Some (s p a b : string) :
  splitFirst s p = Some (a, b) →
  s = a +:+ p +:+ b ∧
  ∀ a' b', s = a' +:+ p +:+ b' → (String.length a ≤ String.length a')%nat.
Proof.
  revert a b. induction s as [|c s IH]; intros a b; cbn [splitFirst].
  - destruct (stripPrefix EmptyString p) as [post|] eqn:Hstrip; [|done].
    intros [= <- <-]. apply stripPrefix_spec in Hstrip. split; [done | simpl; lia].
  - destruct (stripPrefix (String c s) p) as [post|] eqn:Hstrip.
    + intros [= <- <-]. apply stripPrefix_spec in Hstrip. split; [done | simpl; lia].
    + destruct (splitFirst s p) as [[pre post]|] eqn:Hrec; [|done].
      intros [= <- <-]. destruct (IH pre post eq_refl) as [Hs Hmin].
      split; [by rewrite append_cons, <- Hs|].
      intros [|c' a'] b' Heq.
      * exfalso. by apply (stripPrefix_None _ _ Hstrip b').
      * rewrite append_cons in Heq. injection Heq as _ Heq.
        specialize (Hmin a' b' Heq). simpl. lia.
Qed.

Lemma splitFirst_None (s p : string) :
  splitFirst s p = None → ∀ a b, s ≠ a +:+ p +:+ b.
Proof.
  induction s as [|c s IH]; cbn [splitFirst].
  - destruct (stripPrefix EmptyString p) eqn:Hstrip; [done|]. intros _ [|c' a] b Heq.
    + by apply (stripPrefix_None _ _ Hstrip b).
    + discriminate.
  - destruct (stripPrefix (String c s) p) eqn:Hstrip; [done|].
    destruct (splitFirst s p) as [[pre post]|] eqn:Hrec; [done|].
    intros _ [|c' a] b Heq.
    + by apply (stripPrefix_None _ _ Hstrip b).
    + rewrite append_cons in Heq. injection Heq as _ Heq. by apply (IH eq_refl a b).
Qed.

(** The first occurrence, given declaratively, is the one [splitFirst] finds. *)
Lemma splitFirst_first (s p a b : string) :
  s = a +:+ p +:+ b →
  (∀ a' b', s = a' +:+ p +:+ b' → (String.length a ≤ String.length a')%nat) →
  splitFirst s p = Some (a, b).
Proof.
  intros Hs Hmin. destruct (splitFirst s p) as [[a0 b0]|] eqn:Hsplit.
  - apply splitFirst_Some in Hsplit as [Hs0 Hmin0].
    pose proof (Hmin a0 b0 Hs0). pose proof (Hmin0 a b Hs).
    destruct (append_eq_length a0 a (p +:+ b0) (p +:+ b)) as [-> Hrest]; [congruence | lia |].
    apply (inj (String.app p)) in Hrest. by subst.
  - exfalso. by apply (splitFirst_None _ _ Hsplit a b).
Qed.

Lemma includes_true (s p : string) :
  includes s p = true ↔ ∃ a b, s = a +:+ p +:+ b.
Proof.
  unfold includes. destruct (splitFirst s p) as [[a b]|] eqn:Hsplit.
  - apply splitFirst_Some in Hsplit as [Hs _]. split; [eauto | done].
  - split; [done|]. intros (a & b & Hs). exfalso. by apply (splitFirst_None _ _ Hsplit a b).
Qed.

(** A template without patterns expands to itself. *)
Lemma getSubstitution_plain (matched pre post template : string) :
  plainTemplate template = true → getSubstitution matched pre post template = template.
Proof.
  induction template as [|c rest IH]; [done|].
  cbn [plainTemplate getSubstitution].
  destruct (Ascii.eqb c "$") eqn:Hc.
  - destruct rest as [|d rest']; [done|].
    destruct (Ascii.eqb d "$"), (Ascii.eqb d "&"), (Ascii.eqb d "`"), (Ascii.eqb d "'");
      cbn [negb orb andb]; try done.
    intros Hplain. by rewrite (IH Hplain).
  - intros Hplain. by rewrite (IH Hplain).
Qed.

(** Replacing by a plain template puts the template in place of the first
    occurrence; without an occurrence nothing changes. *)
Lemma replace_first (s p r a b : string) :
  plainTemplate r = true →
  s = a +:+ p +:+ b →
  (∀ a' b', s = a' +:+ p +:+ b' → (String.length a ≤ String.length a')%nat) →
  replace s p r = a +:+ r +:+ b.
Proof.
  intros Hplain Hs Hmin. unfold replace.
  rewrite (splitFirst_first s p a b Hs Hmin). by rewrite getSubstitution_plain.
Qed.

Example replace_expands_patterns :
  replace "1.20.1-${formVersion}" "${formVersion}" "$&" = "1.20.1-${formVersion}" ∧
  replace "1.20.1-${formVersion}" "${formVersion}" "a$$b" = "1.20.1-a$b" ∧
  replace "x-x" "x" "y" = "y-x".
Proof. repeat split; reflexivity. Qed.

End JSFacts.

(* ===================================================================== *)
(** * Properties of VersionUtil *)
(* ===================================================================== *)

Module VersionUtilFacts.
Import VersionUtil Promotion.

(** Folding over a filtered array is folding with a guarded step. *)
Lemma fold_left_filter {A B} (f : A → B → A) (q : B → bool) (l : list B) (acc : A) :
  fold_left f (List.filter q l) acc = fold_left (λ a v, if q v then f a v else a) l acc.
Proof.
  revert acc. induction l as [|x l IH]; intros acc; simpl; [done|].
  destruct (q x); simpl; apply IH.
Qed.

(** A loop that overwrites its variable at every hit ends with the last hit. *)
Lemma overwrite_loop_last {A} (P : A → bool) (l : list A) (acc : option A) :
  match fold_left (λ a v, if P v then Some v else a) l acc with
  | Some v =>
      (∃ pre post, l = pre ++ v :: post ∧ P v = true ∧ Forall (λ x, P x = false) post)
      ∨ (acc = Some v ∧ Forall (λ x, P x = false) l)
  | None => acc = None ∧ Forall (λ x, P x = false) l
  end.
Proof.
  revert acc. induction l as [|x l IH]; intros acc; simpl.
  - destruct acc; auto.
  - specialize (IH (if P x then Some x else acc)).
    destruct (fold_left _ l _) as [v|].
    + destruct IH as [(pre & post & -> & Hv & Hpost) | [Hacc Hl]].
      * left. by exists (x :: pre), post.
      * destruct (P x) eqn:Hx.
        -- injection Hacc as <-. left. by exists [], l.
        -- right. split; [done|]. by constructor.
    + destruct IH as [Hacc Hl]. destruct (P x) eqn:Hx; [done|].
      split; [done|]. by constructor.
Qed.

Lemma findNeoForgePromotedVersion_fold index stable workingVersion :
  findNeoForgePromotedVersion index stable workingVersion =
  fold_left (λ a v, if eligible stable workingVersion v then Some v else a) (versions index) None.
Proof.
  unfold findNeoForgePromotedVersion. rewrite fold_left_filter.
  generalize (@None string). induction (versions index) as [|x l IH]; intros acc; simpl; [done|].
  rewrite IH. f_equal. unfold eligible.
  destruct (JS.startsWith x workingVersion), stable, (JS.endsWith x "-beta"); done.
Qed.

Lemma eligible_spec stable workingVersion v :
  eligible stable workingVersion v = true ↔
  JS.startsWith v workingVersion = true ∧ (stable = true → JS.endsWith v "-beta" = false).
Proof.
  unfold eligible.
  destruct (JS.startsWith v workingVersion), stable, (JS.endsWith v "-beta"); simpl;
    split; try done; try (intros [? ?]; auto; discriminate).
  all: intros [_ Hb]; by specialize (Hb eq_refl).
Qed.

(** C7. [findNeoForgePromotedVersion] returns the last entry of the index, in
    the index's order, whose version starts with the working-version prefix;
    entries ending in [-beta] are excluded only when [stable] is set, which
    [getPromotedNeoForgeVersion] does exactly when "recommended" was
    requested. With [stable] unset a [-beta] entry is as eligible as any
    other. Nothing is returned only when no entry is eligible. *)
Theorem findNeoForgePromotedVersion_selects_last
    (index : NeoForgeVersionIndex) (stable : bool) (workingVersion : string) :
  match findNeoForgePromotedVersion index stable workingVersion with
  | Some v =>
      ∃ pre post,
        versions index = pre ++ v :: post ∧
        JS.startsWith v workingVersion = true ∧
        (stable = true → JS.endsWith v "-beta" = false) ∧
        Forall (λ x, ¬ (JS.startsWith x workingVersion = true ∧
                         (stable = true → JS.endsWith x "-beta" = false))) post
  | None =>
      Forall (λ x, ¬ (JS.startsWith x workingVersion = true ∧
                       (stable = true → JS.endsWith x "-beta" = false))) (versions index)
  end.
Proof.
  rewrite findNeoForgePromotedVersion_fold.
  pose proof (overwrite_loop_last (eligible stable workingVersion) (versions index) None) as Hloop.
  assert (Hneg : ∀ l, Forall (λ x, eligible stable workingVersion x = false) l →
                 Forall (λ x, ¬ (JS.startsWith x workingVersion = true ∧
                                  (stable = true → JS.endsWith x "-beta" = false))) l).
  { intros l Hl. eapply Forall_impl; [exact Hl|].
    intros x Hx Hel. apply eligible_spec in Hel. congruence. }
  destruct (fold_left _ _ _) as [v|].
  - destruct Hloop as [(pre & post & Hsplit & Hv & Hpost) | [? _]]; [|done].
    apply eligible_spec in Hv as [Hstart Hbeta].
    exists pre, post. auto.
  - destruct Hloop as [_ Hall]. auto.
Qed.

Example findNeoForge_latest_takes_beta :
  findNeoForgePromotedVersion Samples.neoIndex false "20.1" = Some "20.1.70-beta".
Proof. reflexivity. Qed.

Example findNeoForge_recommended_skips_beta :
  findNeoForgePromotedVersion Samples.neoIndex true "20.1" = Some "20.1.60".
Proof. reflexivity. Qed.

(** The flag handed to the selection is the case-insensitive comparison of the
    requested label with "recommended". *)
Lemma getPromotedNeoForgeVersion_hit index mc promotion logs v :
  findNeoForgePromotedVersion index (String.eqb (JS.toLowerCase promotion) "recommended")
    (workingVersionOf mc) = Some v →
  getPromotedNeoForgeVersion index mc promotion logs = (Return v, logs).
Proof. intros Hfind. unfold getPromotedNeoForgeVersion. by rewrite Hfind. Qed.

Lemma getPromotedVersion_hit idx mc promotion logs v :
  hasFallback idx = true →
  lookupPromotion idx mc (JS.toLowerCase promotion) = Some v →
  getPromotedVersion idx mc promotion logs = (Return v, logs).
Proof.
  destruct idx as [res|index|meta]; simpl; intros Hfb Hlook; [| |done].
  - unfold getPromotedForgeVersion. by rewrite Hlook.
  - by apply getPromotedNeoForgeVersion_hit.
Qed.

(** C6, as the code has it. When the lookup for the requested label yields
    nothing, the Forge and the NeoForge resolver log the miss, fall back to
    "latest" exactly once (one fallback warning is logged) and retry: the
    latest value is returned when that lookup succeeds, and an [Error] is
    raised when it does not. The Fabric resolver has no fallback stage: a miss
    surfaces as the [TypeError] of reading [version] of [undefined], with
    nothing logged. *)
Theorem promotion_miss_falls_back_once
    (idx : PromotionIndex) (mc : MinecraftVersion) (promotion : string) (logs : Logs) :
  lookupPromotion idx mc (JS.toLowerCase promotion) = None →
  getPromotedVersion idx mc promotion logs =
    if hasFallback idx then
      (match lookupPromotion idx mc "latest" with
       | Some v => Return v
       | None => Throw (JsError ("No latest version found for Forge " +:+ mcToString mc +:+ "."))
       end,
       logs ++ [missWarning idx mc promotion; fallbackWarning])
    else
      (Throw (TypeError "Cannot read properties of undefined (reading 'version')"), logs).
Proof.
  destruct idx as [res|index|meta]; simpl; intros Hmiss.
  - unfold getPromotedForgeVersion. rewrite Hmiss.
    unfold bind, warn, modify, ret, throw. simpl.
    rewrite <- app_assoc. simpl.
    change ("-" +:+ "latest") with "-latest".
    destruct (promos res !! (mcToString mc +:+ "-latest")); reflexivity.
  - unfold getPromotedNeoForgeVersion. rewrite Hmiss.
    unfold bind, warn, modify, ret, throw. simpl.
    rewrite <- app_assoc. simpl.
    destruct (findNeoForgePromotedVersion index false _); reflexivity.
  - unfold getPromotedFabricVersion.
    destruct (String.eqb (JS.toLowerCase promotion) "recommended"); simpl.
    + by destruct (List.find fabricStable meta).
    + by destruct (meta !! 0%nat).
Qed.

Lemma promotion_miss_falls_back_once_witness :
  lookupPromotion (ForgeIndex Samples.forgeOnlyLatest) Samples.mc1201 (JS.toLowerCase "Recommended") = None ∧
  getPromotedVersion (ForgeIndex Samples.forgeOnlyLatest) Samples.mc1201 "Recommended" [] =
    (Return "47.2.0",
     [mkLog "VersionUtil" Warn "No recommended version found for Forge 1.20.1.";
      mkLog "VersionUtil" Warn "Attempting to pull latest version instead."]).
Proof.
  split; [reflexivity|].
  rewrite (promotion_miss_falls_back_once (ForgeIndex Samples.forgeOnlyLatest) Samples.mc1201
             "Recommended" []); reflexivity.
Defined.

Example neoforge_recommended_falls_back_to_beta :
  getPromotedVersion (NeoForgeIndex Samples.neoOnlyBeta) Samples.mc1201 "recommended" [] =
    (Return "20.1.50-beta",
     [mkLog "VersionUtil" Warn "No recommended version found for NeoForge 1.20.1.";
      mkLog "VersionUtil" Warn "Attempting to pull latest version instead."]).
Proof. reflexivity. Qed.

(** C6 as stated fails for Fabric: the list holds loaders but no stable one,
    "recommended" finds nothing, the "latest" lookup would give 0.15.0, and
    [getPromotedFabricVersion] throws instead of returning it. *)
Lemma promotion_fallback_absent_for_fabric :
  lookupPromotion (FabricIndex Samples.fabricNoStable) Samples.mc1201 (JS.toLowerCase "recommended") = None ∧
  lookupPromotion (FabricIndex Samples.fabricNoStable) Samples.mc1201 "latest" = Some "0.15.0" ∧
  getPromotedVersion (FabricIndex Samples.fabricNoStable) Samples.mc1201 "recommended" [] =
    (Throw (TypeError "Cannot read properties of undefined (reading 'version')"), []) ∧
  (getPromotedVersion (FabricIndex Samples.fabricNoStable) Samples.mc1201 "recommended" []).1
    ≠ Return "0.15.0".
Proof. repeat split; try reflexivity. discriminate. Qed.

End VersionUtilFacts.

(* ===================================================================== *)
(** * Properties of NeoForgeModStructure *)
(* ===================================================================== *)

Module ModStructureFacts.
Import NeoForgeModStructure.

Example sample_crude : ModSamples.sampleCrudeInference "CoolMod-1.0.jar" = mkCrudeInference "CoolMod" "1.0".
Proof. reflexivity. Qed.

Example sample_exec :
  List.map ModSamples.sampleImplementationVersion (JS.splitChar JS.newline ModSamples.manifestOneVersion)
  = [None; Some "3.2.1"; None].
Proof. reflexivity. Qed.

Section WithCollaborators.
Context `{Collaborators}.

(** *** The manifest scan *)

Lemma scanManifest_no_match keys version :
  Forall (λ key, implementationVersionExec key = None) keys →
  scanManifest keys version = version.
Proof.
  unfold scanManifest. revert version.
  induction keys as [|key keys IH]; intros version Hnone; simpl; [done|].
  inversion Hnone as [|? ? Hkey Hrest]; subst. rewrite Hkey. by apply IH.
Qed.

Lemma scanManifest_last pre key post captured version :
  implementationVersionExec key = Some captured →
  Forall (λ k, implementationVersionExec k = None) post →
  scanManifest (pre ++ key :: post) version = captured.
Proof.
  intros Hkey Hpost. unfold scanManifest. rewrite fold_left_app. simpl. rewrite Hkey.
  by apply scanManifest_no_match.
Qed.

(** *** One entry *)

Lemma inferVersion_returns zip name crudeInference s :
  ∃ s',
    inferVersion zip name crudeInference s =
      (Return (match zip !! "META-INF/MANIFEST.MF" with
               | Some manifest =>
                   scanManifest (JS.splitChar JS.newline manifest) (crudeVersion crudeInference)
               | None => crudeVersion crudeInference
               end), s').
Proof.
  unfold inferVersion, tryCatch, bind, entryDataSync.
  destruct (zip !! "META-INF/MANIFEST.MF") as [manifest|]; simpl; eauto.
Qed.

(** What [processEntry] leaves in each field; it cannot throw. *)
Lemma processEntry_returns zip name claritasId crudeInference entry s :
  ∃ entry' s',
    processEntry zip name claritasId crudeInference entry s = (Return entry', s') ∧
    modId entry' =
      (if String.eqb (modId entry) EXAMPLE_MOD_ID
       then discernResult claritasId (JS.toLowerCase (crudeName crudeInference))
       else modId entry) ∧
    displayName entry' =
      (if String.eqb (modId entry) EXAMPLE_MOD_ID then crudeName crudeInference
       else displayName entry) ∧
    version entry' =
      (if String.eqb (version entry) JAR_VERSION_WILDCARD then
         match zip !! "META-INF/MANIFEST.MF" with
         | Some manifest =>
             scanManifest (JS.splitChar JS.newline manifest) (crudeVersion crudeInference)
         | None => crudeVersion crudeInference
         end
       else version entry) ∧
    description entry' = description entry.
Proof.
  unfold processEntry.
  destruct (String.eqb (modId entry) EXAMPLE_MOD_ID); cbn [version modId displayName description];
    destruct (String.eqb (version entry) JAR_VERSION_WILDCARD).
  all: try (destruct (inferVersion_returns zip name crudeInference s) as [s' Hs'];
            unfold bind; rewrite Hs'; unfold ret; eauto 10).
  all: unfold ret; eauto 10.
Qed.

(** *** The loop over the entries *)

Lemma forEachEntry_Forall2 {S A B} (f : A → M S B) (R : A → B → Prop) :
  (∀ x s, ∃ y s', f x s = (Return y, s') ∧ R x y) →
  ∀ l s, ∃ ys s', forEachEntry f l s = (Return ys, s') ∧ Forall2 R l ys.
Proof.
  intros Hf. induction l as [|x l IH]; intros s; simpl.
  - exists [], s. split; [done | constructor].
  - destruct (Hf x s) as (y & s1 & Hy & HR).
    destruct (IH s1) as (ys & s2 & Hys & HRs).
    exists (y :: ys), s2. unfold bind. rewrite Hy, Hys. split; [done | by constructor].
Qed.

(** *** [processZip] on a unit that declares metadata *)

Lemma processZip_declared (R : ModEntry → ModEntry → Prop) zip name path raw parsed declared s :
  zip !! "META-INF/neoforge.mods.toml" = Some raw →
  tomlParse raw = Some parsed →
  mods parsed = Some declared →
  (∀ entry st, ∃ entry' st',
      processEntry zip name ((claritasResult s ≫= λ results, results !! path) ≫= claritasIdOf)
        (attemptCrudeInference name) entry st = (Return entry', st') ∧ R entry entry') →
  ∃ x s' resolved,
    processZip zip name path s = (Return x, s') ∧
    modMetadata s' !! name = Some x ∧
    mods x = Some resolved ∧
    Forall2 R declared resolved.
Proof.
  intros Hraw Hparse Hmods Hentry.
  unfold processZip, tryCatch, bind, entryDataSync. rewrite Hraw. simpl. rewrite Hparse.
  unfold setModMetadata, modify, gets. simpl.
  set (cRes := claritasResult s ≫= λ results, results !! path) in *.
  set (st0 := mkModState (<[name:=parsed]> (modMetadata s)) (claritasResult s) (modLogs s)).
  destruct cRes as [c|] eqn:HcRes; simpl in *; unfold logErr, modify; simpl;
    rewrite lookup_insert_eq, Hmods.
  all: match goal with
       | |- context [forEachEntry ?f ?l ?st] =>
           destruct (forEachEntry_Forall2 _ R Hentry l st) as (ys & s2 & Hys & HR); rewrite Hys
       end.
  all: simpl; eexists _, _, _; (split; [reflexivity|]); simpl.
  all: split; [by rewrite lookup_insert_eq | done].
Qed.

(** C4. On a parsed document with a [mods] array, when the declared [modId]
    is the placeholder, [processZip] rewrites
    the entry: the id becomes the Claritas hint when there is one and the
    lower-cased filename-derived name otherwise (the choice is
    [discernResult], modelled from the specification), and the display name
    becomes the filename-derived name whatever was declared; [getModuleName]
    reports that name capitalised. *)
Theorem processZip_placeholder_id zip name path raw parsed entries s :
  zip !! "META-INF/neoforge.mods.toml" = Some raw →
  tomlParse raw = Some parsed →
  mods parsed = Some entries →
  ∃ x s' resolvedEntries,
    processZip zip name path s = (Return x, s') ∧
    modMetadata s' !! name = Some x ∧
    mods x = Some resolvedEntries ∧
    Forall2
      (λ declared resolved,
         modId declared = EXAMPLE_MOD_ID →
         modId resolved =
           match (claritasResult s ≫= λ results, results !! path) ≫= claritasIdOf with
           | Some hint => hint
           | None => JS.toLowerCase (crudeName (attemptCrudeInference name))
           end ∧
         displayName resolved = crudeName (attemptCrudeInference name))
      entries resolvedEntries ∧
    ∀ first rest st,
      entries = first :: rest →
      modId first = EXAMPLE_MOD_ID →
      getModuleName x st = (Return (capitalize (crudeName (attemptCrudeInference name))), st).
Proof.
  intros Hraw Hparse Hmods.
  edestruct (processZip_declared
               (λ declared resolved,
                  modId declared = EXAMPLE_MOD_ID →
                  modId resolved =
                    match (claritasResult s ≫= λ results, results !! path) ≫= claritasIdOf with
                    | Some hint => hint
                    | None => JS.toLowerCase (crudeName (attemptCrudeInference name))
                    end ∧
                  displayName resolved = crudeName (attemptCrudeInference name))
               zip name path raw parsed entries s Hraw Hparse Hmods)
    as (x & s' & resolvedEntries & Hrun & Hstore & Hx & Hall).
  { intros entry st.
    destruct (processEntry_returns zip name
                ((claritasResult s ≫= λ results, results !! path) ≫= claritasIdOf)
                (attemptCrudeInference name) entry st) as (e' & st' & He & Hid & Hname & _).
    exists e', st'. split; [done|]. intros Hplace.
    rewrite Hplace, String.eqb_refl in Hid, Hname. by rewrite Hid, Hname. }
  exists x, s', resolvedEntries. repeat split; try done.
  intros first rest st Hentries Hplace. rewrite Hentries in Hall.
  apply Forall2_cons_inv_l in Hall as (resolved & others & Hfirst & _ & Hresolved).
  unfold getModuleName. rewrite Hx, Hresolved. simpl.
  by destruct (Hfirst Hplace) as [_ ->].
Qed.

(** C5. On a parsed document with a [mods] array, when the declared version
    is [${file.jarVersion}], the version becomes
    the value the implementation-version pattern captures in
    [META-INF/MANIFEST.MF]; when the archive has no such entry, or no line of
    it matches, it becomes the filename-derived guess. In each of these cases
    [processZip] returns: nothing is raised out of the inference. *)
Theorem processZip_version_placeholder zip name path raw parsed entries s :
  zip !! "META-INF/neoforge.mods.toml" = Some raw →
  tomlParse raw = Some parsed →
  mods parsed = Some entries →
  ∃ x s' resolvedEntries,
    processZip zip name path s = (Return x, s') ∧
    mods x = Some resolvedEntries ∧
    Forall2
      (λ declared resolved,
         version declared = JAR_VERSION_WILDCARD →
         (∀ manifest pre key post captured,
            zip !! "META-INF/MANIFEST.MF" = Some manifest →
            JS.splitChar JS.newline manifest = pre ++ key :: post →
            implementationVersionExec key = Some captured →
            Forall (λ k, implementationVersionExec k = None) post →
            version resolved = captured) ∧
         (zip !! "META-INF/MANIFEST.MF" = None →
            version resolved = crudeVersion (attemptCrudeInference name)) ∧
         (∀ manifest,
            zip !! "META-INF/MANIFEST.MF" = Some manifest →
            Forall (λ k, implementationVersionExec k = None) (JS.splitChar JS.newline manifest) →
            version resolved = crudeVersion (attemptCrudeInference name)))
      entries resolvedEntries.
Proof.
  intros Hraw Hparse Hmods.
  match goal with
  | |- ∃ x s' resolvedEntries, _ ∧ _ ∧ Forall2 ?R _ _ =>
      destruct (processZip_declared R zip name path raw parsed entries s Hraw Hparse Hmods)
        as (x & s' & resolvedEntries & Hrun & _ & Hx & Hall);
        [|exists x, s', resolvedEntries; split; [exact Hrun | split; [exact Hx | exact Hall]]]
  end.
  intros entry st.
  destruct (processEntry_returns zip name
              ((claritasResult s ≫= λ results, results !! path) ≫= claritasIdOf)
              (attemptCrudeInference name) entry st) as (e' & st' & He & _ & _ & Hver & _).
  exists e', st'. split; [done|]. intros Hplace.
  rewrite Hplace, String.eqb_refl in Hver. rewrite Hver. repeat split.
  - intros manifest pre key post captured -> -> Hkey Hpost. by apply scanManifest_last.
  - by intros ->.
  - intros manifest -> Hnone. by apply scanManifest_no_match.
Qed.

(** C10. When several lines of [META-INF/MANIFEST.MF] match the
    implementation-version pattern, the version placeholder of an entry of
    the parsed [mods] array resolves to the capture of the last matching
    line: the scan overwrites earlier matches. *)
Theorem processZip_last_implementation_version
    zip name path raw parsed entries s manifest pre earlier between later post v1 v2 :
  zip !! "META-INF/neoforge.mods.toml" = Some raw →
  tomlParse raw = Some parsed →
  mods parsed = Some entries →
  zip !! "META-INF/MANIFEST.MF" = Some manifest →
  JS.splitChar JS.newline manifest = pre ++ earlier :: between ++ later :: post →
  implementationVersionExec earlier = Some v1 →
  implementationVersionExec later = Some v2 →
  Forall (λ k, implementationVersionExec k = None) post →
  ∃ x s' resolvedEntries,
    processZip zip name path s = (Return x, s') ∧
    mods x = Some resolvedEntries ∧
    Forall2 (λ declared resolved,
               version declared = JAR_VERSION_WILDCARD → version resolved = v2)
            entries resolvedEntries.
Proof.
  intros Hraw Hparse Hmods Hmanifest Hlines _ Hlater Hpost.
  match goal with
  | |- ∃ x s' resolvedEntries, _ ∧ _ ∧ Forall2 ?R _ _ =>
      destruct (processZip_declared R zip name path raw parsed entries s Hraw Hparse Hmods)
        as (x & s' & resolvedEntries & Hrun & _ & Hx & Hall);
        [|exists x, s', resolvedEntries; split; [exact Hrun | split; [exact Hx | exact Hall]]]
  end.
  intros entry st.
  destruct (processEntry_returns zip name
              ((claritasResult s ≫= λ results, results !! path) ≫= claritasIdOf)
              (attemptCrudeInference name) entry st) as (e' & st' & He & _ & _ & Hver & _).
  exists e', st'. split; [done|]. intros Hplace.
  rewrite Hplace, String.eqb_refl, Hmanifest, Hlines in Hver. rewrite Hver.
  replace (pre ++ earlier :: between ++ later :: post)
    with ((pre ++ earlier :: between) ++ later :: post) by (by rewrite <- app_assoc).
  by apply scanManifest_last.
Qed.

End WithCollaborators.
End ModStructureFacts.

Module ModStructureExamples.
Import NeoForgeModStructure ModSamples.

Lemma processZip_placeholder_id_witness :
  zipWith None !! "META-INF/neoforge.mods.toml" = Some "placeholder.toml" ∧
  tomlParse "placeholder.toml" = Some placeholderToml ∧
  mods placeholderToml = Some placeholderEntries ∧
  ∃ x s' resolvedEntries,
    processZip (zipWith None) jarName jarPath (stateWithHint (Some "examplemod")) = (Return x, s') ∧
    modMetadata s' !! jarName = Some x ∧
    mods x = Some resolvedEntries ∧
    Forall2
      (λ declared resolved,
         modId declared = EXAMPLE_MOD_ID →
         modId resolved =
           match (claritasResult (stateWithHint (Some "examplemod")) ≫= λ results, results !! jarPath)
                 ≫= claritasIdOf with
           | Some hint => hint
           | None => JS.toLowerCase (crudeName (attemptCrudeInference jarName))
           end ∧
         displayName resolved = crudeName (attemptCrudeInference jarName))
      placeholderEntries resolvedEntries ∧
    ∀ first rest st,
      placeholderEntries = first :: rest →
      modId first = EXAMPLE_MOD_ID →
      getModuleName x st = (Return (capitalize (crudeName (attemptCrudeInference jarName))), st).
Proof.
  split; [reflexivity|]. split; [reflexivity|]. split; [reflexivity|].
  apply (ModStructureFacts.processZip_placeholder_id (zipWith None) jarName jarPath
           "placeholder.toml" placeholderToml placeholderEntries (stateWithHint (Some "examplemod")));
    reflexivity.
Defined.

(** Section 8, identity discernment: the hint wins over the filename. *)
Example hint_wins_over_filename :
  (processZip (zipWith None) jarName jarPath (stateWithHint (Some "examplemod"))).1
  = Return (mkModsToml "javafml" "[1,)" (Some [mkModEntry "examplemod" "1.0" "CoolMod" "An example."])).
Proof. vm_compute. reflexivity. Qed.

Example null_hint_uses_filename :
  (processZip (zipWith None) jarName jarPath (stateWithHint None)).1
  = Return (mkModsToml "javafml" "[1,)" (Some [mkModEntry "coolmod" "1.0" "CoolMod" "An example."])).
Proof. vm_compute. reflexivity. Qed.

Lemma processZip_version_placeholder_witness :
  zipWith (Some manifestOneVersion) !! "META-INF/neoforge.mods.toml" = Some "placeholder.toml" ∧
  tomlParse "placeholder.toml" = Some placeholderToml ∧
  mods placeholderToml = Some placeholderEntries ∧
  ∃ x s' resolvedEntries,
    processZip (zipWith (Some manifestOneVersion)) jarName jarPath (stateWithHint None) = (Return x, s') ∧
    mods x = Some resolvedEntries ∧
    Forall2
      (λ declared resolved,
         version declared = JAR_VERSION_WILDCARD →
         (∀ manifest pre key post captured,
            zipWith (Some manifestOneVersion) !! "META-INF/MANIFEST.MF" = Some manifest →
            JS.splitChar JS.newline manifest = pre ++ key :: post →
            implementationVersionExec key = Some captured →
            Forall (λ k, implementationVersionExec k = None) post →
            version resolved = captured) ∧
         (zipWith (Some manifestOneVersion) !! "META-INF/MANIFEST.MF" = None →
            version resolved = crudeVersion (attemptCrudeInference jarName)) ∧
         (∀ manifest,
            zipWith (Some manifestOneVersion) !! "META-INF/MANIFEST.MF" = Some manifest →
            Forall (λ k, implementationVersionExec k = None) (JS.splitChar JS.newline manifest) →
            version resolved = crudeVersion (attemptCrudeInference jarName)))
      placeholderEntries resolvedEntries.
Proof.
  split; [reflexivity|]. split; [reflexivity|]. split; [reflexivity|].
  apply (ModStructureFacts.processZip_version_placeholder (zipWith (Some manifestOneVersion))
           jarName jarPath "placeholder.toml" placeholderToml placeholderEntries
           (stateWithHint None));
    reflexivity.
Defined.

(** Section 8, version placeholder resolution. *)
Example version_from_manifest :
  (processZip (zipWith (Some manifestOneVersion)) jarName jarPath (stateWithHint None)).1
  = Return (mkModsToml "javafml" "[1,)" (Some [mkModEntry "coolmod" "3.2.1" "CoolMod" "An example."])).
Proof. vm_compute. reflexivity. Qed.

Example version_without_manifest_entry :
  (processZip (zipWith (Some manifestNoVersion)) jarName jarPath (stateWithHint None)).1
  = Return (mkModsToml "javafml" "[1,)" (Some [mkModEntry "coolmod" "1.0" "CoolMod" "An example."])).
Proof. vm_compute. reflexivity. Qed.

Lemma processZip_last_implementation_version_witness :
  zipWith (Some manifestTwoVersions) !! "META-INF/neoforge.mods.toml" = Some "placeholder.toml" ∧
  tomlParse "placeholder.toml" = Some placeholderToml ∧
  mods placeholderToml = Some placeholderEntries ∧
  zipWith (Some manifestTwoVersions) !! "META-INF/MANIFEST.MF" = Some manifestTwoVersions ∧
  JS.splitChar JS.newline manifestTwoVersions =
    [] ++ "Implementation-Version: 1.0.0" :: ["Created-By: gradle"] ++
    "Implementation-Version: 2.0.0" :: [EmptyString] ∧
  implementationVersionExec "Implementation-Version: 1.0.0" = Some "1.0.0" ∧
  implementationVersionExec "Implementation-Version: 2.0.0" = Some "2.0.0" ∧
  Forall (λ k, implementationVersionExec k = None) [EmptyString] ∧
  ∃ x s' resolvedEntries,
    processZip (zipWith (Some manifestTwoVersions)) jarName jarPath (stateWithHint None) = (Return x, s') ∧
    mods x = Some resolvedEntries ∧
    Forall2 (λ declared resolved,
               version declared = JAR_VERSION_WILDCARD → version resolved = "2.0.0")
            placeholderEntries resolvedEntries.
Proof.
  repeat (split; [first [reflexivity | by repeat constructor]|]).
  apply (ModStructureFacts.processZip_last_implementation_version
           (zipWith (Some manifestTwoVersions)) jarName jarPath "placeholder.toml" placeholderToml
           placeholderEntries (stateWithHint None) manifestTwoVersions [] "Implementation-Version: 1.0.0"
           ["Created-By: gradle"] "Implementation-Version: 2.0.0" [EmptyString] "1.0.0" "2.0.0");
    first [reflexivity | by repeat constructor].
Defined.

Example last_match_wins :
  (processZip (zipWith (Some manifestTwoVersions)) jarName jarPath (stateWithHint None)).1
  = Return (mkModsToml "javafml" "[1,)" (Some [mkModEntry "coolmod" "2.0.0" "CoolMod" "An example."])).
Proof. vm_compute. reflexivity. Qed.

End ModStructureExamples.

(* ===================================================================== *)
(** * Properties of NeoForgeResolver: wildcard substitution *)
(* ===================================================================== *)

Module WildcardFacts.
Import NeoForgeResolver.

Lemma getNeoFormVersion_first pre v post :
  "--fml.neoFormVersion" ∉ pre →
  getNeoFormVersion (pre ++ "--fml.neoFormVersion" :: v :: post) = Some v.
Proof.
  induction pre as [|arg pre IH]; intros Hpre; simpl; [done|].
  apply not_elem_of_cons in Hpre as [Hne Hpre].
  destruct (String.eqb_spec arg "--fml.neoFormVersion"); [congruence | by apply IH].
Qed.

Lemma substituteVersion_token v f a b :
  JS.plainTemplate v = true →
  GeneratedFile.version f = a +:+ WILDCARD_NEOFORM_VERSION +:+ b →
  (∀ a' b', GeneratedFile.version f = a' +:+ WILDCARD_NEOFORM_VERSION +:+ b' →
            (String.length a ≤ String.length a')%nat) →
  substituteVersion v f = GeneratedFile.withVersion f (a +:+ v +:+ b).
Proof.
  intros Hplain Hsplit Hmin. unfold substituteVersion.
  assert (Hinc : JS.includes (GeneratedFile.version f) WILDCARD_NEOFORM_VERSION = true)
    by (apply JSFacts.includes_true; eauto).
  rewrite Hinc. by rewrite (JSFacts.replace_first _ _ v a b Hplain Hsplit Hmin).
Qed.

Lemma substituteVersion_no_token v f :
  (∀ a b, GeneratedFile.version f ≠ a +:+ WILDCARD_NEOFORM_VERSION +:+ b) →
  substituteVersion v f = f.
Proof.
  intros Hnone. unfold substituteVersion.
  destruct (JS.includes (GeneratedFile.version f) WILDCARD_NEOFORM_VERSION) eqn:Hinc; [|done].
  apply JSFacts.includes_true in Hinc as (a & b & Hsplit). by destruct (Hnone a b).
Qed.

(** C1, as the code has it. Let [v] be the argument that follows the first
    [--fml.neoFormVersion] flag of the manifest, and let [v] be free of the
    replacement patterns of [String.prototype.replace]. Then wildcard
    substitution succeeds, touches nothing but the list of generated-file
    specs, replaces the (first) [${formVersion}] token of every spec version
    that contains one by [v], and leaves every other spec as it was. *)
Theorem substituteWildcards_replaces_token
    (versionManifest : VersionManifestNeoForge) (s : State)
    (wildcards : list string) (files : list GeneratedFile.t) (pre : list string) (v : string)
    (post : list string) :
  wildcardsInUse s = Some wildcards →
  WILDCARD_NEOFORM_VERSION ∈ wildcards →
  generatedFiles s = Some files →
  arguments_game versionManifest = pre ++ "--fml.neoFormVersion" :: v :: post →
  "--fml.neoFormVersion" ∉ pre →
  JS.plainTemplate v = true →
  ∃ files',
    substituteWildcards versionManifest s =
      (Return tt, mkState (fs s) (logs s) (trace s) (Some files') (wildcardsInUse s)) ∧
    Forall2
      (λ f f',
         (∀ a b,
            GeneratedFile.version f = a +:+ WILDCARD_NEOFORM_VERSION +:+ b →
            (∀ a' b', GeneratedFile.version f = a' +:+ WILDCARD_NEOFORM_VERSION +:+ b' →
                      (String.length a ≤ String.length a')%nat) →
            f' = GeneratedFile.withVersion f (a +:+ v +:+ b)) ∧
         ((∀ a b, GeneratedFile.version f ≠ a +:+ WILDCARD_NEOFORM_VERSION +:+ b) → f' = f))
      files files'.
Proof.
  intros Hwild Hin Hfiles Hargs Hpre Hplain.
  exists (List.map (substituteVersion v) files). split.
  - unfold substituteWildcards, bind, gets, setGeneratedFiles, modify. simpl.
    rewrite Hwild. rewrite (bool_decide_eq_true_2 _ Hin).
    rewrite Hargs, (getNeoFormVersion_first pre v post Hpre). simpl. rewrite Hfiles.
    by rewrite Hwild.
  - clear Hfiles. induction files as [|f files IH]; simpl; constructor; [|exact IH].
    split.
    + intros a b Hsplit Hmin. by apply substituteVersion_token.
    + apply substituteVersion_no_token.
Qed.

End WildcardFacts.

Module WildcardExamples.
Import NeoForgeResolver ResolverSamples.

Lemma substituteWildcards_replaces_token_witness :
  wildcardsInUse (oneSpecState "1.20.1-${formVersion}") = Some [WILDCARD_NEOFORM_VERSION] ∧
  WILDCARD_NEOFORM_VERSION ∈ [WILDCARD_NEOFORM_VERSION] ∧
  generatedFiles (oneSpecState "1.20.1-${formVersion}") = Some [oneSpec "1.20.1-${formVersion}"] ∧
  arguments_game sampleManifest =
    ["--launchTarget"; "forgeclient"] ++ "--fml.neoFormVersion" :: "20231019.002401" ::
    ["--fml.mcVersion"; "1.20.1"] ∧
  ("--fml.neoFormVersion" ∉ ["--launchTarget"; "forgeclient"]) ∧
  JS.plainTemplate "20231019.002401" = true ∧
  ∃ files',
    substituteWildcards sampleManifest (oneSpecState "1.20.1-${formVersion}") =
      (Return tt, mkState ∅ [] [] (Some files') (Some [WILDCARD_NEOFORM_VERSION])) ∧
    Forall2
      (λ f f',
         (∀ a b,
            GeneratedFile.version f = a +:+ WILDCARD_NEOFORM_VERSION +:+ b →
            (∀ a' b', GeneratedFile.version f = a' +:+ WILDCARD_NEOFORM_VERSION +:+ b' →
                      (String.length a ≤ String.length a')%nat) →
            f' = GeneratedFile.withVersion f (a +:+ "20231019.002401" +:+ b)) ∧
         ((∀ a b, GeneratedFile.version f ≠ a +:+ WILDCARD_NEOFORM_VERSION +:+ b) → f' = f))
      [oneSpec "1.20.1-${formVersion}"] files'.
Proof.
  split; [reflexivity|]. split; [by apply (bool_decide_unpack _)|].
  split; [reflexivity|]. split; [reflexivity|].
  split; [by apply (bool_decide_unpack _)|]. split; [reflexivity|].
  apply (WildcardFacts.substituteWildcards_replaces_token sampleManifest
           (oneSpecState "1.20.1-${formVersion}") [WILDCARD_NEOFORM_VERSION]
           [oneSpec "1.20.1-${formVersion}"] ["--launchTarget"; "forgeclient"]
           "20231019.002401" ["--fml.mcVersion"; "1.20.1"]);
    first [reflexivity | by apply (bool_decide_unpack _)].
Defined.

(** Section 8, wildcard substitution correctness. *)
Example formVersion_resolved :
  generatedFiles (substituteWildcards sampleManifest (oneSpecState "1.20.1-${formVersion}")).2
  = Some [oneSpec "1.20.1-20231019.002401"].
Proof. reflexivity. Qed.

Example configured_specs_resolved :
  GeneratedFile.version <$>
    default [] (generatedFiles (substituteWildcards sampleManifest
                                  (constructed sampleCollaborators sampleResolver ∅)).2)
  = ["20.1.88"; "20.1.88"; "1.20.1-20231019.002401"; "1.20.1-20231019.002401";
     "1.20.1-20231019.002401"].
Proof. reflexivity. Qed.

(** C1 as stated fails on two inputs. With the flag given twice, "b" follows
    the flag but the value of the first occurrence, "a", is substituted. With
    a value that holds a replacement pattern, [replace] expands the pattern:
    [$&] stands for the matched token, so the token comes back. *)
Lemma wildcard_substitution_not_verbatim :
  (arguments_game (manifestWithArguments
                     ["--fml.neoFormVersion"; "a"; "--fml.neoFormVersion"; "b"])
     = ["--fml.neoFormVersion"; "a"] ++ "--fml.neoFormVersion" :: "b" :: [] ∧
   generatedFiles
     (substituteWildcards
        (manifestWithArguments ["--fml.neoFormVersion"; "a"; "--fml.neoFormVersion"; "b"])
        (oneSpecState "1.20.1-${formVersion}")).2
   = Some [oneSpec "1.20.1-a"] ∧
   oneSpec "1.20.1-a" ≠ oneSpec "1.20.1-b") ∧
  (arguments_game (manifestWithArguments ["--fml.neoFormVersion"; "2023$&"])
     = [] ++ "--fml.neoFormVersion" :: "2023$&" :: [] ∧
   generatedFiles
     (substituteWildcards (manifestWithArguments ["--fml.neoFormVersion"; "2023$&"])
        (oneSpecState "1.20.1-${formVersion}")).2
   = Some [oneSpec "1.20.1-2023${formVersion}"] ∧
   oneSpec "1.20.1-2023${formVersion}" ≠ oneSpec "1.20.1-2023$&").
Proof. repeat split; try reflexivity; discriminate. Qed.

End WildcardExamples.

(* ===================================================================== *)
(** * Properties of NeoForgeResolver: assembly of the generated files *)
(* ===================================================================== *)

Module AssemblyFacts.
Import NeoForgeResolver.

Lemma addTrace_nil s : addTrace [] s = s.
Proof. destruct s. unfold addTrace. simpl. by rewrite app_nil_r. Qed.

Lemma addTrace_addTrace a b s : addTrace b (addTrace a s) = addTrace (a ++ b) s.
Proof. unfold addTrace. simpl. by rewrite app_assoc. Qed.

Lemma probesOf_app a b : probesOf (a ++ b) = probesOf a ++ probesOf b.
Proof. unfold probesOf. apply omap_app. Qed.

Lemma probesOf_probes (paths : list string) : probesOf (List.map EvPathExists paths) = paths.
Proof. induction paths as [|p paths IH]; [done|]. cbn. by f_equal. Qed.

Lemma pathExists_run p s :
  pathExists p s = (Return (bool_decide (is_Some (fs s !! p))), addTrace [EvPathExists p] s).
Proof. reflexivity. Qed.

Lemma bind_run {S A B} (m : M S A) (k : A → M S B) (s : S) :
  bind m k s = match m s with
               | (Return a, s') => k a s'
               | (Throw e, s') => (Throw e, s')
               end.
Proof. reflexivity. Qed.

Lemma fs_addTrace events s : fs (addTrace events s) = fs s.
Proof. reflexivity. Qed.

Lemma readFile_run p s :
  readFile p s =
  (match fs s !! p with
   | Some (File content) => Return content
   | Some Dir => Throw (IOError ("EISDIR: " +:+ p))
   | None => Throw (IOError ("ENOENT: " +:+ p))
   end, addTrace [EvRead p] s).
Proof.
  unfold readFile, emit, modify, gets. rewrite !bind_run. simpl.
  by destruct (fs s !! p) as [[content|]|].
Qed.

Lemma lstat_run p s :
  lstat p s =
  (match fs s !! p with
   | Some (File content) => Return (mkStats (N.of_nat (String.length content)))
   | Some Dir => Return (mkStats 0)
   | None => Throw (IOError ("ENOENT: " +:+ p))
   end, addTrace [EvLstat p] s).
Proof.
  unfold lstat, emit, modify, gets. rewrite !bind_run. simpl.
  by destruct (fs s !! p) as [[content|]|].
Qed.

(** [copyFile] refuses with errors of the file system only. *)
Lemma copyFile_refusal src dst content disk e :
  copyFile src dst content disk = inl e → ∃ what, e = IOError what.
Proof.
  unfold copyFile. destruct (String.eqb src dst); [intros [= <-]; eauto|].
  destruct (disk !! dst) as [[other|]|]; try (intros [= <-]; eauto).
  all: destruct (mkdirsFs (dirname dst) disk); intros [= <-]; eauto.
Qed.

(** [copyFile] goes through when the destination is another path, is not a
    directory, and its parent directory can be created. *)
Lemma copyFile_done src dst content disk prepared :
  src ≠ dst →
  disk !! dst ≠ Some Dir →
  mkdirsFs (dirname dst) disk = Some prepared →
  copyFile src dst content disk = inr (<[dst := File content]> prepared).
Proof.
  intros Hne Hdir Hmk. unfold copyFile.
  apply String.eqb_neq in Hne. rewrite Hne, Hmk.
  by destruct (disk !! dst) as [[other|]|].
Qed.

Section WithCollaborators.
Context `{Collaborators}.

Lemma copy_run_file src dst content s :
  fs s !! src = Some (File content) →
  copy src dst s =
  match copyFile src dst content (fs s) with
  | inr disk => (Return tt, setFs (λ _, disk) (addTrace [EvCopy src dst] s))
  | inl e => (Throw e, addTrace [EvCopy src dst] s)
  end.
Proof.
  intros Hsrc. unfold copy, copyFile, emit, modify, gets, mkdirsQuiet. rewrite !bind_run. simpl.
  rewrite Hsrc. destruct (String.eqb src dst); [done|].
  destruct (fs s !! dst) as [[other|]|]; try done.
  all: rewrite !bind_run; simpl; by destruct (mkdirsFs (dirname dst) (fs s)).
Qed.

(** *** The classifier loop *)

(** Variants that are not on disk are probed and passed over. *)
Lemma classifierLoop_skip_missing self libDir entry pre rest targetLocations mdls s :
  Forall (λ c, fs s !! targetLocalPathOf libDir entry c = None) pre →
  classifierLoop self libDir entry (pre ++ rest) targetLocations mdls s =
  classifierLoop self libDir entry rest
    (targetLocations ++ List.map (targetLocalPathOf libDir entry) pre) mdls
    (addTrace (List.map (λ c, EvPathExists (targetLocalPathOf libDir entry c)) pre) s).
Proof.
  revert targetLocations s.
  induction pre as [|c pre IH]; intros targetLocations s Hmissing; simpl.
  - by rewrite app_nil_r, addTrace_nil.
  - inversion Hmissing as [|? ? Hc Hpre]; subst.
    unfold bind at 1. rewrite pathExists_run. rewrite Hc. simpl.
    rewrite (IH _ (addTrace [EvPathExists (targetLocalPathOf libDir entry c)] s)) by done.
    by rewrite <- app_assoc, addTrace_addTrace.
Qed.

Lemma classifierLoop_none_located self libDir entry remaining targetLocations mdls s :
  Forall (λ c, fs s !! targetLocalPathOf libDir entry c = None) remaining →
  classifierLoop self libDir entry remaining targetLocations mdls s =
  (Return (false, targetLocations ++ List.map (targetLocalPathOf libDir entry) remaining, mdls),
   addTrace (List.map (λ c, EvPathExists (targetLocalPathOf libDir entry c)) remaining) s).
Proof.
  intros Hmissing.
  pose proof (classifierLoop_skip_missing self libDir entry remaining [] targetLocations mdls s
                Hmissing) as Hskip.
  by rewrite app_nil_r in Hskip.
Qed.

(** The first variant that is on disk ends the loop, whatever follows it. *)
Lemma classifierLoop_hit self libDir entry c rest targetLocations mdls s node :
  fs s !! targetLocalPathOf libDir entry c = Some node →
  let targetLocalPath := targetLocalPathOf libDir entry c in
  let destination :=
    getArtifactByComponents (GeneratedFile.group entry) (GeneratedFile.artifact entry)
      (GeneratedFile.version entry) c None in
  classifierLoop self libDir entry (c :: rest) targetLocations mdls s =
  match node with
  | Dir =>
      (Throw (IOError ("EISDIR: " +:+ targetLocalPath)),
       addTrace [EvPathExists targetLocalPath; EvRead targetLocalPath] s)
  | File content =>
      match copyFile targetLocalPath destination content (fs s) with
      | inr disk =>
          (Return (true, targetLocations ++ [targetLocalPath],
                   mdls ++ [generatedModule self entry c content
                              (mkStats (N.of_nat (String.length content)))]),
           setFs (λ _, disk)
             (addTrace [EvPathExists targetLocalPath; EvRead targetLocalPath;
                        EvLstat targetLocalPath; EvCopy targetLocalPath destination] s))
      | inl e =>
          (Throw e,
           addTrace [EvPathExists targetLocalPath; EvRead targetLocalPath;
                     EvLstat targetLocalPath; EvCopy targetLocalPath destination] s)
      end
  end.
Proof.
  intros Hnode targetLocalPath destination. cbn [classifierLoop].
  fold targetLocalPath. fold destination.
  change (fs s !! targetLocalPath = Some node) in Hnode.
  rewrite bind_run, pathExists_run, Hnode. simpl.
  rewrite bind_run, readFile_run, fs_addTrace, Hnode.
  destruct node as [content|]; [|by rewrite addTrace_addTrace].
  rewrite bind_run, lstat_run, !fs_addTrace, Hnode.
  rewrite bind_run, (copy_run_file _ _ content) by (by rewrite !fs_addTrace).
  rewrite !fs_addTrace, !addTrace_addTrace. simpl.
  by destruct (copyFile targetLocalPath destination content (fs s)).
Qed.

Lemma probesOf_map_probe {A} (f : A → string) (l : list A) :
  probesOf (List.map (λ x, EvPathExists (f x)) l) = List.map f l.
Proof. induction l as [|x l IH]; [done|]. cbn. by f_equal. Qed.

(** *** The loop over the specs *)

Lemma generatedFilesLoop_app self libDir before after mdls s :
  generatedFilesLoop self libDir (before ++ after) mdls s =
  bind (generatedFilesLoop self libDir before mdls)
       (λ mdls', generatedFilesLoop self libDir after mdls') s.
Proof.
  revert mdls s. induction before as [|entry before IH]; intros mdls s; simpl; [done|].
  rewrite !bind_run. destruct (processGeneratedFile self libDir entry mdls s) as [[mdls1|e] s1];
    [|done].
  by rewrite IH, bind_run.
Qed.

(** C2. The classifier variants of a spec are probed in their declared order
    up to the first one whose path is on disk, and no further: the paths
    probed are those of the variants before it and its own. That variant is
    the one assembled, so the id of the module pushed is built from its
    classifier. The "not found" error is not raised; the only failure left is
    an I/O error while the accepted file is read or copied, and there is none
    when that path is a regular file, the destination is another path and no
    directory, and the destination directory can be created. *)
Theorem first_existing_classifier_accepted
    (self : Resolver) (libDir : string) (entry : GeneratedFile.t) (mdls : list Module)
    (s : State) (pre : list (option string)) (c : option string) (post : list (option string)) :
  GeneratedFile.classifiers entry = pre ++ c :: post →
  Forall (λ k, fs s !! targetLocalPathOf libDir entry k = None) pre →
  is_Some (fs s !! targetLocalPathOf libDir entry c) →
  ∃ r s',
    processGeneratedFile self libDir entry mdls s = (r, s') ∧
    probesOf (trace s') =
      probesOf (trace s) ++ List.map (targetLocalPathOf libDir entry) (pre ++ [c]) ∧
    match r with
    | Return mdls' =>
        ∃ m, mdls' = mdls ++ [m] ∧
             id m = mavenComponentsToIdentifier (GeneratedFile.group entry)
                      (GeneratedFile.artifact entry) (GeneratedFile.version entry) c ∧
             type m = Library
    | Throw e => ∃ what, e = IOError what
    end ∧
    ∀ content disk,
      fs s !! targetLocalPathOf libDir entry c = Some (File content) →
      targetLocalPathOf libDir entry c ≠
        getArtifactByComponents (GeneratedFile.group entry) (GeneratedFile.artifact entry)
          (GeneratedFile.version entry) c None →
      fs s !! getArtifactByComponents (GeneratedFile.group entry) (GeneratedFile.artifact entry)
                (GeneratedFile.version entry) c None ≠ Some Dir →
      mkdirsFs (dirname (getArtifactByComponents (GeneratedFile.group entry)
                           (GeneratedFile.artifact entry) (GeneratedFile.version entry) c None))
               (fs s) = Some disk →
      r = Return (mdls ++ [generatedModule self entry c content
                             (mkStats (N.of_nat (String.length content)))]).
Proof.
  intros Hclassifiers Hmissing [node Hnode].
  unfold processGeneratedFile. rewrite bind_run, Hclassifiers.
  rewrite classifierLoop_skip_missing by done.
  rewrite (classifierLoop_hit _ _ _ _ _ _ _ _ node) by (by rewrite fs_addTrace).
  rewrite fs_addTrace, !addTrace_addTrace.
  assert (Hprobes : ∀ tail_events,
             probesOf tail_events = [targetLocalPathOf libDir entry c] →
             probesOf (trace s ++
                       List.map (λ k, EvPathExists (targetLocalPathOf libDir entry k)) pre ++
                       tail_events) =
             probesOf (trace s) ++ List.map (targetLocalPathOf libDir entry) (pre ++ [c])).
  { intros tail_events Htail.
    by rewrite !probesOf_app, probesOf_map_probe, Htail, map_app. }
  destruct node as [content|].
  - destruct (copyFile _ _ content (fs s)) as [e|disk] eqn:Hcopy; simpl.
    + eexists _, _. split; [reflexivity|]. simpl.
      split; [by apply Hprobes|]. split; [by eapply copyFile_refusal|].
      intros content' disk' Hfile Hne Hdir Hdisk. rewrite Hnode in Hfile.
      injection Hfile as <-.
      rewrite (copyFile_done _ _ content _ disk' Hne Hdir Hdisk) in Hcopy. discriminate.
    + rewrite andb_false_r. eexists _, _. split; [reflexivity|]. simpl.
      split; [by apply Hprobes|]. split; [by eexists|].
      intros content' disk' Hfile _ _ _. rewrite Hnode in Hfile. by injection Hfile as <-.
  - eexists _, _. split; [reflexivity|]. simpl.
    split; [by apply Hprobes|]. split; [by eexists|]. intros ? ? Hfile.
    rewrite Hnode in Hfile. discriminate.
Qed.

(** C3. When a spec is not tolerant of absence and none of its classifier
    variants is on disk, its turn of the loop, and with it the whole assembly,
    fails with the "Required file" error, whose message lists the path of
    every variant, in the declared order of the classifiers; these are the
    paths that were probed. *)
Theorem missing_required_file_lists_probed_paths
    (self : Resolver) (libDir : string) (entry : GeneratedFile.t) (mdls : list Module) (s : State) :
  default false (GeneratedFile.skipIfNotPresent entry) = false →
  Forall (λ k, fs s !! targetLocalPathOf libDir entry k = None) (GeneratedFile.classifiers entry) →
  let paths := List.map (targetLocalPathOf libDir entry) (GeneratedFile.classifiers entry) in
  let separator := String JS.newline (String JS.tab EmptyString) in
  let failure : Outcome (list Module) * State :=
    (Throw (JsError ("Required file " +:+ GeneratedFile.name entry +:+
                     " not found at any expected location:" +:+ separator +:+
                     JS.join separator paths)),
     addTrace (List.map EvPathExists paths) s) in
  processGeneratedFile self libDir entry mdls s = failure ∧
  probesOf (trace failure.2) = probesOf (trace s) ++ paths ∧
  ∀ before after mdls0 s0,
    generatedFilesLoop self libDir before mdls0 s0 = (Return mdls, s) →
    generatedFilesLoop self libDir (before ++ entry :: after) mdls0 s0 = failure.
Proof.
  intros Hstrict Hmissing paths separator failure.
  assert (Hturn : processGeneratedFile self libDir entry mdls s = failure).
  { unfold processGeneratedFile. rewrite bind_run.
    rewrite classifierLoop_none_located by done. simpl. rewrite Hstrict. simpl.
    unfold failure, throw, paths. by rewrite map_map. }
  split; [exact Hturn|]. split.
  - unfold failure. simpl. by rewrite probesOf_app, probesOf_probes.
  - intros before after mdls0 s0 Hbefore.
    rewrite generatedFilesLoop_app, bind_run, Hbefore. simpl.
    by rewrite bind_run, Hturn.
Qed.

End WithCollaborators.
End AssemblyFacts.

Module AssemblyExamples.
Import NeoForgeResolver ResolverSamples.

Lemma first_existing_classifier_accepted_witness :
  GeneratedFile.classifiers twoVariants = [Some "universal"] ++ Some "client" :: [] ∧
  Forall (λ k, fs (emptyState onlyClientOnDisk)
               !! @targetLocalPathOf sampleCollaborators "/cache/libraries" twoVariants k = None)
         [Some "universal"] ∧
  is_Some (fs (emptyState onlyClientOnDisk)
           !! @targetLocalPathOf sampleCollaborators "/cache/libraries" twoVariants (Some "client")) ∧
  ∃ r s',
    @processGeneratedFile sampleCollaborators sampleResolver "/cache/libraries" twoVariants []
      (emptyState onlyClientOnDisk) = (r, s') ∧
    probesOf (trace s') =
      probesOf (trace (emptyState onlyClientOnDisk)) ++
      List.map (@targetLocalPathOf sampleCollaborators "/cache/libraries" twoVariants)
        ([Some "universal"] ++ [Some "client"]) ∧
    match r with
    | Return mdls' =>
        ∃ m, mdls' = [] ++ [m] ∧
             id m = @mavenComponentsToIdentifier sampleCollaborators
                      (GeneratedFile.group twoVariants) (GeneratedFile.artifact twoVariants)
                      (GeneratedFile.version twoVariants) (Some "client") ∧
             type m = Library
    | Throw e => ∃ what, e = IOError what
    end ∧
    ∀ content disk,
      fs (emptyState onlyClientOnDisk)
        !! @targetLocalPathOf sampleCollaborators "/cache/libraries" twoVariants (Some "client")
        = Some (File content) →
      @targetLocalPathOf sampleCollaborators "/cache/libraries" twoVariants (Some "client") ≠
        @getArtifactByComponents sampleCollaborators
          (GeneratedFile.group twoVariants) (GeneratedFile.artifact twoVariants)
          (GeneratedFile.version twoVariants) (Some "client") None →
      fs (emptyState onlyClientOnDisk)
        !! @getArtifactByComponents sampleCollaborators
             (GeneratedFile.group twoVariants) (GeneratedFile.artifact twoVariants)
             (GeneratedFile.version twoVariants) (Some "client") None ≠ Some Dir →
      mkdirsFs (dirname (@getArtifactByComponents sampleCollaborators
                           (GeneratedFile.group twoVariants) (GeneratedFile.artifact twoVariants)
                           (GeneratedFile.version twoVariants) (Some "client") None))
               (fs (emptyState onlyClientOnDisk)) = Some disk →
      r = Return ([] ++ [@generatedModule sampleCollaborators sampleResolver twoVariants
                           (Some "client") content (mkStats (N.of_nat (String.length content)))]).
Proof.
  split; [reflexivity|]. split; [by repeat constructor|]. split; [by eexists|].
  apply (@AssemblyFacts.first_existing_classifier_accepted sampleCollaborators sampleResolver
           "/cache/libraries" twoVariants [] (emptyState onlyClientOnDisk)
           [Some "universal"] (Some "client") []).
  - reflexivity.
  - by repeat constructor.
  - by eexists.
Defined.

(** Section 8, classifier fallback order: the module is the [client] one and
    the run raises nothing. *)
Example only_client_on_disk :
  id <$> default []
    (match (@processGeneratedFile sampleCollaborators sampleResolver "/cache/libraries"
              twoVariants [] (emptyState onlyClientOnDisk)).1 with
     | Return mdls => Some mdls
     | Throw _ => None
     end)
  = ["net.neoforged:neoforge:20.1.88:client"].
Proof. vm_compute. reflexivity. Qed.

Lemma missing_required_file_lists_probed_paths_witness :
  default false (GeneratedFile.skipIfNotPresent twoVariants) = false ∧
  Forall (λ k, fs (emptyState ∅)
               !! @targetLocalPathOf sampleCollaborators "/cache/libraries" twoVariants k = None)
         (GeneratedFile.classifiers twoVariants) ∧
  @processGeneratedFile sampleCollaborators sampleResolver "/cache/libraries" twoVariants []
    (emptyState ∅) =
  (Throw (JsError
     ("Required file universal jar not found at any expected location:" +:+
      String JS.newline (String JS.tab
        "/cache/libraries/net.neoforged/neoforge/20.1.88/neoforge-20.1.88-universal.jar") +:+
      String JS.newline (String JS.tab
        "/cache/libraries/net.neoforged/neoforge/20.1.88/neoforge-20.1.88-client.jar"))),
   addTrace
     [EvPathExists "/cache/libraries/net.neoforged/neoforge/20.1.88/neoforge-20.1.88-universal.jar";
      EvPathExists "/cache/libraries/net.neoforged/neoforge/20.1.88/neoforge-20.1.88-client.jar"]
     (emptyState ∅)).
Proof.
  split; [reflexivity|]. split; [by repeat constructor|].
  destruct (@AssemblyFacts.missing_required_file_lists_probed_paths sampleCollaborators
              sampleResolver "/cache/libraries" twoVariants [] (emptyState ∅))
    as [Hturn _]; [reflexivity | by repeat constructor |].
  rewrite Hturn. reflexivity.
Defined.

End AssemblyExamples.

(* ===================================================================== *)
(** * Properties of NeoForgeResolver: the installer and its verification *)
(* ===================================================================== *)

Module InstallerFacts.
Import NeoForgeResolver AssemblyFacts.

Lemma log_run who lvl msg s :
  log who lvl msg s =
  (Return tt, mkState (fs s) (logs s ++ [mkLog who lvl msg]) (trace s)
                (generatedFiles s) (wildcardsInUse s)).
Proof. reflexivity. Qed.

(** Logging a list of chunks changes the log only. *)
Lemma forEach_log (who : string) (lvl : bool * string → Level) (msg : bool * string → string)
    (chunks : list (bool * string)) (s : State) :
  forEach (λ chunk, log who (lvl chunk) (msg chunk)) chunks s =
  (Return tt,
   mkState (fs s) (logs s ++ List.map (λ chunk, mkLog who (lvl chunk) (msg chunk)) chunks)
     (trace s) (generatedFiles s) (wildcardsInUse s)).
Proof.
  revert s. induction chunks as [|chunk chunks IH]; intros s; simpl.
  - unfold ret. destruct s. simpl. by rewrite app_nil_r.
  - rewrite bind_run, log_run, IH. simpl. by rewrite <- app_assoc.
Qed.

Lemma remove_lookup_within dir p s :
  within dir p = true → fs (remove dir s).2 !! p = None.
Proof.
  intros Hin. unfold remove, emit, modify. rewrite bind_run. simpl.
  apply map_lookup_filter_None. right. intros node _ Hkeep. simpl in Hkeep.
  by rewrite Hin in Hkeep.
Qed.

Lemma remove_lookup_outside dir p s :
  within dir p = false → fs (remove dir s).2 !! p = fs s !! p.
Proof.
  intros Hout. unfold remove, emit, modify. rewrite bind_run. simpl.
  destruct (fs s !! p) as [node|] eqn:Hp.
  - apply map_lookup_filter_Some. split; [done|]. simpl. rewrite Hout. by intros [].
  - apply map_lookup_filter_None. by left.
Qed.

Section WithCollaborators.
Context `{Collaborators}.

(** The two methods on their own. [runInstaller] always returns, whatever the
    exit code of the child: the code only selects the level of the last log
    line. [verifyInstallerRan], run on the disk the installer left, returns
    exactly when the version manifest is there, and otherwise throws after
    the output directory and everything below it has been removed, the rest
    of the disk untouched. *)
Lemma runInstaller_then_verification
    (self : Resolver) (installerPath outputDir : string) (s : State) :
  let result :=
    installerProcess getJavaExecutable ["-jar"; installerPath; "--installClient"; outputDir]
      (dirname installerPath) (fs s) in
  let disk := result.1.1 in
  let code := result.2 in
  ∃ s1,
    runInstaller installerPath outputDir s = (Return tt, s1) ∧
    fs s1 = disk ∧
    (∃ earlier,
       logs s1 = earlier ++
         [mkLog installerLogger
            (match code with Some 0%Z => Info | _ => Error end)
            ("Installer exited with code " +:+ showExitCode code)]) ∧
    ∃ r s2,
      verifyInstallerRan self outputDir s1 = (r, s2) ∧
      (r = Return tt ↔ is_Some (disk !! getVersionManifestPath self outputDir)) ∧
      match disk !! getVersionManifestPath self outputDir with
      | Some _ => r = Return tt ∧ fs s2 = disk
      | None =>
          r = Throw (JsError "NeoForge installation failed.") ∧
          (∀ p, within outputDir p = true → fs s2 !! p = None) ∧
          (∀ p, within outputDir p = false → fs s2 !! p = disk !! p)
      end.
Proof.
  intros result disk code.
  assert (Hrun : ∃ s1, runInstaller installerPath outputDir s = (Return tt, s1) ∧ fs s1 = disk ∧
            ∃ earlier, logs s1 = earlier ++
              [mkLog installerLogger (match code with Some 0%Z => Info | _ => Error end)
                 ("Installer exited with code " +:+ showExitCode code)]).
  { unfold runInstaller. rewrite bind_run. unfold emit at 1, modify at 1.
    rewrite bind_run. unfold gets at 1. rewrite fs_addTrace. fold result.
    rewrite bind_run. unfold modify at 1.
    rewrite bind_run, forEach_log. subst disk code. clearbody result.
    destruct result as [[disk output] code]. cbn [fst snd].
    destruct code as [[|p|p]|]; rewrite log_run; eexists; (split; [reflexivity|]);
      (split; [reflexivity|]); simpl; eauto. }
  destruct Hrun as (s1 & Hrun & Hdisk & Hlog).
  exists s1. split; [done|]. split; [done|]. split; [done|].
  unfold verifyInstallerRan. rewrite bind_run, pathExists_run, Hdisk.
  destruct (disk !! getVersionManifestPath self outputDir) as [node|] eqn:Hmanifest.
  - rewrite bool_decide_eq_true_2 by eauto. simpl. unfold ret.
    eexists _, _. split; [reflexivity|]. split; [by split; eauto|]. by split.
  - rewrite bool_decide_eq_false_2 by (by intros [? ?]). simpl.
    rewrite bind_run.
    destruct (remove outputDir (addTrace [EvPathExists (getVersionManifestPath self outputDir)] s1))
      as [[[]|e] s2] eqn:Hremove.
    + eexists _, _. split; [reflexivity|].
      split; [split; [done | by intros [? ?]]|].
      split; [done|].
      assert (Hs2 : s2 = (remove outputDir
                 (addTrace [EvPathExists (getVersionManifestPath self outputDir)] s1)).2)
        by (by rewrite Hremove).
      split; intros p Hp; rewrite Hs2.
      * by apply remove_lookup_within.
      * rewrite remove_lookup_outside by done. by rewrite fs_addTrace, Hdisk.
    + unfold remove, emit, modify in Hremove. rewrite bind_run in Hremove. discriminate.
Qed.

End WithCollaborators.
End InstallerFacts.

Module InstallerExamples.
Import NeoForgeResolver ResolverSamples.

(** The sample installer exits with code 1 and the resolution succeeds; the
    code shows up in the log at level [Error]. *)
Example nonzero_exit_code_is_logged_only :
  isReturn (@process sampleCollaborators sampleResolver
              (constructed sampleCollaborators sampleResolver freshDisk)) = true ∧
  List.filter (λ e, String.eqb (logger e) installerLogger)
    (logs (@process sampleCollaborators sampleResolver
             (constructed sampleCollaborators sampleResolver freshDisk)).2)
  = [mkLog installerLogger Info "Extracting libraries";
     mkLog installerLogger Error "deprecated flag";
     mkLog installerLogger Error "Installer exited with code 1"].
Proof. split; by vm_compute. Qed.

(** An installer that exits with code 0 without writing the manifest: the run
    fails and the cache directory is gone. *)
Example zero_exit_code_without_manifest_fails :
  (@process brokenCollaborators sampleResolver
     (constructed brokenCollaborators sampleResolver freshDisk)).1
  = Throw (JsError "NeoForge installation failed.") ∧
  List.filter (λ kv : string * Node, within "/cache/neoforge/20.1.88" kv.1)
    (map_to_list (fs (@process brokenCollaborators sampleResolver
                        (constructed brokenCollaborators sampleResolver freshDisk)).2))
  = [].
Proof. split; by vm_compute. Qed.

End InstallerExamples.

(* ===================================================================== *)
(** * Properties of NeoForgeResolver: where the installation error comes from *)
(* ===================================================================== *)

Module FailureFacts.
Import NeoForgeResolver AssemblyFacts InstallerFacts.

Lemma bind_Throw_inv {S A B} (m : M S A) (k : A → M S B) s e s' :
  bind m k s = (Throw e, s') →
  m s = (Throw e, s') ∨ ∃ a s1, m s = (Return a, s1) ∧ k a s1 = (Throw e, s').
Proof.
  rewrite bind_run. destruct (m s) as [[a|e0] s1]; [eauto|]. intros [= <- <-]. by left.
Qed.

Section Raises.
Variable P : Exn → Prop.

Lemma raisesOnly_ret {A} (a : A) : raisesOnly P (ret a).
Proof. intros s e s' Hrun. discriminate. Qed.

Lemma raisesOnly_throw {A} e : P e → raisesOnly P (@throw State A e).
Proof. intros HP s e' s' [= <- <-]. done. Qed.

Lemma raisesOnly_bind {A B} (m : M State A) (k : A → M State B) :
  raisesOnly P m → (∀ a, raisesOnly P (k a)) → raisesOnly P (bind m k).
Proof.
  intros Hm Hk s e s' Hrun.
  apply bind_Throw_inv in Hrun as [Hrun | (a & s1 & _ & Hrun)]; [by eapply Hm | by eapply Hk].
Qed.

Lemma raisesOnly_modify f : raisesOnly P (modify f).
Proof. intros s e s' Hrun. discriminate. Qed.

Lemma raisesOnly_gets {A} (f : State → A) : raisesOnly P (gets f).
Proof. intros s e s' Hrun. discriminate. Qed.

Lemma raisesOnly_log who lvl msg : raisesOnly P (log who lvl msg).
Proof. intros s e s' Hrun. discriminate. Qed.

Lemma raisesOnly_forEach {A} (f : A → M State unit) (l : list A) :
  (∀ x, raisesOnly P (f x)) → raisesOnly P (forEach f l).
Proof.
  intros Hf. induction l as [|x l IH]; simpl; [apply raisesOnly_ret|].
  apply raisesOnly_bind; [apply Hf | intros _; apply IH].
Qed.

End Raises.

Create HintDb raises discriminated.
#[export] Hint Resolve raisesOnly_ret raisesOnly_modify raisesOnly_gets raisesOnly_log : raises.
#[export] Hint Extern 1 (raisesOnly elsewhere (throw _)) =>
  (apply raisesOnly_throw; unfold elsewhere, installationFailed; discriminate) : raises.
#[export] Hint Extern 1 (raisesOnly elsewhere (emit _)) => (apply raisesOnly_modify) : raises.

Ltac raises_step :=
  first [ solve [auto with raises]
        | apply raisesOnly_bind; [|intros ?]
        | match goal with |- raisesOnly _ (match ?x with _ => _ end) => destruct x end
        | match goal with |- raisesOnly _ (if ?x then _ else _) => destruct x end ].

Lemma elsewhere_pathExists p : raisesOnly elsewhere (pathExists p).
Proof. unfold pathExists. repeat raises_step. Qed.

Lemma elsewhere_readFile p : raisesOnly elsewhere (readFile p).
Proof. unfold readFile. repeat raises_step. Qed.

Lemma elsewhere_lstat p : raisesOnly elsewhere (lstat p).
Proof. unfold lstat. repeat raises_step. Qed.

Lemma elsewhere_remove p : raisesOnly elsewhere (remove p).
Proof. unfold remove. repeat raises_step. Qed.

Lemma elsewhere_mkdirsQuiet p : raisesOnly elsewhere (mkdirsQuiet p).
Proof. unfold mkdirsQuiet. repeat raises_step. Qed.

Lemma elsewhere_mkdirs p : raisesOnly elsewhere (mkdirs p).
Proof. unfold mkdirs. pose proof elsewhere_mkdirsQuiet. repeat raises_step. Qed.

Lemma elsewhere_writeFile p content : raisesOnly elsewhere (writeFile p content).
Proof. unfold writeFile. repeat raises_step. Qed.

Lemma elsewhere_copy `{Collaborators} src dst : raisesOnly elsewhere (copy src dst).
Proof. unfold copy. pose proof elsewhere_mkdirsQuiet. repeat raises_step. Qed.

#[export] Hint Resolve elsewhere_pathExists elsewhere_readFile elsewhere_lstat elsewhere_remove
  elsewhere_mkdirs elsewhere_writeFile elsewhere_copy : raises.

Section WithCollaborators.
Context `{Collaborators}.

Lemma elsewhere_runInstaller installerPath outputDir :
  raisesOnly elsewhere (runInstaller installerPath outputDir).
Proof.
  unfold runInstaller. repeat raises_step.
  all: try (apply raisesOnly_forEach; intros ?; auto with raises).
Qed.

Lemma elsewhere_processVersionManifest self installerOutDir :
  raisesOnly elsewhere (processVersionManifest self installerOutDir).
Proof. unfold processVersionManifest. repeat raises_step. Qed.

Lemma elsewhere_substituteWildcards versionManifest :
  raisesOnly elsewhere (substituteWildcards versionManifest).
Proof. unfold substituteWildcards, setGeneratedFiles. repeat raises_step. Qed.

Lemma elsewhere_classifierLoop self libDir entry remaining targetLocations mdls :
  raisesOnly elsewhere (classifierLoop self libDir entry remaining targetLocations mdls).
Proof.
  revert targetLocations. induction remaining as [|c rest IH]; intros targetLocations; simpl.
  - auto with raises.
  - repeat raises_step; apply IH.
Qed.

Lemma elsewhere_processGeneratedFile self libDir entry mdls :
  raisesOnly elsewhere (processGeneratedFile self libDir entry mdls).
Proof.
  unfold processGeneratedFile. pose proof elsewhere_classifierLoop. repeat raises_step.
Qed.

Lemma elsewhere_generatedFilesLoop self libDir entries mdls :
  raisesOnly elsewhere (generatedFilesLoop self libDir entries mdls).
Proof.
  revert mdls. induction entries as [|entry rest IH]; intros mdls; simpl.
  - auto with raises.
  - apply raisesOnly_bind; [apply elsewhere_processGeneratedFile | intros ?; apply IH].
Qed.

Lemma elsewhere_processNeoForgeModule self versionManifest installerOutputDir :
  raisesOnly elsewhere (processNeoForgeModule self versionManifest installerOutputDir).
Proof.
  unfold processNeoForgeModule.
  pose proof elsewhere_substituteWildcards. pose proof elsewhere_generatedFilesLoop.
  repeat raises_step.
Qed.

Lemma elsewhere_librariesLoop self libDir entries mdls :
  raisesOnly elsewhere (librariesLoop self libDir entries mdls).
Proof.
  revert mdls. induction entries as [|entry rest IH]; intros mdls; simpl.
  - auto with raises.
  - repeat raises_step; apply IH.
Qed.

(** The pipeline ends with "NeoForge installation failed." only out of
    [verifyInstallerRan], and then nothing is left at or below the cache
    directory. *)
Lemma processWithInstaller_failed_installation self installerPath s s' :
  processWithInstaller self installerPath s = (Throw installationFailed, s') →
  ∀ p, within (getNeoForgeCacheDirectory (neoforgeVersion self)) p = true → fs s' !! p = None.
Proof.
  unfold processWithInstaller. intros Hrun.
  assert (Hno : ∀ {A} (m : M State A) st st',
             raisesOnly elsewhere m → m st = (Throw installationFailed, st') → False)
    by (intros A m st st' Hm Hthrow; by apply (Hm _ _ _ Hthrow)).
  apply bind_Throw_inv in Hrun as [Hrun | (cached & s1 & _ & Hrun)].
  { exfalso. eapply Hno; [|exact Hrun]. apply elsewhere_pathExists. }
  apply bind_Throw_inv in Hrun as [Hrun | (installLoader & s2 & _ & Hrun)].
  { exfalso. eapply Hno; [|exact Hrun]. repeat raises_step. }
  apply bind_Throw_inv in Hrun as [Hrun | ([] & s3 & _ & Hrun)].
  { exfalso. eapply Hno; [|exact Hrun]. pose proof elsewhere_runInstaller. repeat raises_step. }
  apply bind_Throw_inv in Hrun as [Hrun | ([] & s4 & _ & Hrun)].
  - intros p Hp. unfold verifyInstallerRan in Hrun.
    rewrite bind_run, pathExists_run in Hrun.
    destruct (bool_decide _); simpl in Hrun; [discriminate|].
    rewrite bind_run in Hrun.
    destruct (remove _ _) as [[[]|e] s5] eqn:Hremove; [|by injection Hrun as -> <-;
      unfold remove, emit, modify in Hremove; rewrite bind_run in Hremove].
    injection Hrun as <-.
    assert (Hs5 : s5 = (remove (getNeoForgeCacheDirectory (neoforgeVersion self))
               (addTrace [EvPathExists (getVersionManifestPath self
                            (getNeoForgeCacheDirectory (neoforgeVersion self)))] s3)).2)
      by (by rewrite Hremove).
    rewrite Hs5. by apply remove_lookup_within.
  - exfalso. eapply Hno; [|exact Hrun].
    pose proof elsewhere_processVersionManifest. pose proof elsewhere_processNeoForgeModule.
    pose proof elsewhere_librariesLoop. unfold processLibraries. repeat raises_step.
Qed.

(** *** The pipeline around the installer *)

Ltac stage_step :=
  first [ rewrite bind_run | rewrite log_run | progress (unfold ret; cbv beta iota) ].

Lemma verifyInstallerRan_run self outputDir s :
  verifyInstallerRan self outputDir s =
  match fs s !! getVersionManifestPath self outputDir with
  | Some _ => (Return tt, addTrace [EvPathExists (getVersionManifestPath self outputDir)] s)
  | None =>
      (Throw installationFailed,
       (remove outputDir (addTrace [EvPathExists (getVersionManifestPath self outputDir)] s)).2)
  end.
Proof.
  unfold verifyInstallerRan. rewrite bind_run, pathExists_run.
  destruct (fs s !! getVersionManifestPath self outputDir) as [node|] eqn:Hmanifest.
  - by rewrite bool_decide_eq_true_2 by eauto.
  - rewrite bool_decide_eq_false_2 by (by intros [? ?]). simpl.
    rewrite bind_run. unfold remove, emit, modify. by rewrite bind_run.
Qed.

(** The installer stage returns whatever the exit code, which only selects
    the level of the line that reports it. *)
Lemma installLoaderStage_run installer outputDir s :
  let result :=
    installerProcess getJavaExecutable ["-jar"; installer; "--installClient"; outputDir]
      (dirname installer) (fs s) in
  ∃ s1,
    installLoaderStage installer outputDir s = (Return tt, s1) ∧
    fs s1 = result.1.1 ∧
    ∃ earlier,
      logs s1 = earlier ++
        [mkLog installerLogger
           (match result.2 with Some 0%Z => Info | _ => Error end)
           ("Installer exited with code " +:+ showExitCode result.2);
         mkLog resolverLogger Debug "Installer finished, beginning processing.."].
Proof.
  intros result. unfold installLoaderStage. rewrite bind_run, log_run.
  unfold runInstaller. rewrite !bind_run. unfold emit at 1, modify at 1.
  rewrite bind_run. unfold gets at 1. cbn [fs addTrace]. fold result.
  rewrite bind_run. unfold modify at 1.
  rewrite bind_run, forEach_log. clearbody result.
  destruct result as [[disk output] code]. cbn [fst snd].
  destruct code as [[|p|p]|]; rewrite !log_run; eexists; (split; [reflexivity|]);
    (split; [reflexivity|]); simpl; eexists; by rewrite <- app_assoc.
Qed.

(** [processWithInstaller] is its three stages around the installer and the
    verification. *)
Lemma processWithInstaller_stages self installerPath s :
  let cacheDir := getNeoForgeCacheDirectory (neoforgeVersion self) in
  processWithInstaller self installerPath s =
  (let* install := beforeInstaller self installerPath in
   (if install : bool
    then installLoaderStage (pathJoin [cacheDir; basename installerPath]) cacheDir
    else ret tt) ;;;
   verifyInstallerRan self cacheDir ;;;
   afterVerification self cacheDir) s.
Proof.
  intros cacheDir. unfold processWithInstaller, beforeInstaller. fold cacheDir.
  rewrite !bind_run, pathExists_run.
  destruct (bool_decide (is_Some (fs s !! cacheDir)));
    [destruct (invalidateCache self)|]; repeat stage_step; try reflexivity.
  all: match goal with
       | |- context [remove ?p ?st] => destruct (remove p st) as [[[]|e] s1]; [|done]
       | |- context [mkdirs ?p ?st] => destruct (mkdirs p st) as [[[]|e] s1]; [|done]
       end.
  all: repeat stage_step;
    match goal with
    | |- context [copy ?src ?dst ?st] => destruct (copy src dst st) as [[[]|e'] s2]; [|done]
    end.
  all: repeat stage_step;
    match goal with
    | |- context [writeFile ?p ?c ?st] => destruct (writeFile p c st) as [[[]|e''] s3]; [|done]
    end.
  all: repeat stage_step; reflexivity.
Qed.

Lemma elsewhere_afterVerification self installerOutDir :
  raisesOnly elsewhere (afterVerification self installerOutDir).
Proof.
  unfold afterVerification.
  pose proof elsewhere_processVersionManifest. pose proof elsewhere_processNeoForgeModule.
  pose proof elsewhere_librariesLoop. unfold processLibraries. repeat raises_step.
Qed.

(** C8. Once the installer has been set up in the cache directory, the
    installer stage returns whatever the exit code of the child, which only
    selects the level of the log line that reports it. The pipeline then
    ends with "NeoForge installation failed." exactly when the version
    manifest is missing from the disk the installer left, at
    [<cache>/versions/neoforge-<version>/neoforge-<version>.json]; in that
    case nothing is left at or below the cache directory and the rest of the
    disk is as the installer left it. When the manifest is there, the run is
    that of the stages after the verification, from the state the installer
    left: it may still fail there, with another error. *)
Theorem pipeline_verdict_after_installer
    (self : Resolver) (installerPath : string) (s s0 : State) :
  beforeInstaller self installerPath s = (Return true, s0) →
  let cacheDir := getNeoForgeCacheDirectory (neoforgeVersion self) in
  let installer := pathJoin [cacheDir; basename installerPath] in
  let manifestPath := getVersionManifestPath self cacheDir in
  let result :=
    installerProcess getJavaExecutable ["-jar"; installer; "--installClient"; cacheDir]
      (dirname installer) (fs s0) in
  let disk := result.1.1 in
  let code := result.2 in
  ∃ s1 r s',
    installLoaderStage installer cacheDir s0 = (Return tt, s1) ∧
    fs s1 = disk ∧
    (∃ earlier,
       logs s1 = earlier ++
         [mkLog installerLogger
            (match code with Some 0%Z => Info | _ => Error end)
            ("Installer exited with code " +:+ showExitCode code);
          mkLog resolverLogger Debug "Installer finished, beginning processing.."]) ∧
    processWithInstaller self installerPath s = (r, s') ∧
    (r = Throw installationFailed ↔ disk !! manifestPath = None) ∧
    match disk !! manifestPath with
    | None =>
        (∀ p, within cacheDir p = true → fs s' !! p = None) ∧
        (∀ p, within cacheDir p = false → fs s' !! p = disk !! p)
    | Some _ =>
        (r, s') = afterVerification self cacheDir (addTrace [EvPathExists manifestPath] s1)
    end.
Proof.
  intros Hbefore cacheDir installer manifestPath result disk code.
  destruct (installLoaderStage_run installer cacheDir s0) as (s1 & Hstage & Hdisk & Hlog).
  fold result in Hdisk, Hlog. fold disk in Hdisk. fold code in Hlog.
  exists s1.
  pose proof (processWithInstaller_stages self installerPath s) as Hrun.
  cbv zeta in Hrun. fold cacheDir in Hrun. fold installer in Hrun.
  rewrite bind_run, Hbefore, bind_run, Hstage, bind_run, verifyInstallerRan_run in Hrun.
  fold manifestPath in Hrun. rewrite Hdisk in Hrun.
  destruct (disk !! manifestPath) as [node|] eqn:Hmanifest.
  - destruct (afterVerification self cacheDir (addTrace [EvPathExists manifestPath] s1))
      as [r s'] eqn:Hafter.
    exists r, s'.
    split; [exact Hstage|]. split; [exact Hdisk|]. split; [exact Hlog|]. split; [exact Hrun|].
    split; [|done].
    split; [|done]. intros ->.
    exfalso. by apply (elsewhere_afterVerification _ _ _ _ _ Hafter).
  - exists (Throw installationFailed),
      (remove cacheDir (addTrace [EvPathExists manifestPath] s1)).2.
    split; [exact Hstage|]. split; [exact Hdisk|]. split; [exact Hlog|]. split; [exact Hrun|].
    split; [done|].
    split; intros p Hp.
    + by apply remove_lookup_within.
    + rewrite remove_lookup_outside by done. by rewrite fs_addTrace, Hdisk.
Qed.

End WithCollaborators.
End FailureFacts.

Module FailureExamples.
Import NeoForgeResolver ResolverSamples.

Lemma pipeline_verdict_after_installer_witness :
  @beforeInstaller sampleCollaborators sampleResolver sampleInstallerPath
    (constructed sampleCollaborators sampleResolver freshDisk)
  = (Return true,
     (@beforeInstaller sampleCollaborators sampleResolver sampleInstallerPath
        (constructed sampleCollaborators sampleResolver freshDisk)).2) ∧
  (@installerProcess sampleCollaborators "java"
     ["-jar"; "/cache/neoforge/20.1.88/neoforge-20.1.88-installer.jar"; "--installClient";
      "/cache/neoforge/20.1.88"]
     "/cache/neoforge/20.1.88"
     (fs (@beforeInstaller sampleCollaborators sampleResolver sampleInstallerPath
            (constructed sampleCollaborators sampleResolver freshDisk)).2)).2 = Some 1%Z ∧
  (@processWithInstaller sampleCollaborators sampleResolver sampleInstallerPath
     (constructed sampleCollaborators sampleResolver freshDisk)).1 ≠ Throw installationFailed.
Proof.
  assert (Hbefore :
    @beforeInstaller sampleCollaborators sampleResolver sampleInstallerPath
      (constructed sampleCollaborators sampleResolver freshDisk)
    = (Return true,
       (@beforeInstaller sampleCollaborators sampleResolver sampleInstallerPath
          (constructed sampleCollaborators sampleResolver freshDisk)).2))
    by (vm_compute; reflexivity).
  split; [exact Hbefore|]. split; [reflexivity|].
  destruct (@FailureFacts.pipeline_verdict_after_installer sampleCollaborators sampleResolver
              sampleInstallerPath _ _ Hbefore)
    as (s1 & r & s' & _ & _ & _ & Hrun & Hverdict & _).
  rewrite Hrun. simpl. intros Hfailed. apply Hverdict in Hfailed. by vm_compute in Hfailed.
Defined.

(** An installer that writes the version manifest and nothing else: the
    manifest is there, the run fails all the same, at the first required
    file, and the cache directory is left behind with what the installer and
    the pipeline wrote into it. *)
Lemma pipeline_aborts_with_manifest_present :
  manifestOnlyRun.1 =
    Throw (JsError
      ("Required file universal jar not found at any expected location:" +:+
       String JS.newline (String JS.tab
         "/cache/neoforge/20.1.88/libraries/net.neoforged/neoforge/20.1.88/neoforge-20.1.88-universal.jar"))) ∧
  fs manifestOnlyRun.2
    !! "/cache/neoforge/20.1.88/versions/neoforge-20.1.88/neoforge-20.1.88.json"
    = Some (File "version.json") ∧
  fs manifestOnlyRun.2 !! "/cache/neoforge/20.1.88/launcher_profiles.json" = Some (File "{}") ∧
  fs manifestOnlyRun.2 !! "/cache/neoforge/20.1.88" = Some Dir.
Proof. repeat split; by vm_compute. Qed.

End FailureExamples.

(* ===================================================================== *)
(** * Properties of NeoForgeResolver: the shape of the module tree *)
(* ===================================================================== *)

Module TreeFacts.
Import NeoForgeResolver AssemblyFacts InstallerFacts.

Lemma bind_Return_inv {S A B} (m : M S A) (k : A → M S B) s b s' :
  bind m k s = (Return b, s') → ∃ a s1, m s = (Return a, s1) ∧ k a s1 = (Return b, s').
Proof.
  rewrite bind_run. destruct (m s) as [[a|e] s1]; [eauto | discriminate].
Qed.

(** *** Computations that leave the specs alone *)

Lemma keepsSpecs_ret {A} (a : A) : keepsSpecs (ret a).
Proof. by intros s r s' [= <- <-]. Qed.

Lemma keepsSpecs_throw {A} e : keepsSpecs (@throw State A e).
Proof. by intros s r s' [= <- <-]. Qed.

Lemma keepsSpecs_bind {A B} (m : M State A) (k : A → M State B) :
  keepsSpecs m → (∀ a, keepsSpecs (k a)) → keepsSpecs (bind m k).
Proof.
  intros Hm Hk s r s'. rewrite bind_run. destruct (m s) as [[a|e] s1] eqn:Hms.
  - intros Hka. rewrite (Hk a _ _ _ Hka). by apply (Hm _ _ _ Hms).
  - intros [= <- <-]. by apply (Hm _ _ _ Hms).
Qed.

Lemma keepsSpecs_emit e : keepsSpecs (emit e).
Proof. by intros s r s' [= <- <-]. Qed.

Lemma keepsSpecs_log who lvl msg : keepsSpecs (log who lvl msg).
Proof. by intros s r s' [= <- <-]. Qed.

Lemma keepsSpecs_gets {A} (f : State → A) : keepsSpecs (gets f).
Proof. by intros s r s' [= <- <-]. Qed.

Lemma keepsSpecs_setFs f : keepsSpecs (modify (setFs f)).
Proof. by intros s r s' [= <- <-]. Qed.

Create HintDb keeps discriminated.
#[export] Hint Resolve keepsSpecs_ret keepsSpecs_throw keepsSpecs_emit keepsSpecs_log
  keepsSpecs_gets keepsSpecs_setFs : keeps.

Ltac keeps_step :=
  first [ solve [auto with keeps]
        | apply keepsSpecs_bind; [|intros ?]
        | match goal with |- keepsSpecs (match ?x with _ => _ end) => destruct x end
        | match goal with |- keepsSpecs (if ?x then _ else _) => destruct x end ].

Lemma keepsSpecs_pathExists p : keepsSpecs (pathExists p).
Proof. unfold pathExists. repeat keeps_step. Qed.

Lemma keepsSpecs_readFile p : keepsSpecs (readFile p).
Proof. unfold readFile. repeat keeps_step. Qed.

Lemma keepsSpecs_lstat p : keepsSpecs (lstat p).
Proof. unfold lstat. repeat keeps_step. Qed.

Lemma keepsSpecs_remove p : keepsSpecs (remove p).
Proof. unfold remove. repeat keeps_step. Qed.

Lemma keepsSpecs_mkdirsQuiet p : keepsSpecs (mkdirsQuiet p).
Proof. unfold mkdirsQuiet. repeat keeps_step. Qed.

Lemma keepsSpecs_copy `{Collaborators} src dst : keepsSpecs (copy src dst).
Proof. unfold copy. pose proof keepsSpecs_mkdirsQuiet. repeat keeps_step. Qed.

#[export] Hint Resolve keepsSpecs_pathExists keepsSpecs_readFile keepsSpecs_lstat
  keepsSpecs_remove keepsSpecs_copy : keeps.

Section WithCollaborators.
Context `{Collaborators}.

Lemma keepsSpecs_classifierLoop self libDir entry remaining targetLocations mdls :
  keepsSpecs (classifierLoop self libDir entry remaining targetLocations mdls).
Proof.
  revert targetLocations. induction remaining as [|c rest IH]; intros targetLocations; simpl.
  - auto with keeps.
  - repeat keeps_step; apply IH.
Qed.

Lemma keepsSpecs_processGeneratedFile self libDir entry mdls :
  keepsSpecs (processGeneratedFile self libDir entry mdls).
Proof.
  unfold processGeneratedFile. pose proof keepsSpecs_classifierLoop. repeat keeps_step.
Qed.

Lemma keepsSpecs_generatedFilesLoop self libDir entries mdls :
  keepsSpecs (generatedFilesLoop self libDir entries mdls).
Proof.
  revert mdls. induction entries as [|entry rest IH]; intros mdls; simpl.
  - auto with keeps.
  - apply keepsSpecs_bind; [apply keepsSpecs_processGeneratedFile | intros ?; apply IH].
Qed.

Lemma keepsSpecs_librariesLoop self libDir entries mdls :
  keepsSpecs (librariesLoop self libDir entries mdls).
Proof.
  revert mdls. induction entries as [|entry rest IH]; intros mdls; simpl.
  - auto with keeps.
  - repeat keeps_step; apply IH.
Qed.

(** *** What the loops push *)

Lemma classifierLoop_result self libDir entry remaining targetLocations mdls s
    located targetLocations' mdls' s' :
  classifierLoop self libDir entry remaining targetLocations mdls s
    = (Return (located, targetLocations', mdls'), s') →
  (located = false ∧ mdls' = mdls) ∨
  (located = true ∧
   ∃ c content stats,
     c ∈ remaining ∧ mdls' = mdls ++ [generatedModule self entry c content stats]).
Proof.
  revert targetLocations s.
  induction remaining as [|c rest IH]; intros targetLocations s; simpl.
  - intros [= <- <- <- <-]. by left.
  - rewrite bind_run, pathExists_run.
    destruct (bool_decide (is_Some (fs s !! targetLocalPathOf libDir entry c))).
    + intros Hrun.
      apply bind_Return_inv in Hrun as (content & s1 & _ & Hrun).
      apply bind_Return_inv in Hrun as (stats & s2 & _ & Hrun).
      apply bind_Return_inv in Hrun as ([] & s3 & _ & Hrun).
      injection Hrun as <- <- <- <-. right. split; [done|].
      exists c, content, stats. split; [by left | done].
    + intros Hrun. apply IH in Hrun as [Hnone | [-> (c' & content & stats & Hin & ->)]].
      * by left.
      * right. split; [done|]. exists c', content, stats. split; [by right | done].
Qed.

Lemma processGeneratedFile_result self libDir entry mdls s mdls' s' :
  processGeneratedFile self libDir entry mdls s = (Return mdls', s') →
  mdls' = mdls ∨
  ∃ p, pickEntry p = entry ∧ pickClassifier p ∈ GeneratedFile.classifiers entry ∧
       mdls' = mdls ++ [pickModule self p].
Proof.
  unfold processGeneratedFile. intros Hrun.
  apply bind_Return_inv in Hrun as ([[located tl] pushed] & s1 & Hloop & Hrun).
  simpl in Hrun.
  destruct (negb (default false (GeneratedFile.skipIfNotPresent entry)) && negb located);
    [discriminate|].
  injection Hrun as <- <-.
  apply classifierLoop_result in Hloop as [[_ ->] | [_ (c & content & stats & Hin & ->)]].
  - by left.
  - right. by exists (mkPick entry c content stats).
Qed.

(** The modules pushed by the loop over the specs come from a subsequence of
    the specs, one accepted classifier each, in the order of the specs. *)
Lemma generatedFilesLoop_result self libDir entries mdls s mdls' s' :
  generatedFilesLoop self libDir entries mdls s = (Return mdls', s') →
  ∃ picks,
    mdls' = mdls ++ List.map (pickModule self) picks ∧
    List.map pickEntry picks `sublist_of` entries ∧
    Forall (λ p, pickClassifier p ∈ GeneratedFile.classifiers (pickEntry p)) picks.
Proof.
  revert mdls s. induction entries as [|entry rest IH]; intros mdls s; simpl.
  - intros [= <- <-]. exists []. by rewrite app_nil_r.
  - intros Hrun. apply bind_Return_inv in Hrun as (mdls1 & s1 & Hturn & Hrun).
    apply IH in Hrun as (picks & -> & Hsub & Hclass).
    apply processGeneratedFile_result in Hturn as [-> | (p & Hentry & Hin & ->)].
    + exists picks. split; [done|]. split; [by apply sublist_cons | done].
    + exists (p :: picks). rewrite <- app_assoc. split; [done|]. simpl. split.
      * rewrite Hentry. by apply sublist_skip.
      * constructor; [by rewrite Hentry | done].
Qed.

(** The modules pushed by the loop over the manifest libraries are those of
    the entries with a download URL, in the order of the manifest. *)
Lemma librariesLoop_result self libDir entries mdls s mdls' s' :
  librariesLoop self libDir entries mdls s = (Return mdls', s') →
  ∃ libs,
    mdls' = mdls ++ libs ∧
    Forall2 (λ entry m, ∃ content stats, m = libraryModule self entry content stats)
            (List.filter hasUrl entries) libs.
Proof.
  revert mdls s. induction entries as [|entry rest IH]; intros mdls s; simpl.
  - intros [= <- <-]. exists []. by rewrite app_nil_r.
  - unfold hasUrl at 1.
    destruct (negb (String.eqb (ManifestLibrary.url (ManifestLibrary.downloads_artifact entry)) EmptyString)).
    + intros Hrun. apply bind_Return_inv in Hrun as (present & s1 & _ & Hrun).
      destruct (negb present); [discriminate|].
      apply bind_Return_inv in Hrun as (content & s2 & _ & Hrun).
      apply bind_Return_inv in Hrun as (stats & s3 & _ & Hrun).
      apply bind_Return_inv in Hrun as ([] & s4 & _ & Hrun).
      apply IH in Hrun as (libs & -> & Hlibs).
      exists (libraryModule self entry content stats :: libs).
      rewrite <- app_assoc. split; [done|]. constructor; [eauto | done].
    + intros Hrun. by apply IH in Hrun.
Qed.

(** *** The stages of the pipeline *)

Lemma processVersionManifest_result self installerOutDir s manifest manifestModule s' :
  processVersionManifest self installerOutDir s = (Return (manifest, manifestModule), s') →
  type manifestModule = VersionManifest ∧
  subModules manifestModule = None ∧
  id manifestModule = neoforgeVersion self ∧
  ∃ raw, parseManifest raw = Some manifest.
Proof.
  unfold processVersionManifest. intros Hrun.
  apply bind_Return_inv in Hrun as (raw & s1 & _ & Hrun).
  destruct (parseManifest raw) as [parsed|] eqn:Hparse; [|discriminate].
  apply bind_Return_inv in Hrun as (stats & s2 & _ & Hrun).
  destruct (resolveUrl _ _) as [url|]; [|discriminate].
  apply bind_Return_inv in Hrun as ([] & s3 & _ & Hrun).
  injection Hrun as <- <- <-. eauto.
Qed.

Lemma processNeoForgeModule_result self versionManifest installerOutputDir s forgeModule s' :
  processNeoForgeModule self versionManifest installerOutputDir s = (Return forgeModule, s') →
  ∃ entries picks first rest,
    generatedFiles s' = Some entries ∧
    List.map pickEntry picks `sublist_of` entries ∧
    Forall (λ p, pickClassifier p ∈ GeneratedFile.classifiers (pickEntry p)) picks ∧
    List.map (pickModule self) picks = first :: rest ∧
    forgeModule = setSubModules (setType first ForgeHosted) (Some rest).
Proof.
  unfold processNeoForgeModule. intros Hrun.
  apply bind_Return_inv in Hrun as ([] & s1 & _ & Hrun).
  rewrite bind_run in Hrun. unfold gets at 1 in Hrun.
  destruct (generatedFiles s1) as [entries|] eqn:Hentries; [|discriminate].
  apply bind_Return_inv in Hrun as (mdls & s2 & Hloop & Hrun).
  destruct mdls as [|first rest]; [discriminate|].
  injection Hrun as <- <-.
  pose proof (keepsSpecs_generatedFilesLoop _ _ _ _ _ _ _ Hloop) as Hkeep.
  apply generatedFilesLoop_result in Hloop as (picks & Hpicks & Hsub & Hclass).
  exists entries, picks, first, rest. simpl in Hpicks. by rewrite Hkeep.
Qed.

Lemma countType_unfold t m :
  countType t m =
  ((if typeEqb (type m) t then 1 else 0) +
   match subModules m with
   | Some children => list_sum (List.map (countType t) children)
   | None => 0
   end)%nat.
Proof.
  destruct m as [i n ty cp art [children|]]; simpl; [|done]. f_equal.
  induction children as [|child children IH]; simpl; [done|]. by rewrite IH.
Qed.

Lemma countType_leaf t m :
  type m = Library → t ≠ Library →
  subModules m = Some [] ∨ subModules m = None →
  countType t m = 0.
Proof.
  intros Hty Ht Hsubs. rewrite countType_unfold, Hty.
  destruct t; [done| |]; by destruct Hsubs as [-> | ->].
Qed.

Lemma processWithInstaller_result self installerPath s root s' :
  processWithInstaller self installerPath s = (Return root, s') →
  ∃ entries picks first generated manifestModule manifest libs,
    generatedFiles s' = Some entries ∧
    List.map pickEntry picks `sublist_of` entries ∧
    Forall (λ p, pickClassifier p ∈ GeneratedFile.classifiers (pickEntry p)) picks ∧
    List.map (pickModule self) picks = first :: generated ∧
    root = mkModule (id first) (name first) ForgeHosted (classpath first) (artifact first)
             (Some (manifestModule :: generated ++ libs)) ∧
    type manifestModule = VersionManifest ∧
    subModules manifestModule = None ∧
    (∃ raw, parseManifest raw = Some manifest) ∧
    Forall2 (λ entry m, ∃ content stats, m = libraryModule self entry content stats)
            (List.filter hasUrl (libraries manifest)) libs.
Proof.
  unfold processWithInstaller. intros Hrun.
  apply bind_Return_inv in Hrun as (cached & s1 & _ & Hrun).
  apply bind_Return_inv in Hrun as (installLoader & s2 & _ & Hrun).
  apply bind_Return_inv in Hrun as ([] & s3 & _ & Hrun).
  apply bind_Return_inv in Hrun as ([] & s4 & _ & Hrun).
  apply bind_Return_inv in Hrun as ([] & s5 & _ & Hrun).
  apply bind_Return_inv in Hrun as ([manifest manifestModule] & s6 & Hmanifest & Hrun).
  apply bind_Return_inv in Hrun as ([] & s7 & _ & Hrun).
  apply bind_Return_inv in Hrun as (forgeModule & s8 & Hforge & Hrun).
  apply processVersionManifest_result in Hmanifest as (Hty & Hsubs & _ & Hraw).
  apply processNeoForgeModule_result in Hforge
    as (entries & picks & first & generated & Hentries & Hsub & Hclass & Hpicks & ->).
  assert (Htail : generatedFiles s' = generatedFiles s8 ∧
            ∃ libs,
              root = mkModule (id first) (name first) ForgeHosted (classpath first)
                       (artifact first) (Some (manifestModule :: generated ++ libs)) ∧
              Forall2 (λ entry m, ∃ content stats, m = libraryModule self entry content stats)
                      (List.filter hasUrl (libraries manifest)) libs).
  { simpl in Hrun.
    apply bind_Return_inv in Hrun as ([] & s9 & Hlog & Hrun).
    apply bind_Return_inv in Hrun as (libs & s10 & Hlibs & Hrun).
    apply bind_Return_inv in Hrun as ([] & s11 & Hclean & Hrun).
    injection Hrun as <- <-.
    split.
    - assert (Hk9 : generatedFiles s9 = generatedFiles s8)
        by (by apply (keepsSpecs_log _ _ _ _ _ _ Hlog)).
      assert (Hk10 : generatedFiles s10 = generatedFiles s9)
        by (by apply (keepsSpecs_librariesLoop _ _ _ _ _ _ _ Hlibs)).
      assert (Hk11 : generatedFiles s11 = generatedFiles s10).
      { revert Hclean. generalize (Return (A:=unit) ()).
        destruct (discardOutput self); intros r Hclean.
        - eapply (keepsSpecs_bind _ _ (keepsSpecs_log _ _ _)); [|exact Hclean].
          intros ?. apply keepsSpecs_bind; [apply keepsSpecs_remove|].
          intros ?. apply keepsSpecs_log.
        - by injection Hclean as _ <-. }
      congruence.
    - unfold processLibraries in Hlibs.
      apply librariesLoop_result in Hlibs as (libs' & -> & Hlibs). simpl.
      exists libs'. split; [done | exact Hlibs]. }
  destruct Htail as [Hkeep (libs & -> & Hlibs)].
  exists entries, picks, first, generated, manifestModule, manifest, libs.
  rewrite Hkeep. done.
Qed.

(** C9. The tree of a successful resolution. Its root is the first module
    assembled from the generated-file specs, taken in their declared order,
    with its type set to [ForgeHosted]; the children of the root are the
    version-manifest module first, then the other generated-file modules,
    then one module for each manifest library that declares a download URL,
    in the order of the manifest. Every child but the first is a [Library]
    without children of its own, so the root is the one [ForgeHosted] module
    of the tree. *)
Theorem resolution_tree_shape (self : Resolver) (s : State) (root : Module) (s' : State) :
  process self s = (Return root, s') →
  ∃ entries picks first generated manifestModule manifest libs,
    generatedFiles s' = Some entries ∧
    List.map pickEntry picks `sublist_of` entries ∧
    Forall (λ p, pickClassifier p ∈ GeneratedFile.classifiers (pickEntry p)) picks ∧
    List.map (pickModule self) picks = first :: generated ∧
    root = mkModule (id first) (name first) ForgeHosted (classpath first) (artifact first)
             (Some (manifestModule :: generated ++ libs)) ∧
    type manifestModule = VersionManifest ∧
    subModules manifestModule = None ∧
    (∃ raw, parseManifest raw = Some manifest) ∧
    Forall2 (λ entry m, ∃ content stats, m = libraryModule self entry content stats)
            (List.filter hasUrl (libraries manifest)) libs ∧
    Forall (λ m, type m = Library ∧ (subModules m = Some [] ∨ subModules m = None))
           (generated ++ libs) ∧
    countType ForgeHosted root = 1%nat.
Proof.
  unfold process. intros Hrun.
  apply bind_Return_inv in Hrun as ([] & s1 & _ & Hrun).
  apply bind_Return_inv in Hrun as (present & s2 & _ & Hrun).
  apply bind_Return_inv in Hrun as ([] & s3 & _ & Hrun).
  apply bind_Return_inv in Hrun as ([] & s4 & _ & Hrun).
  apply processWithInstaller_result in Hrun
    as (entries & picks & first & generated & manifestModule & manifest & libs &
        Hentries & Hsub & Hclass & Hpicks & -> & Hty & Hsubs & Hraw & Hlibs).
  assert (Hgenerated : Forall (λ m, type m = Library ∧ subModules m = Some []) generated).
  { assert (Hall : Forall (λ m, type m = Library ∧ subModules m = Some [])
                     (List.map (pickModule self) picks))
      by (apply Forall_forall; intros m Hm; apply list_elem_of_fmap in Hm as (p & -> & _); done).
    rewrite Hpicks in Hall. by inversion Hall. }
  assert (HlibsTy : Forall (λ m, type m = Library ∧ subModules m = None) libs).
  { clear -Hlibs. induction Hlibs as [|entry m ? ? (content & stats & ->) _ IH]; constructor; done. }
  assert (Hleaves : Forall (λ m, type m = Library ∧ (subModules m = Some [] ∨ subModules m = None))
                      (generated ++ libs)).
  { apply Forall_app. split.
    - eapply Forall_impl; [exact Hgenerated|]. intros m [Hm1 Hm2]. auto.
    - eapply Forall_impl; [exact HlibsTy|]. intros m [Hm1 Hm2]. auto. }
  exists entries, picks, first, generated, manifestModule, manifest, libs.
  repeat (split; [done|]).
  rewrite countType_unfold. simpl.
  assert (Hzero : list_sum (List.map (countType ForgeHosted) (generated ++ libs)) = 0%nat).
  { clear -Hleaves. induction Hleaves as [|m l [Hm1 Hm2] _ IH]; simpl; [done|].
    by rewrite IH, countType_leaf. }
  rewrite Hzero, countType_unfold, Hty, Hsubs. done.
Qed.

End WithCollaborators.
End TreeFacts.

Module TreeExamples.
Import NeoForgeResolver ResolverSamples.

Lemma resolution_tree_shape_witness :
  sampleRun = (Return sampleRoot, sampleRun.2) ∧
  ∃ entries picks first generated manifestModule manifest libs,
    generatedFiles sampleRun.2 = Some entries ∧
    List.map pickEntry picks `sublist_of` entries ∧
    Forall (λ p, pickClassifier p ∈ GeneratedFile.classifiers (pickEntry p)) picks ∧
    List.map (@pickModule sampleCollaborators sampleResolver) picks = first :: generated ∧
    sampleRoot = mkModule (id first) (name first) ForgeHosted (classpath first) (artifact first)
                   (Some (manifestModule :: generated ++ libs)) ∧
    type manifestModule = VersionManifest ∧
    subModules manifestModule = None ∧
    (∃ raw, @parseManifest sampleCollaborators raw = Some manifest) ∧
    Forall2 (λ entry m, ∃ content stats,
               m = @libraryModule sampleCollaborators sampleResolver entry content stats)
            (List.filter hasUrl (libraries manifest)) libs ∧
    Forall (λ m, type m = Library ∧ (subModules m = Some [] ∨ subModules m = None))
           (generated ++ libs) ∧
    countType ForgeHosted sampleRoot = 1%nat.
Proof.
  assert (Hrun : sampleRun = (Return sampleRoot, sampleRun.2)) by (vm_compute; reflexivity).
  split; [exact Hrun|].
  exact (@TreeFacts.resolution_tree_shape sampleCollaborators sampleResolver
           (constructed sampleCollaborators sampleResolver freshDisk) sampleRoot sampleRun.2 Hrun).
Defined.

(** The ids and types of the sample tree: root first, then its children. *)
Example sample_tree_outline :
  (id sampleRoot, type sampleRoot) ::
  List.map (λ m, (id m, type m)) (default [] (subModules sampleRoot))
  = [("net.neoforged:neoforge:20.1.88:universal", ForgeHosted);
     ("20.1.88", VersionManifest);
     ("net.neoforged:neoforge:20.1.88:client", Library);
     ("net.minecraft:client:1.20.1-20231019.002401:extra", Library);
     ("net.minecraft:client:1.20.1-20231019.002401:slim", Library);
     ("net.minecraft:client:1.20.1-20231019.002401:srg", Library);
     ("cpw.mods:securejarhandler:2.1.24", Library);
     ("org.ow2.asm:asm:9.5", Library)].
Proof. vm_compute. reflexivity. Qed.

End TreeExamples.

(* ===================================================================== *)
(** * Further properties of VersionUtil: the version predicates *)
(* ===================================================================== *)

Module VersionPredicateFacts.
Import VersionUtil.

Lemma forallb_false_exists {A} (f : A → bool) (l : list A) :
  forallb f l = false ↔ ∃ x, In x l ∧ f x = false.
Proof.
  induction l as [|a l IH]; simpl.
  - split; [done | by intros (x & [] & _)].
  - destruct (f a) eqn:Ha; simpl.
    + rewrite IH. split.
      * intros (x & Hin & Hx). eauto.
      * intros (x & [<- | Hin] & Hx); [congruence | eauto].
    + split; [|done]. intros _. exists a. auto.
Qed.

Lemma isVersionAcceptable_iff version acceptable :
  isVersionAcceptable version acceptable = true ↔
  getMajor version = 1%N ∧ getMinor version ∈ acceptable.
Proof.
  unfold isVersionAcceptable. destruct (N.eqb_spec (getMajor version) 1) as [Hmajor|Hmajor].
  - destruct (List.find _ acceptable) as [found|] eqn:Hfind.
    + apply find_some in Hfind as [Hin Heq]. apply N.eqb_eq in Heq. subst found.
      split; [|done]. intros _. split; [done|]. by apply list_elem_of_In.
    + split; [done|]. intros [_ Hin]. apply list_elem_of_In in Hin.
      pose proof (find_none _ _ Hfind _ Hin) as Hne. by rewrite N.eqb_refl in Hne.
  - split; [done | by intros [? _]].
Qed.

Section WithNumbers.
Context `{Numbers}.

Lemma gtUndefined_true a b :
  gtUndefined a b = true ↔ ∃ x y, a = Some x ∧ b = Some y ∧ gt x y = true.
Proof.
  destruct a as [x|], b as [y|]; simpl; split; try done; try (by intros (? & ? & ? & ? & ?)).
  - intros Hgt. by exists x, y.
  - by intros (? & ? & [= <-] & [= <-] & ?).
Qed.

(** X1. [versionGte] answers [true] exactly when the two strings are equal
    (whatever they hold, nothing is parsed then) or they have the same number
    of dot-separated parts and some part of [version] is greater than the part
    of [min] at the same position. The parts before that position play no
    role: the comparison is not lexicographic. *)
Theorem versionGte_true_iff (version min : string) :
  versionGte version min = Return true ↔
  version = min ∨
  (length (JS.splitChar "." version) = length (JS.splitChar "." min) ∧
   ∃ i part bound,
     JS.splitChar "." version !! i = Some part ∧
     JS.splitChar "." min !! i = Some bound ∧
     gt (jsNumber part) (jsNumber bound) = true).
Proof.
  unfold versionGte. destruct (String.eqb_spec version min) as [Heq|Hne].
  - split; [by left | done].
  - rewrite !length_map.
    destruct (Nat.eqb_spec (length (JS.splitChar "." version)) (length (JS.splitChar "." min)))
      as [Hlen|Hlen]; simpl.
    + split.
      * intros [= Hex]. right. split; [done|].
        apply existsb_exists in Hex as (i & _ & Hgt).
        apply gtUndefined_true in Hgt as (x & y & Hx & Hy & Hgt).
        rewrite list_lookup_fmap in Hx, Hy.
        destruct (JS.splitChar "." version !! i) as [part|] eqn:Hpart; [|done].
        destruct (JS.splitChar "." min !! i) as [bound|] eqn:Hbound; [|done].
        simpl in Hx, Hy. injection Hx as <-. injection Hy as <-. by exists i, part, bound.
      * intros [Heq | [_ (i & part & bound & Hpart & Hbound & Hgt)]]; [done|].
        f_equal. apply existsb_exists. exists i. split.
        -- apply in_seq. apply lookup_lt_Some in Hpart. lia.
        -- apply gtUndefined_true. exists (jsNumber part), (jsNumber bound).
           by rewrite !list_lookup_fmap, Hpart, Hbound.
    + split; [done|]. by intros [? | [? _]].
Qed.

(** X2. [versionGte] throws exactly when the two strings differ and do not
    have the same number of dot-separated parts; the error is the "mismatched
    versions" one. In every other case it returns. *)
Theorem versionGte_throws_iff (version min : string) (e : Exn) :
  versionGte version min = Throw e ↔
  version ≠ min ∧
  length (JS.splitChar "." version) ≠ length (JS.splitChar "." min) ∧
  e = JsError "Cannot compare mismatched versions.".
Proof.
  unfold versionGte. destruct (String.eqb_spec version min) as [Heq|Hne].
  - split; [done | by intros [? _]].
  - rewrite !length_map.
    destruct (Nat.eqb_spec (length (JS.splitChar "." version)) (length (JS.splitChar "." min)))
      as [Hlen|Hlen]; simpl.
    + split; [done | by intros (_ & ? & _)].
    + split; [by intros [= <-] | by intros (_ & _ & ->)].
Qed.

(** X3. [isOneDotTwelveFG2] answers [false] exactly when one of the first four
    dot-separated parts of the library version is greater than its bound in
    14.23.5.2847. Parts beyond the fourth are ignored, and a version with
    fewer than four parts is judged on the parts it has. *)
Theorem isOneDotTwelveFG2_false_iff (libraryVersion : string) :
  isOneDotTwelveFG2 libraryVersion = false ↔
  ∃ i part bound,
    JS.splitChar "." libraryVersion !! i = Some part ∧
    [14; 23; 5; 2847]%N !! i = Some bound ∧
    gt (jsNumber part) (literal bound) = true.
Proof.
  unfold isOneDotTwelveFG2. rewrite forallb_false_exists. split.
  - intros (i & Hin & Hgt). apply negb_false_iff in Hgt.
    apply gtUndefined_true in Hgt as (x & y & Hx & Hy & Hgt).
    rewrite list_lookup_fmap in Hx.
    destruct (JS.splitChar "." libraryVersion !! i) as [part|] eqn:Hpart; [|done].
    simpl in Hx. injection Hx as <-.
    exists i, part.
    do 4 (destruct i as [|i]; [injection Hy as <-; eexists; by repeat split|]).
    done.
  - intros (i & part & bound & Hpart & Hbound & Hgt). exists i. split.
    + apply in_seq. apply lookup_lt_Some in Hbound. simpl in *. lia.
    + apply negb_false_iff, gtUndefined_true. exists (jsNumber part), (literal bound).
      rewrite list_lookup_fmap, Hpart. split; [done|]. split; [|done].
      do 4 (destruct i as [|i]; [by injection Hbound as <-|]). done.
Qed.

End WithNumbers.

Example versionGte_is_not_lexicographic :
  @versionGte Samples.decimalNumbers "1.2" "2.0" = Return true ∧
  @versionGte Samples.decimalNumbers "2.0" "1.2" = Return true ∧
  @versionGte Samples.decimalNumbers "1.x" "1.x" = Return true ∧
  @versionGte Samples.decimalNumbers "1.x" "1.0" = Return false ∧
  @versionGte Samples.decimalNumbers "1.2.1" "1.2" = Throw (JsError "Cannot compare mismatched versions.").
Proof. repeat split; reflexivity. Qed.

Example fg2_bounds :
  @isOneDotTwelveFG2 Samples.decimalNumbers "14.23.5.2847" = true ∧
  @isOneDotTwelveFG2 Samples.decimalNumbers "14.23.5.2848" = false ∧
  @isOneDotTwelveFG2 Samples.decimalNumbers "13.99.0.0" = false ∧
  @isOneDotTwelveFG2 Samples.decimalNumbers "14.23" = true ∧
  @isOneDotTwelveFG2 Samples.decimalNumbers "14.23.5.2847.99" = true.
Proof. repeat split; reflexivity. Qed.

(** X4. The NeoForge resolver accepts a Minecraft version exactly when its
    major number is 1 and its minor number is between 13 and 21, or is 12
    with a library version that [isOneDotTwelveFG2] rejects. *)
Theorem isForVersion_iff `{Numbers} (version : MinecraftVersion) (libraryVersion : string) :
  NeoForgeResolver.isForVersion version libraryVersion = true ↔
  getMajor version = 1%N ∧
  ((13 ≤ getMinor version ≤ 21)%N ∨
   (getMinor version = 12%N ∧ isOneDotTwelveFG2 libraryVersion = false)).
Proof.
  unfold NeoForgeResolver.isForVersion.
  assert (Hrange : getMinor version ∈ [12; 13; 14; 15; 16; 17; 18; 19; 20; 21]%N ↔
                   (12 ≤ getMinor version ≤ 21)%N).
  { rewrite !elem_of_cons, elem_of_nil. lia. }
  destruct (N.eqb_spec (getMinor version) 12) as [Hminor|Hminor]; simpl.
  - destruct (isOneDotTwelveFG2 libraryVersion) eqn:Hfg2.
    + split; [done|]. intros [_ [Hr | [_ ?]]]; [lia | done].
    + rewrite isVersionAcceptable_iff, Hrange. split.
      * intros [Hmajor _]. auto.
      * intros [Hmajor _]. split; [done | lia].
  - rewrite isVersionAcceptable_iff, Hrange. split.
    + intros [Hmajor Hr]. split; [done|]. left. lia.
    + intros [Hmajor [Hr | [? _]]]; [|done]. split; [done | lia].
Qed.

End VersionPredicateFacts.

(* ===================================================================== *)
(** * Further properties of VersionUtil: the promotion resolvers *)
(* ===================================================================== *)

Module PromotionMoreFacts.
Import VersionUtil Promotion VersionUtilFacts.

Lemma lowerChar_idempotent c : JS.lowerChar (JS.lowerChar c) = JS.lowerChar c.
Proof. destruct c as [[] [] [] [] [] [] [] []]; reflexivity. Qed.

Lemma toLowerCase_idempotent s : JS.toLowerCase (JS.toLowerCase s) = JS.toLowerCase s.
Proof. induction s as [|c s IH]; simpl; [done|]. by rewrite lowerChar_idempotent, IH. Qed.

(** X5. Promotion labels are read case-insensitively: every resolver, the
    strict lookup and [isPromotionVersion] give for a label what they give for
    its lower-case form, log lines included. *)
Theorem promotion_label_case_insensitive
    (res : PromotionsSlim) (index : NeoForgeVersionIndex) (meta : list FabricLoaderMeta)
    (mc : MinecraftVersion) (promotion : string) (logs : Logs) :
  getPromotedForgeVersion res mc (JS.toLowerCase promotion) logs
    = getPromotedForgeVersion res mc promotion logs ∧
  getPromotedNeoForgeVersion index mc (JS.toLowerCase promotion) logs
    = getPromotedNeoForgeVersion index mc promotion logs ∧
  getPromotedFabricVersion meta (JS.toLowerCase promotion) logs
    = getPromotedFabricVersion meta promotion logs ∧
  getPromotedVersionStrict res mc (JS.toLowerCase promotion)
    = getPromotedVersionStrict res mc promotion ∧
  isPromotionVersion (JS.toLowerCase promotion) = isPromotionVersion promotion.
Proof.
  unfold getPromotedForgeVersion, getPromotedNeoForgeVersion, getPromotedFabricVersion,
    getPromotedVersionStrict, isPromotionVersion.
  by rewrite !toLowerCase_idempotent.
Qed.

(** A loop that overwrites its variable at every hit: the converse reading. *)
Lemma overwrite_loop_finds {A} (P : A → bool) (pre : list A) (v : A) (post : list A)
    (acc : option A) :
  P v = true →
  Forall (λ x, P x = false) post →
  fold_left (λ a x, if P x then Some x else a) (pre ++ v :: post) acc = Some v.
Proof.
  intros Hv Hpost. rewrite fold_left_app. simpl. rewrite Hv.
  clear Hv. induction Hpost as [|x post Hx _ IH]; simpl; [done|]. by rewrite Hx.
Qed.

(** X6. [getPromotedNeoForgeVersion] fails exactly when no version of the
    index starts with the working version (minor.revision) of the Minecraft
    version; whenever it returns, the result is a version of the index that
    starts with it. *)
Theorem neoforge_resolution_outcome
    (index : NeoForgeVersionIndex) (mc : MinecraftVersion) (promotion : string) (logs : Logs) :
  match (getPromotedNeoForgeVersion index mc promotion logs).1 with
  | Return v => v ∈ versions index ∧ JS.startsWith v (workingVersionOf mc) = true
  | Throw e =>
      e = JsError ("No latest version found for Forge " +:+ mcToString mc +:+ ".") ∧
      Forall (λ x, JS.startsWith x (workingVersionOf mc) = false) (versions index)
  end.
Proof.
  assert (Hfound : ∀ stable v,
            findNeoForgePromotedVersion index stable (workingVersionOf mc) = Some v →
            v ∈ versions index ∧ JS.startsWith v (workingVersionOf mc) = true).
  { intros stable v Hfind. rewrite findNeoForgePromotedVersion_fold in Hfind.
    pose proof (overwrite_loop_last (eligible stable (workingVersionOf mc))
                  (versions index) None) as Hloop.
    rewrite Hfind in Hloop. destruct Hloop as [(pre & post & Hsplit & Hv & _) | [? _]]; [|done].
    apply eligible_spec in Hv as [Hstart _]. split; [|done].
    rewrite Hsplit. apply elem_of_app. right. by left. }
  unfold getPromotedNeoForgeVersion.
  destruct (findNeoForgePromotedVersion index
              (String.eqb (JS.toLowerCase promotion) "recommended") (workingVersionOf mc))
    as [v|] eqn:Hfirst; simpl.
  - by eapply Hfound.
  - unfold bind, warn, modify. simpl.
    destruct (findNeoForgePromotedVersion index false (workingVersionOf mc)) as [v|] eqn:Hlatest;
      simpl.
    + by eapply Hfound.
    + split; [done|]. rewrite findNeoForgePromotedVersion_fold in Hlatest.
      pose proof (overwrite_loop_last (eligible false (workingVersionOf mc))
                    (versions index) None) as Hloop.
      rewrite Hlatest in Hloop. destruct Hloop as [_ Hall].
      eapply Forall_impl; [exact Hall|]. intros x Hx. unfold eligible in Hx. simpl in Hx.
      by rewrite andb_true_r in Hx.
Qed.

(** X7. When "recommended" is requested and the index holds a version with
    the prefix that does not end in [-beta], the last such version is
    returned, without any warning, however many [-beta] versions come after
    it. *)
Theorem neoforge_recommended_prefers_stable
    (index : NeoForgeVersionIndex) (mc : MinecraftVersion) (promotion : string) (logs : Logs)
    (pre : list string) (v : string) (post : list string) :
  JS.toLowerCase promotion = "recommended" →
  versions index = pre ++ v :: post →
  JS.startsWith v (workingVersionOf mc) = true →
  JS.endsWith v "-beta" = false →
  Forall (λ x, JS.startsWith x (workingVersionOf mc) = false ∨ JS.endsWith x "-beta" = true) post →
  getPromotedNeoForgeVersion index mc promotion logs = (Return v, logs).
Proof.
  intros Hlabel Hsplit Hstart Hbeta Hpost.
  apply getPromotedNeoForgeVersion_hit. rewrite Hlabel. simpl.
  rewrite findNeoForgePromotedVersion_fold, Hsplit.
  apply overwrite_loop_finds.
  - unfold eligible. by rewrite Hstart, Hbeta.
  - eapply Forall_impl; [exact Hpost|]. intros x [Hx | Hx]; unfold eligible; rewrite Hx; simpl.
    + done.
    + by rewrite andb_false_r.
Qed.

Lemma neoforge_recommended_prefers_stable_witness :
  JS.toLowerCase "Recommended" = "recommended" ∧
  versions Samples.neoIndex = ["20.1.10"; "20.1.50-beta"; "20.2.3"] ++ "20.1.60" :: ["20.1.70-beta"] ∧
  JS.startsWith "20.1.60" (workingVersionOf Samples.mc1201) = true ∧
  JS.endsWith "20.1.60" "-beta" = false ∧
  Forall (λ x, JS.startsWith x (workingVersionOf Samples.mc1201) = false
               ∨ JS.endsWith x "-beta" = true) ["20.1.70-beta"] ∧
  getPromotedNeoForgeVersion Samples.neoIndex Samples.mc1201 "Recommended" [] = (Return "20.1.60", []).
Proof.
  repeat (split; [first [reflexivity | by repeat constructor]|]).
  apply (neoforge_recommended_prefers_stable Samples.neoIndex Samples.mc1201 "Recommended" []
           ["20.1.10"; "20.1.50-beta"; "20.2.3"] "20.1.60" ["20.1.70-beta"]);
    first [reflexivity | by repeat constructor].
Defined.

Lemma find_first {A} (P : A → bool) (pre : list A) (e : A) (post : list A) :
  Forall (λ x, P x = false) pre → P e = true → List.find P (pre ++ e :: post) = Some e.
Proof.
  intros Hpre He. induction Hpre as [|x pre Hx _ IH]; simpl; [by rewrite He | by rewrite Hx].
Qed.

(** X8. [getPromotedFabricVersion] returns, for "recommended", the version of
    the first loader flagged stable, passing over the unstable ones before
    it; for any other label it returns the version of the first loader of the
    list, stable or not. Nothing is logged. *)
Theorem fabric_selects_first
    (meta pre : list FabricLoaderMeta) (e : FabricLoaderMeta) (post : list FabricLoaderMeta)
    (promotion : string) (logs : Logs) :
  meta = pre ++ e :: post →
  Forall (λ x, fabricStable x = false) pre →
  fabricStable e = true →
  getPromotedFabricVersion meta promotion logs =
    (Return (if String.eqb (JS.toLowerCase promotion) "recommended"
             then fabricVersion e
             else fabricVersion (List.hd e pre)), logs).
Proof.
  intros -> Hpre He. unfold getPromotedFabricVersion.
  destruct (String.eqb (JS.toLowerCase promotion) "recommended"); simpl.
  - by rewrite (find_first fabricStable pre e post Hpre He).
  - by destruct pre.
Qed.

Lemma fabric_selects_first_witness :
  Samples.fabricMixed =
    [mkFabricLoaderMeta "0.16.0-beta" false] ++ mkFabricLoaderMeta "0.15.11" true ::
    [mkFabricLoaderMeta "0.15.10" true] ∧
  Forall (λ x, fabricStable x = false) [mkFabricLoaderMeta "0.16.0-beta" false] ∧
  fabricStable (mkFabricLoaderMeta "0.15.11" true) = true ∧
  getPromotedFabricVersion Samples.fabricMixed "RECOMMENDED" [] = (Return "0.15.11", []) ∧
  getPromotedFabricVersion Samples.fabricMixed "latest" [] = (Return "0.16.0-beta", []).
Proof.
  split; [reflexivity|]. split; [by repeat constructor|]. split; [reflexivity|].
  split.
  - apply (fabric_selects_first Samples.fabricMixed [mkFabricLoaderMeta "0.16.0-beta" false]
             (mkFabricLoaderMeta "0.15.11" true) [mkFabricLoaderMeta "0.15.10" true]
             "RECOMMENDED" []); first [reflexivity | by repeat constructor].
  - apply (fabric_selects_first Samples.fabricMixed [mkFabricLoaderMeta "0.16.0-beta" false]
             (mkFabricLoaderMeta "0.15.11" true) [mkFabricLoaderMeta "0.15.10" true]
             "latest" []); first [reflexivity | by repeat constructor].
Defined.

End PromotionMoreFacts.

(* ===================================================================== *)
(** * Further properties of NeoForgeResolver: substitution and assembly *)
(* ===================================================================== *)

Module PipelineFacts.
Import NeoForgeResolver AssemblyFacts InstallerFacts TreeFacts.

(** The two ways in which the flag has no value after it. *)
Lemma getNeoFormVersion_missing (args : list string) :
  "--fml.neoFormVersion" ∉ args ∨
  (∃ pre, args = pre ++ ["--fml.neoFormVersion"] ∧ "--fml.neoFormVersion" ∉ pre) →
  getNeoFormVersion args = None.
Proof.
  induction args as [|arg rest IH]; simpl; [done|].
  destruct (String.eqb_spec arg "--fml.neoFormVersion") as [->|Hne].
  - destruct rest as [|next rest']; simpl; [done|].
    intros [Hnot | (pre & Hsplit & Hpre)].
    + exfalso. apply Hnot. by left.
    + destruct pre as [|p pre]; [done|]. injection Hsplit as Hp _. subst p.
      exfalso. apply Hpre. by left.
  - intros [Hnot | (pre & Hsplit & Hpre)]; apply IH.
    + left. by apply not_elem_of_cons in Hnot as [_ ?].
    + destruct pre as [|p pre]; [injection Hsplit as Harg _; congruence|].
      injection Hsplit as Hp Hrest. subst p rest. right. exists pre. split; [done|].
      by apply not_elem_of_cons in Hpre as [_ ?].
Qed.

(** X9. [getNeoFormVersion] finds nothing in exactly two cases: the flag
    [--fml.neoFormVersion] does not occur in the arguments, or its first
    occurrence is their last element, so that the read past the end gives
    [undefined]. *)
Theorem getNeoFormVersion_None_iff (args : list string) :
  getNeoFormVersion args = None ↔
  "--fml.neoFormVersion" ∉ args ∨
  ∃ pre, args = pre ++ ["--fml.neoFormVersion"] ∧ "--fml.neoFormVersion" ∉ pre.
Proof.
  split; [|apply getNeoFormVersion_missing].
  induction args as [|arg rest IH]; simpl.
  - intros _. left. apply not_elem_of_nil.
  - destruct (String.eqb_spec arg "--fml.neoFormVersion") as [->|Hne].
    + destruct rest as [|next rest']; simpl; [|done].
      intros _. right. exists []. split; [done | apply not_elem_of_nil].
    + intros Hnone. destruct (IH Hnone) as [Hnot | (pre & -> & Hpre)].
      * left. by apply not_elem_of_cons.
      * right. exists (arg :: pre). split; [done | by apply not_elem_of_cons].
Qed.

(** X10. Format drift is fatal and changes nothing: with the wildcard in use
    and a manifest whose arguments lack the flag, or end with it,
    [substituteWildcards] throws the "NeoForm Version not found" error and
    leaves the state, the generated-file specs included, as it was. *)
Theorem substituteWildcards_format_drift
    (versionManifest : VersionManifestNeoForge) (s : State) (wildcards : list string) :
  wildcardsInUse s = Some wildcards →
  WILDCARD_NEOFORM_VERSION ∈ wildcards →
  ("--fml.neoFormVersion" ∉ arguments_game versionManifest ∨
   ∃ pre, arguments_game versionManifest = pre ++ ["--fml.neoFormVersion"] ∧
          "--fml.neoFormVersion" ∉ pre) →
  substituteWildcards versionManifest s =
    (Throw (JsError "NeoForm Version not found.. did NeoForge change their format?"), s).
Proof.
  intros Hwild Hin Hargs. apply getNeoFormVersion_missing in Hargs.
  unfold substituteWildcards. rewrite bind_run. unfold gets at 1. rewrite Hwild.
  by rewrite (bool_decide_eq_true_2 _ Hin), Hargs.
Qed.

Lemma substituteWildcards_format_drift_witness :
  wildcardsInUse (ResolverSamples.oneSpecState "1.20.1-${formVersion}")
    = Some [WILDCARD_NEOFORM_VERSION] ∧
  WILDCARD_NEOFORM_VERSION ∈ [WILDCARD_NEOFORM_VERSION] ∧
  (("--fml.neoFormVersion" ∉
      arguments_game (ResolverSamples.manifestWithArguments ["--launchTarget"; "--fml.neoFormVersion"])) ∨
   ∃ pre, arguments_game (ResolverSamples.manifestWithArguments
                            ["--launchTarget"; "--fml.neoFormVersion"])
            = pre ++ ["--fml.neoFormVersion"] ∧ "--fml.neoFormVersion" ∉ pre) ∧
  substituteWildcards
    (ResolverSamples.manifestWithArguments ["--launchTarget"; "--fml.neoFormVersion"])
    (ResolverSamples.oneSpecState "1.20.1-${formVersion}") =
    (Throw (JsError "NeoForm Version not found.. did NeoForge change their format?"),
     ResolverSamples.oneSpecState "1.20.1-${formVersion}").
Proof.
  assert (Hlast : ∃ pre, arguments_game (ResolverSamples.manifestWithArguments
                                           ["--launchTarget"; "--fml.neoFormVersion"])
                    = pre ++ ["--fml.neoFormVersion"] ∧ "--fml.neoFormVersion" ∉ pre).
  { exists ["--launchTarget"]. split; [reflexivity | by apply (bool_decide_unpack _)]. }
  split; [reflexivity|]. split; [by apply (bool_decide_unpack _)|]. split; [by right|].
  apply (substituteWildcards_format_drift _ _ [WILDCARD_NEOFORM_VERSION]);
    [reflexivity | by apply (bool_decide_unpack _) | by right].
Defined.

(** X11. When the wildcard is not in use (no list of wildcards, or a list
    without [${formVersion}]), [substituteWildcards] does nothing at all: the
    manifest is not even searched for the flag, so its absence is no error. *)
Theorem substituteWildcards_not_in_use
    (versionManifest : VersionManifestNeoForge) (s : State) :
  (∀ wildcards, wildcardsInUse s = Some wildcards → WILDCARD_NEOFORM_VERSION ∉ wildcards) →
  substituteWildcards versionManifest s = (Return tt, s).
Proof.
  intros Hnot. unfold substituteWildcards. rewrite bind_run. unfold gets at 1.
  destruct (wildcardsInUse s) as [wildcards|] eqn:Hwild; [|done].
  by rewrite (bool_decide_eq_false_2 _ (Hnot wildcards eq_refl)).
Qed.

Lemma substituteWildcards_not_in_use_witness :
  (∀ wildcards, wildcardsInUse (ResolverSamples.emptyState ∅) = Some wildcards →
                WILDCARD_NEOFORM_VERSION ∉ wildcards) ∧
  substituteWildcards (ResolverSamples.manifestWithArguments []) (ResolverSamples.emptyState ∅)
    = (Return tt, ResolverSamples.emptyState ∅).
Proof.
  assert (Hnone : ∀ wildcards, wildcardsInUse (ResolverSamples.emptyState ∅) = Some wildcards →
                               WILDCARD_NEOFORM_VERSION ∉ wildcards) by (intros ? Hw; discriminate).
  split; [exact Hnone|].
  exact (substituteWildcards_not_in_use (ResolverSamples.manifestWithArguments [])
           (ResolverSamples.emptyState ∅) Hnone).
Defined.

Lemma mkdirs_fold_None (l : list string) :
  fold_left
    (λ (acc : option (gmap string Node)) d,
       match acc with
       | None => None
       | Some f =>
           match f !! d with
           | None => Some (<[d := Dir]> f)
           | Some Dir => Some f
           | Some (File _) => None
           end
       end) l None = None.
Proof. induction l as [|d l IH]; simpl; done. Qed.

(** Creating directories keeps what is on disk. *)
Lemma mkdirsFs_preserves p (f f' : gmap string Node) q node :
  mkdirsFs p f = Some f' → f !! q = Some node → f' !! q = Some node.
Proof.
  unfold mkdirsFs. generalize (ancestors p). intros l. revert f.
  induction l as [|d l IH]; intros f; simpl.
  - by intros [= <-].
  - destruct (f !! d) as [[content|]|] eqn:Hd.
    + by rewrite mkdirs_fold_None.
    + apply IH.
    + intros Hfold Hq. apply (IH _ Hfold). rewrite lookup_insert_ne; [done|]. congruence.
Qed.

Section WithCollaborators.
Context `{Collaborators}.

(** X12. Tolerable absence: for a spec marked [skipIfNotPresent], when none
    of its classifier variants is on disk, the turn of the loop returns the
    module list as it was, after probing every variant in order; the disk is
    not touched and nothing is raised. *)
Theorem tolerant_absence_skips
    (self : Resolver) (libDir : string) (entry : GeneratedFile.t) (mdls : list Module) (s : State) :
  GeneratedFile.skipIfNotPresent entry = Some true →
  Forall (λ k, fs s !! targetLocalPathOf libDir entry k = None) (GeneratedFile.classifiers entry) →
  processGeneratedFile self libDir entry mdls s =
    (Return mdls,
     addTrace (List.map EvPathExists
                 (List.map (targetLocalPathOf libDir entry) (GeneratedFile.classifiers entry))) s).
Proof.
  intros Htolerant Hmissing. unfold processGeneratedFile. rewrite bind_run.
  rewrite classifierLoop_none_located by done. simpl. rewrite Htolerant. simpl.
  unfold ret. by rewrite map_map.
Qed.

(** X13. An accepted variant is copied into the artifact repository: when the
    first variant on disk is a regular file, its destination is another path
    and not a directory, and the directory of the destination can be
    created, the turn of the loop succeeds, the destination then holds the
    bytes that were read, the file in the installer output is still there,
    and the artifact of the module pushed is computed from those bytes and
    their length. *)
Theorem accepted_variant_copied
    (self : Resolver) (libDir : string) (entry : GeneratedFile.t) (mdls : list Module)
    (s : State) (pre : list (option string)) (c : option string) (post : list (option string))
    (content : string) (disk : gmap string Node) :
  let destination :=
    getArtifactByComponents (GeneratedFile.group entry) (GeneratedFile.artifact entry)
      (GeneratedFile.version entry) c None in
  GeneratedFile.classifiers entry = pre ++ c :: post →
  Forall (λ k, fs s !! targetLocalPathOf libDir entry k = None) pre →
  fs s !! targetLocalPathOf libDir entry c = Some (File content) →
  targetLocalPathOf libDir entry c ≠ destination →
  fs s !! destination ≠ Some Dir →
  mkdirsFs (dirname destination) (fs s) = Some disk →
  ∃ m s',
    processGeneratedFile self libDir entry mdls s = (Return (mdls ++ [m]), s') ∧
    artifact m =
      generateArtifact content (mkStats (N.of_nat (String.length content)))
        (getArtifactUrlByComponents (baseUrl self) (GeneratedFile.group entry)
           (GeneratedFile.artifact entry) (GeneratedFile.version entry) c None) ∧
    fs s' !! destination = Some (File content) ∧
    fs s' !! targetLocalPathOf libDir entry c = Some (File content).
Proof.
  intros destination Hclassifiers Hmissing Hfile Hne Hdir Hmk.
  unfold processGeneratedFile. rewrite bind_run, Hclassifiers.
  rewrite classifierLoop_skip_missing by done.
  rewrite (classifierLoop_hit _ _ _ _ _ _ _ _ (File content)) by (by rewrite fs_addTrace).
  fold destination.
  rewrite fs_addTrace, (copyFile_done _ _ content _ disk Hne Hdir Hmk). simpl.
  rewrite andb_false_r.
  eexists _, _. split; [reflexivity|]. split; [reflexivity|]. simpl. split.
  - apply lookup_insert_eq.
  - rewrite lookup_insert_ne by done. by eapply mkdirsFs_preserves.
Qed.

(** X24. A variant that cannot be copied stops the run with nothing written:
    when the first variant on disk is a regular file and its destination is
    an existing directory, or is that very file, the turn of the loop throws
    the refusal of [copy], after the file has been read, and the disk is as
    it was. *)
Theorem refused_copy_is_fatal
    (self : Resolver) (libDir : string) (entry : GeneratedFile.t) (mdls : list Module)
    (s : State) (pre : list (option string)) (c : option string) (post : list (option string))
    (content : string) :
  let source := targetLocalPathOf libDir entry c in
  let destination :=
    getArtifactByComponents (GeneratedFile.group entry) (GeneratedFile.artifact entry)
      (GeneratedFile.version entry) c None in
  GeneratedFile.classifiers entry = pre ++ c :: post →
  Forall (λ k, fs s !! targetLocalPathOf libDir entry k = None) pre →
  fs s !! source = Some (File content) →
  source = destination ∨ fs s !! destination = Some Dir →
  ∃ s',
    processGeneratedFile self libDir entry mdls s =
      (Throw (IOError (if String.eqb source destination
                       then "Source and destination must not be the same."
                       else "Cannot overwrite directory '" +:+ destination +:+
                            "' with non-directory '" +:+ source +:+ "'.")), s') ∧
    fs s' = fs s ∧
    trace s' = trace s ++
      List.map (λ k, EvPathExists (targetLocalPathOf libDir entry k)) pre ++
      [EvPathExists source; EvRead source; EvLstat source; EvCopy source destination].
Proof.
  intros source destination Hclassifiers Hmissing Hfile Hrefused.
  unfold processGeneratedFile. rewrite bind_run, Hclassifiers.
  rewrite classifierLoop_skip_missing by done.
  rewrite (classifierLoop_hit _ _ _ _ _ _ _ _ (File content)) by (by rewrite fs_addTrace).
  fold source. fold destination. rewrite fs_addTrace, addTrace_addTrace.
  unfold copyFile.
  destruct (String.eqb_spec source destination) as [Heq|Hne].
  - eexists. split; [reflexivity|]. by split.
  - destruct Hrefused as [Heq|Hdir]; [done|]. rewrite Hdir.
    eexists. split; [reflexivity|]. by split.
Qed.

(** *** Libraries *)

Lemma librariesLoop_app self libDir before after mdls s :
  librariesLoop self libDir (before ++ after) mdls s =
  bind (librariesLoop self libDir before mdls)
       (λ mdls', librariesLoop self libDir after mdls') s.
Proof.
  revert mdls s. induction before as [|entry before IH]; intros mdls s; simpl; [done|].
  destruct (negb (String.eqb (ManifestLibrary.url (ManifestLibrary.downloads_artifact entry))
                    EmptyString)); [|apply IH].
  rewrite !bind_run. destruct (pathExists _ s) as [[present|e] s1]; [|done].
  destruct (negb present); [done|].
  rewrite !bind_run. destruct (readFile _ s1) as [[content|e] s2]; [|done].
  rewrite !bind_run. destruct (lstat _ s2) as [[stats|e] s3]; [|done].
  rewrite !bind_run. destruct (copy _ _ s3) as [[[]|e] s4]; [|done].
  by rewrite IH, bind_run.
Qed.

(** X14. Manifest libraries without a download URL are skipped without a
    look at the disk: a list made of such entries leaves the module list and
    the state exactly as they were. *)
Theorem libraries_without_url_skipped
    (self : Resolver) (libDir : string) (entries : list ManifestLibrary.t)
    (mdls : list Module) (s : State) :
  Forall (λ entry, ManifestLibrary.url (ManifestLibrary.downloads_artifact entry) = EmptyString)
         entries →
  librariesLoop self libDir entries mdls s = (Return mdls, s).
Proof.
  intros Hnone. induction Hnone as [|entry entries Hentry _ IH]; simpl; [done|].
  by rewrite Hentry.
Qed.

(** X15. A manifest library that declares a download URL and is not on disk
    is fatal: once the libraries before it have been processed, the loop
    throws "Expected library <name> not found!", having probed that one path,
    and the libraries after it are not looked at. *)
Theorem missing_library_is_fatal
    (self : Resolver) (libDir : string) (entry : ManifestLibrary.t) (mdls : list Module) (s : State) :
  ManifestLibrary.url (ManifestLibrary.downloads_artifact entry) ≠ EmptyString →
  fs s !! pathJoin [libDir; ManifestLibrary.path (ManifestLibrary.downloads_artifact entry)] = None →
  ∀ before after mdls0 s0,
    librariesLoop self libDir before mdls0 s0 = (Return mdls, s) →
    librariesLoop self libDir (before ++ entry :: after) mdls0 s0 =
      (Throw (JsError ("Expected library " +:+ ManifestLibrary.name entry +:+ " not found!")),
       addTrace [EvPathExists
                   (pathJoin [libDir;
                              ManifestLibrary.path (ManifestLibrary.downloads_artifact entry)])] s).
Proof.
  intros Hurl Hmissing before after mdls0 s0 Hbefore.
  rewrite librariesLoop_app, bind_run, Hbefore. simpl.
  apply String.eqb_neq in Hurl. rewrite Hurl. simpl.
  by rewrite bind_run, pathExists_run, Hmissing.
Qed.

(** *** The version manifest *)

(** X16. Reading the version manifest. When the manifest path holds a regular
    file, [processVersionManifest] ends in one of six ways, in this order of
    precedence. The text does not parse: [SyntaxError]. The URL of the
    manifest cannot be resolved against the base URL: [TypeError]. The
    destination in the version repository is the manifest path itself, or is
    an existing directory, or its directory cannot be created: the error of
    [copy]. In these five cases the disk is as before. Otherwise the result
    is the parsed manifest with a module of type [VersionManifest] whose id
    is the loader version and whose artifact is computed from the text read
    and the resolved URL, and the version repository then holds that text at
    [<container>/neoforge-<version>/neoforge-<version>.json]. *)
Theorem processVersionManifest_outcome
    (self : Resolver) (installerOutDir : string) (s : State) (raw : string) :
  fs s !! getVersionManifestPath self installerOutDir = Some (File raw) →
  let manifestPath := getVersionManifestPath self installerOutDir in
  let manifestName := getVersionManifestName self in
  let destination :=
    pathJoin [versionRepoContainerDirectory; manifestName; manifestName +:+ ".json"] in
  ∃ r s',
    processVersionManifest self installerOutDir s = (r, s') ∧
    match parseManifest raw with
    | None => r = Throw (SyntaxError "JSON.parse") ∧ fs s' = fs s
    | Some manifest =>
        match resolveUrl (pathJoin [versionRepoRelativeRoot; manifestName;
                                    manifestName +:+ ".json"]) (baseUrl self) with
        | None => r = Throw (TypeError "Invalid URL") ∧ fs s' = fs s
        | Some url =>
            if String.eqb manifestPath destination then
              r = Throw (IOError "Source and destination must not be the same.") ∧
              fs s' = fs s
            else
              match fs s !! destination with
              | Some Dir =>
                  r = Throw (IOError ("Cannot overwrite directory '" +:+ destination +:+
                                      "' with non-directory '" +:+ manifestPath +:+ "'.")) ∧
                  fs s' = fs s
              | _ =>
                  match mkdirsFs (dirname destination) (fs s) with
                  | None =>
                      r = Throw (IOError ("ENOTDIR: " +:+ dirname destination)) ∧ fs s' = fs s
                  | Some disk =>
                      r = Return
                            (manifest,
                             mkModule (neoforgeVersion self) "Minecraft NeoForge (version.json)"
                               VersionManifest None
                               (generateArtifact raw (mkStats (N.of_nat (String.length raw))) url)
                               None) ∧
                      fs s' = <[destination := File raw]> disk
                  end
              end
        end
    end.
Proof.
  intros Hfile manifestPath manifestName destination.
  unfold processVersionManifest. fold manifestName. fold destination. fold manifestPath.
  change (fs s !! manifestPath = Some (File raw)) in Hfile.
  rewrite bind_run, readFile_run, Hfile.
  destruct (parseManifest raw) as [manifest|]; [|by eexists _, _].
  rewrite bind_run, lstat_run, fs_addTrace, Hfile.
  destruct (resolveUrl _ _) as [url|]; [|by eexists _, _].
  rewrite bind_run, (copy_run_file _ _ raw) by (by rewrite !fs_addTrace).
  rewrite !fs_addTrace. unfold copyFile.
  destruct (String.eqb manifestPath destination); [by eexists _, _|].
  destruct (fs s !! destination) as [[other|]|]; try (by eexists _, _).
  all: destruct (mkdirsFs (dirname destination) (fs s)) as [disk|]; by eexists _, _.
Qed.

End WithCollaborators.
End PipelineFacts.

(* ===================================================================== *)
(** * Further properties of NeoForgeResolver: the cache and the installer *)
(* ===================================================================== *)

Module CacheFacts.
Import NeoForgeResolver AssemblyFacts InstallerFacts TreeFacts.

Lemma spawnsOf_app a b : spawnsOf (a ++ b) = spawnsOf a ++ spawnsOf b.
Proof. unfold spawnsOf. apply List.filter_app. Qed.

(** *** Computations that start no process *)

Lemma spawnFree_ret {A} (a : A) : spawnFree (ret a).
Proof. by intros s r s' [= <- <-]. Qed.

Lemma spawnFree_throw {A} e : spawnFree (@throw State A e).
Proof. by intros s r s' [= <- <-]. Qed.

Lemma spawnFree_bind {A B} (m : M State A) (k : A → M State B) :
  spawnFree m → (∀ a, spawnFree (k a)) → spawnFree (bind m k).
Proof.
  intros Hm Hk s r s'. rewrite bind_run. destruct (m s) as [[a|e] s1] eqn:Hms.
  - intros Hka. rewrite (Hk a _ _ _ Hka). by apply (Hm _ _ _ Hms).
  - intros [= <- <-]. by apply (Hm _ _ _ Hms).
Qed.

Lemma spawnFree_emit e :
  match e with EvSpawn _ _ _ => False | _ => True end → spawnFree (emit e).
Proof.
  intros He s r s' [= <- <-]. simpl. rewrite spawnsOf_app.
  destruct e; try done; simpl; by rewrite app_nil_r.
Qed.

Lemma spawnFree_log who lvl msg : spawnFree (log who lvl msg).
Proof. by intros s r s' [= <- <-]. Qed.

Lemma spawnFree_gets {A} (f : State → A) : spawnFree (gets f).
Proof. by intros s r s' [= <- <-]. Qed.

Lemma spawnFree_setFs f : spawnFree (modify (setFs f)).
Proof. by intros s r s' [= <- <-]. Qed.

Lemma spawnFree_setGeneratedFiles g : spawnFree (setGeneratedFiles g).
Proof. by intros s r s' [= <- <-]. Qed.

Create HintDb spawn discriminated.
#[export] Hint Resolve spawnFree_ret spawnFree_throw spawnFree_log spawnFree_gets
  spawnFree_setFs spawnFree_setGeneratedFiles : spawn.
#[export] Hint Extern 1 (spawnFree (emit _)) => (apply spawnFree_emit; exact I) : spawn.

Ltac spawn_step :=
  first [ solve [auto with spawn]
        | apply spawnFree_bind; [|intros ?]
        | match goal with |- spawnFree (match ?x with _ => _ end) => destruct x end
        | match goal with |- spawnFree (if ?x then _ else _) => destruct x end ].

Lemma spawnFree_pathExists p : spawnFree (pathExists p).
Proof. unfold pathExists. repeat spawn_step. Qed.

Lemma spawnFree_readFile p : spawnFree (readFile p).
Proof. unfold readFile. repeat spawn_step. Qed.

Lemma spawnFree_lstat p : spawnFree (lstat p).
Proof. unfold lstat. repeat spawn_step. Qed.

Lemma spawnFree_remove p : spawnFree (remove p).
Proof. unfold remove. repeat spawn_step. Qed.

Lemma spawnFree_mkdirsQuiet p : spawnFree (mkdirsQuiet p).
Proof. unfold mkdirsQuiet. repeat spawn_step. Qed.

Lemma spawnFree_mkdirs p : spawnFree (mkdirs p).
Proof. unfold mkdirs. pose proof spawnFree_mkdirsQuiet. repeat spawn_step. Qed.

Lemma spawnFree_writeFile p content : spawnFree (writeFile p content).
Proof. unfold writeFile. repeat spawn_step. Qed.

Lemma spawnFree_copy `{Collaborators} src dst : spawnFree (copy src dst).
Proof. unfold copy. pose proof spawnFree_mkdirsQuiet. repeat spawn_step. Qed.

#[export] Hint Resolve spawnFree_pathExists spawnFree_readFile spawnFree_lstat
  spawnFree_remove spawnFree_mkdirs spawnFree_writeFile spawnFree_copy : spawn.

(** *** At most one process *)

Lemma spawnsAtMost_free ev {A} (m : M State A) : spawnFree m → spawnsAtMost ev m.
Proof. intros Hm s r s' Hrun. left. by eapply Hm. Qed.

Lemma spawnsAtMost_after ev {A B} (m : M State A) (k : A → M State B) :
  spawnFree m → (∀ a, spawnsAtMost ev (k a)) → spawnsAtMost ev (bind m k).
Proof.
  intros Hm Hk s r s'. rewrite bind_run. destruct (m s) as [[a|e] s1] eqn:Hms.
  - intros Hka. rewrite <- (Hm _ _ _ Hms). by eapply Hk.
  - intros [= <- <-]. left. by eapply Hm.
Qed.

Lemma spawnsAtMost_before ev {A B} (m : M State A) (k : A → M State B) :
  spawnsAtMost ev m → (∀ a, spawnFree (k a)) → spawnsAtMost ev (bind m k).
Proof.
  intros Hm Hk s r s'. rewrite bind_run. destruct (m s) as [[a|e] s1] eqn:Hms.
  - intros Hka. rewrite (Hk a _ _ _ Hka). by eapply Hm.
  - intros [= <- <-]. by eapply Hm.
Qed.

Section WithCollaborators.
Context `{Collaborators}.

Lemma spawnFree_verifyInstallerRan self dir : spawnFree (verifyInstallerRan self dir).
Proof. unfold verifyInstallerRan. repeat spawn_step. Qed.

Lemma spawnFree_processVersionManifest self dir : spawnFree (processVersionManifest self dir).
Proof. unfold processVersionManifest. repeat spawn_step. Qed.

Lemma spawnFree_substituteWildcards versionManifest :
  spawnFree (substituteWildcards versionManifest).
Proof. unfold substituteWildcards. repeat spawn_step. Qed.

Lemma spawnFree_classifierLoop self libDir entry remaining targetLocations mdls :
  spawnFree (classifierLoop self libDir entry remaining targetLocations mdls).
Proof.
  revert targetLocations. induction remaining as [|c rest IH]; intros targetLocations; simpl.
  - auto with spawn.
  - repeat spawn_step; apply IH.
Qed.

Lemma spawnFree_generatedFilesLoop self libDir entries mdls :
  spawnFree (generatedFilesLoop self libDir entries mdls).
Proof.
  revert mdls. induction entries as [|entry rest IH]; intros mdls; simpl.
  - auto with spawn.
  - apply spawnFree_bind; [|intros ?; apply IH].
    unfold processGeneratedFile. pose proof spawnFree_classifierLoop. repeat spawn_step.
Qed.

Lemma spawnFree_processNeoForgeModule self versionManifest dir :
  spawnFree (processNeoForgeModule self versionManifest dir).
Proof.
  unfold processNeoForgeModule.
  pose proof spawnFree_substituteWildcards. pose proof spawnFree_generatedFilesLoop.
  repeat spawn_step.
Qed.

Lemma spawnFree_librariesLoop self libDir entries mdls :
  spawnFree (librariesLoop self libDir entries mdls).
Proof.
  revert mdls. induction entries as [|entry rest IH]; intros mdls; simpl.
  - auto with spawn.
  - repeat spawn_step; apply IH.
Qed.

(** [runInstaller] starts the installer, once. *)
Lemma runInstaller_spawns installerPath outputDir s :
  spawnsOf (trace (runInstaller installerPath outputDir s).2) =
  spawnsOf (trace s) ++
  [EvSpawn getJavaExecutable ["-jar"; installerPath; "--installClient"; outputDir]
     (dirname installerPath)].
Proof.
  unfold runInstaller. rewrite bind_run. unfold emit at 1, modify at 1.
  rewrite bind_run. unfold gets at 1. rewrite fs_addTrace.
  rewrite bind_run. unfold modify at 1.
  rewrite bind_run, forEach_log.
  destruct (installerProcess _ _ _ (fs s)) as [[disk output] code]. cbn [fst snd].
  destruct code as [[|p|p]|]; rewrite log_run; simpl; by rewrite spawnsOf_app.
Qed.

#[local] Hint Resolve spawnFree_verifyInstallerRan spawnFree_processVersionManifest
  spawnFree_processNeoForgeModule spawnFree_librariesLoop : spawn.

(** X17. The installer is started at most once per run, and when it is, the
    command is [java -jar <cache>/<installer file name> --installClient
    <cache>], run from the directory of that copy: the copy of the installer
    inside the cache is the one that runs. *)
Theorem installer_spawned_at_most_once
    (self : Resolver) (installerPath : string) (s : State) (r : Outcome Module) (s' : State) :
  processWithInstaller self installerPath s = (r, s') →
  let cacheDir := getNeoForgeCacheDirectory (neoforgeVersion self) in
  let installer := pathJoin [cacheDir; basename installerPath] in
  spawnsOf (trace s') = spawnsOf (trace s) ∨
  spawnsOf (trace s') =
    spawnsOf (trace s) ++
    [EvSpawn getJavaExecutable ["-jar"; installer; "--installClient"; cacheDir]
       (dirname installer)].
Proof.
  intros Hrun cacheDir installer. revert s r s' Hrun.
  change (spawnsAtMost
            (EvSpawn getJavaExecutable ["-jar"; installer; "--installClient"; cacheDir]
               (dirname installer))
            (processWithInstaller self installerPath)).
  unfold processWithInstaller. fold cacheDir. fold installer.
  apply spawnsAtMost_after; [auto with spawn | intros cached].
  apply spawnsAtMost_after; [repeat spawn_step | intros installLoader].
  apply spawnsAtMost_before.
  - destruct installLoader; [|apply spawnsAtMost_free; auto with spawn].
    apply spawnsAtMost_after; [auto with spawn | intros _].
    apply spawnsAtMost_after; [auto with spawn | intros _].
    apply spawnsAtMost_after; [auto with spawn | intros _].
    apply spawnsAtMost_before; [|intros _; auto with spawn].
    intros st r st' Hrun. right.
    assert (Hst : st' = (runInstaller installer cacheDir st).2) by (by rewrite Hrun).
    rewrite Hst. apply runInstaller_spawns.
  - intros _. unfold processLibraries. repeat spawn_step.
Qed.

(** X18. A cache hit never starts the installer: when the cache directory
    exists and invalidation was not requested, the run, whatever its outcome,
    starts no process. *)
Theorem cache_hit_skips_installer
    (self : Resolver) (installerPath : string) (s : State) (r : Outcome Module) (s' : State) :
  is_Some (fs s !! getNeoForgeCacheDirectory (neoforgeVersion self)) →
  invalidateCache self = false →
  processWithInstaller self installerPath s = (r, s') →
  spawnsOf (trace s') = spawnsOf (trace s).
Proof.
  intros Hcached Hkeep Hrun. unfold processWithInstaller in Hrun.
  rewrite bind_run, pathExists_run, (bool_decide_eq_true_2 _ Hcached), Hkeep in Hrun.
  rewrite bind_run, bind_run, log_run in Hrun. cbn [ret] in Hrun.
  rewrite bind_run in Hrun. cbn [ret] in Hrun.
  match type of Hrun with
  | ?m ?st = _ =>
      assert (Hfree : spawnFree m) by (unfold processLibraries; repeat spawn_step);
      rewrite (Hfree _ _ _ Hrun)
  end.
  simpl. rewrite spawnsOf_app. simpl. by rewrite app_nil_r.
Qed.

(** X19. With [discardOutput] set, a successful run leaves nothing at or
    below the cache directory: the installer output is removed once the
    modules have been assembled. *)
Theorem discardOutput_removes_cache
    (self : Resolver) (installerPath : string) (s : State) (root : Module) (s' : State) :
  discardOutput self = true →
  processWithInstaller self installerPath s = (Return root, s') →
  ∀ p, within (getNeoForgeCacheDirectory (neoforgeVersion self)) p = true → fs s' !! p = None.
Proof.
  unfold processWithInstaller. intros Hdiscard Hrun p Hp.
  apply bind_Return_inv in Hrun as (cached & s1 & _ & Hrun).
  apply bind_Return_inv in Hrun as (installLoader & s2 & _ & Hrun).
  apply bind_Return_inv in Hrun as ([] & s3 & _ & Hrun).
  apply bind_Return_inv in Hrun as ([] & s4 & _ & Hrun).
  apply bind_Return_inv in Hrun as ([] & s5 & _ & Hrun).
  apply bind_Return_inv in Hrun as (tuple & s6 & _ & Hrun).
  apply bind_Return_inv in Hrun as ([] & s7 & _ & Hrun).
  apply bind_Return_inv in Hrun as (forgeModule & s8 & _ & Hrun).
  apply bind_Return_inv in Hrun as ([] & s9 & _ & Hrun).
  apply bind_Return_inv in Hrun as (libs & s10 & _ & Hrun).
  apply bind_Return_inv in Hrun as ([] & s11 & Hclean & Hrun).
  injection Hrun as _ <-. rewrite Hdiscard in Hclean.
  apply bind_Return_inv in Hclean as ([] & sa & _ & Hclean).
  apply bind_Return_inv in Hclean as ([] & sb & Hremove & Hlog).
  rewrite log_run in Hlog. injection Hlog as <-. simpl.
  assert (Hsb : sb = (remove (getNeoForgeCacheDirectory (neoforgeVersion self)) sa).2)
    by (by rewrite Hremove).
  rewrite Hsb. by apply remove_lookup_within.
Qed.

End WithCollaborators.
End CacheFacts.

(* ===================================================================== *)
(** * Further properties of NeoForgeModStructure *)
(* ===================================================================== *)

Module MetadataFacts.
Import NeoForgeModStructure.

Section WithCollaborators.
Context `{Collaborators}.

(** [processEntry] computes [resolvedEntry] and only adds log lines. *)
Lemma processEntry_resolved zip name claritasId crudeInference entry s :
  ∃ s',
    processEntry zip name claritasId crudeInference entry s =
      (Return (resolvedEntry zip claritasId crudeInference entry), s') ∧
    modMetadata s' = modMetadata s ∧
    claritasResult s' = claritasResult s ∧
    ∃ more, modLogs s' = modLogs s ++ more.
Proof.
  destruct entry as [i v d descr]. unfold processEntry, resolvedEntry.
  cbn [modId version displayName description].
  destruct (String.eqb i EXAMPLE_MOD_ID); cbn [modId version displayName description];
    destruct (String.eqb v JAR_VERSION_WILDCARD).
  all: unfold inferVersion, tryCatch, bind, entryDataSync, logDebug, modify, ret, throw;
    try destruct (zip !! "META-INF/MANIFEST.MF"); simpl.
  all: eexists; (split; [reflexivity|]); simpl; repeat split; try done.
  all: first [ by eexists | by exists []; rewrite app_nil_r ].
Qed.

Lemma forEachEntry_resolved zip name claritasId crudeInference entries s :
  ∃ s',
    forEachEntry (processEntry zip name claritasId crudeInference) entries s =
      (Return (List.map (resolvedEntry zip claritasId crudeInference) entries), s') ∧
    modMetadata s' = modMetadata s ∧
    claritasResult s' = claritasResult s ∧
    ∃ more, modLogs s' = modLogs s ++ more.
Proof.
  revert s. induction entries as [|entry entries IH]; intros s; simpl.
  - exists s. repeat split. exists []. by rewrite app_nil_r.
  - destruct (processEntry_resolved zip name claritasId crudeInference entry s)
      as (s1 & Hrun1 & Hm1 & Hc1 & more1 & Hl1).
    destruct (IH s1) as (s2 & Hrun2 & Hm2 & Hc2 & more2 & Hl2).
    exists s2. unfold bind. rewrite Hrun1, Hrun2. simpl.
    split; [done|]. split; [congruence|]. split; [congruence|].
    exists (more1 ++ more2). by rewrite Hl2, Hl1, app_assoc.
Qed.

(** What [processZip] returns and stores, in every case: the metadata it works
    on is the parsed document when there is one, else what the cache holds
    under the name, else the synthesised record; a document without a [mods]
    array stops the run at the loop, after it has been cached. *)
Lemma processZip_result zip name path s :
  let claritasId := (claritasResult s ≫= λ results, results !! path) ≫= claritasIdOf in
  let crudeInference := attemptCrudeInference name in
  let resolved d entries :=
    mkModsToml (modLoader d) (loaderVersion d)
      (Some (List.map (resolvedEntry zip claritasId crudeInference) entries)) in
  ∃ s',
    processZip zip name path s =
      (match workingDocument zip name s with
       | Some d =>
           match mods d with
           | Some entries => Return (resolved d entries)
           | None => Throw (TypeError "x.mods is not iterable")
           end
       | None => Return (defaultMetadata claritasId crudeInference)
       end, s') ∧
    modMetadata s' =
      <[name := match workingDocument zip name s with
                | Some d =>
                    match mods d with
                    | Some entries => resolved d entries
                    | None => d
                    end
                | None => defaultMetadata claritasId crudeInference
                end]> (modMetadata s) ∧
    claritasResult s' = claritasResult s ∧
    ∃ more, modLogs s' = modLogs s ++ more.
Proof.
  intros claritasId crudeInference resolved. subst resolved claritasId crudeInference.
  unfold workingDocument.
  unfold processZip, tryCatch, bind, entryDataSync, setModMetadata, logErr, modify, gets.
  destruct (zip !! "META-INF/neoforge.mods.toml") as [raw|]; simpl;
    [destruct (tomlParse raw) as [parsed|]; simpl|].
  all: destruct (claritasResult s ≫= λ results, results !! path) as [c|]; simpl.
  all: try rewrite lookup_insert_eq.
  all: try (destruct (modMetadata s !! name) as [cached|] eqn:Hcached; simpl).
  all: try match goal with
       | |- context [match mods ?d with _ => _ end] => destruct (mods d) as [entries|]; simpl
       end.
  all: try match goal with
       | |- context [forEachEntry (processEntry _ _ ?cid ?crude) ?l ?st] =>
           destruct (forEachEntry_resolved zip name cid crude l st)
             as (s2 & Hrun & Hm & Hc & more & Hl); rewrite Hrun; simpl in *
       end.
  all: unfold ret, throw, defaultMetadata; eexists; (split; [reflexivity|]); simpl.
  all: try rewrite Hm; try rewrite Hc; try rewrite Hl; try rewrite insert_insert_eq.
  all: try (rewrite (insert_id _ _ _ Hcached)).
  all: repeat split; try done.
  all: try (rewrite <- ?app_assoc; by eexists).
  all: exists []; by rewrite app_nil_r.
Qed.

(** X20. Missing or malformed metadata is not fatal. When the archive has no
    [META-INF/neoforge.mods.toml], or one that does not parse, and nothing is
    cached under the name, [processZip] logs the condition at level [Error],
    then returns and caches a default record: loader [javafml], one mod whose
    id is discerned from the Claritas hint and the lower-cased filename-derived
    name, whose version is the filename-derived guess and whose display name is
    the filename-derived name. *)
Theorem processZip_default_record zip name path s :
  zip !! "META-INF/neoforge.mods.toml" ≫= tomlParse = None →
  modMetadata s !! name = None →
  let claritasId := (claritasResult s ≫= λ results, results !! path) ≫= claritasIdOf in
  let crude := attemptCrudeInference name in
  let default :=
    mkModsToml "javafml" EmptyString
      (Some [mkModEntry (discernResult claritasId (JS.toLowerCase (crudeName crude)))
               (crudeVersion crude) (crudeName crude) EmptyString]) in
  ∃ s' more,
    processZip zip name path s = (Return default, s') ∧
    modMetadata s' = <[name := default]> (modMetadata s) ∧
    modLogs s' =
      modLogs s ++
      mkLog "NeoForgeModStructure" Error
        (match zip !! "META-INF/neoforge.mods.toml" with
         | Some _ => "NeoForgeNeoMod " +:+ name +:+ " contains an invalid neoforge.mods.toml file."
         | None => "NeoForgeMod " +:+ name +:+ " does not contain neoforge.mods.toml file."
         end) :: more.
Proof.
  intros Htoml Hcache claritasId crude default. subst default crude claritasId.
  unfold processZip, tryCatch, bind, entryDataSync, setModMetadata, logErr, modify, gets.
  destruct (zip !! "META-INF/neoforge.mods.toml") as [raw|]; simpl in *;
    [rewrite Htoml|]; simpl.
  all: destruct (claritasResult s ≫= λ results, results !! path) as [c|]; simpl.
  all: rewrite Hcache; simpl; unfold ret.
  all: eexists _, _; (split; [reflexivity|]); simpl; split; [done|].
  all: rewrite <- ?app_assoc; reflexivity.
Qed.

Lemma resolvedEntry_plain zip claritasId crudeInference entries :
  Forall (λ entry, modId entry ≠ EXAMPLE_MOD_ID ∧ version entry ≠ JAR_VERSION_WILDCARD) entries →
  List.map (resolvedEntry zip claritasId crudeInference) entries = entries.
Proof.
  intros Hplain. induction Hplain as [|entry entries [Hid Hver] _ IH]; simpl; [done|].
  rewrite IH. f_equal. apply String.eqb_neq in Hid. apply String.eqb_neq in Hver.
  unfold resolvedEntry. rewrite Hid, Hver. by destruct entry.
Qed.

(** X21. Declared metadata without placeholders passes through unchanged:
    when the parsed document has a [mods] array and no entry of it has the
    placeholder id or the [${file.jarVersion}] version, [processZip] returns
    the parsed document as it is and caches it under the name. *)
Theorem processZip_pass_through zip name path raw parsed entries s :
  zip !! "META-INF/neoforge.mods.toml" = Some raw →
  tomlParse raw = Some parsed →
  mods parsed = Some entries →
  Forall (λ entry, modId entry ≠ EXAMPLE_MOD_ID ∧ version entry ≠ JAR_VERSION_WILDCARD) entries →
  ∃ s',
    processZip zip name path s = (Return parsed, s') ∧
    modMetadata s' = <[name := parsed]> (modMetadata s).
Proof.
  intros Hraw Hparse Hmods Hplain.
  destruct (processZip_result zip name path s) as (s' & Hrun & Hstore & _).
  unfold workingDocument in Hrun, Hstore.
  rewrite Hraw in Hrun, Hstore. simpl in Hrun, Hstore.
  rewrite Hparse, Hmods in Hrun, Hstore.
  rewrite (resolvedEntry_plain _ _ _ _ Hplain) in Hrun, Hstore.
  destruct parsed as [loader loaderVer declared]. simpl in Hmods. subst declared.
  by exists s'.
Qed.

(** X22. [processZip] has one way to fail, and otherwise returns what it
    caches. It throws exactly when the document it works on (the parsed one,
    else the cached one) has no [mods] array: the error is the [TypeError] of
    the loop over [x.mods], and the document without the array is what the
    cache then holds under the name. In every other case it returns a record
    with a [mods] array, which the cache then holds under the name. Either
    way the entries of other names and the Claritas results are untouched,
    and the log only grows. *)
Theorem processZip_outcome_and_cache zip name path s :
  ∃ r s',
    processZip zip name path s = (r, s') ∧
    match r with
    | Return x =>
        modMetadata s' !! name = Some x ∧ is_Some (mods x) ∧
        ∀ d, workingDocument zip name s = Some d → is_Some (mods d)
    | Throw e =>
        e = TypeError "x.mods is not iterable" ∧
        ∃ d, workingDocument zip name s = Some d ∧ mods d = None ∧
             modMetadata s' !! name = Some d
    end ∧
    (∀ other, other ≠ name → modMetadata s' !! other = modMetadata s !! other) ∧
    claritasResult s' = claritasResult s ∧
    ∃ more, modLogs s' = modLogs s ++ more.
Proof.
  destruct (processZip_result zip name path s) as (s' & Hrun & Hstore & Hclaritas & Hlogs).
  eexists _, s'. split; [exact Hrun|]. rewrite Hstore.
  split; [|split; [|done]].
  - destruct (workingDocument zip name s) as [d|]; [destruct (mods d) as [entries|] eqn:Hmods|].
    + split; [apply lookup_insert_eq|]. split; [by eexists|].
      intros d' [= <-]. by rewrite Hmods.
    + split; [done|]. exists d. split; [done|]. split; [done | apply lookup_insert_eq].
    + split; [apply lookup_insert_eq|]. split; [by eexists | done].
  - intros other Hother. by rewrite lookup_insert_ne.
Qed.

(** X23. Repeated queries are idempotent: when the archive declares metadata
    that parses, a second [processZip] on the same unit returns the record
    the first one returned and leaves the cache as the first one left it. *)
Theorem processZip_idempotent zip name path raw parsed s x s1 :
  zip !! "META-INF/neoforge.mods.toml" = Some raw →
  tomlParse raw = Some parsed →
  processZip zip name path s = (Return x, s1) →
  ∃ s2,
    processZip zip name path s1 = (Return x, s2) ∧
    modMetadata s2 = modMetadata s1.
Proof.
  intros Hraw Hparse Hfirst.
  destruct (processZip_result zip name path s) as (s1' & Hrun1 & Hstore1 & Hclaritas1 & _).
  destruct (processZip_result zip name path s1) as (s2 & Hrun2 & Hstore2 & _).
  unfold workingDocument in Hrun1, Hstore1, Hrun2, Hstore2.
  rewrite Hraw in Hrun1, Hstore1, Hrun2, Hstore2. simpl in Hrun1, Hstore1, Hrun2, Hstore2.
  rewrite Hparse in Hrun1, Hstore1, Hrun2, Hstore2.
  rewrite Hfirst in Hrun1.
  destruct (mods parsed) as [entries|]; [|discriminate].
  injection Hrun1 as Hx Hs1. subst s1'.
  rewrite Hclaritas1, <- Hx in Hrun2, Hstore2. rewrite <- Hx in Hstore1.
  exists s2. split; [done|]. rewrite Hstore2, Hstore1. apply insert_insert_eq.
Qed.

End WithCollaborators.
End MetadataFacts.

(* ===================================================================== *)
(** * The further properties on the sample data *)
(* ===================================================================== *)

Module PipelineExamples.
Import NeoForgeResolver ResolverSamples.

Lemma tolerant_absence_skips_witness :
  GeneratedFile.skipIfNotPresent tolerantSpec = Some true ∧
  Forall (λ k, fs (emptyState freshDisk)
               !! @targetLocalPathOf sampleCollaborators "/cache/libraries" tolerantSpec k = None)
         (GeneratedFile.classifiers tolerantSpec) ∧
  @processGeneratedFile sampleCollaborators sampleResolver "/cache/libraries" tolerantSpec []
    (emptyState freshDisk) =
  (Return [],
   addTrace
     [EvPathExists "/cache/libraries/net.neoforged/neoforge/20.1.88/neoforge-20.1.88-server.jar";
      EvPathExists "/cache/libraries/net.neoforged/neoforge/20.1.88/neoforge-20.1.88-server-slim.jar"]
     (emptyState freshDisk)).
Proof.
  split; [reflexivity|]. split; [by repeat constructor|].
  rewrite (@PipelineFacts.tolerant_absence_skips sampleCollaborators sampleResolver
             "/cache/libraries" tolerantSpec [] (emptyState freshDisk));
    [reflexivity | reflexivity | by repeat constructor].
Defined.

Lemma accepted_variant_copied_witness :
  GeneratedFile.classifiers twoVariants = [Some "universal"] ++ Some "client" :: [] ∧
  Forall (λ k, fs (emptyState onlyClientOnDisk)
               !! @targetLocalPathOf sampleCollaborators "/cache/libraries" twoVariants k = None)
         [Some "universal"] ∧
  fs (emptyState onlyClientOnDisk)
    !! @targetLocalPathOf sampleCollaborators "/cache/libraries" twoVariants (Some "client")
    = Some (File "client") ∧
  @targetLocalPathOf sampleCollaborators "/cache/libraries" twoVariants (Some "client") ≠
    "/repo/lib/net.neoforged/neoforge/20.1.88/neoforge-20.1.88-client.jar" ∧
  fs (emptyState onlyClientOnDisk)
    !! "/repo/lib/net.neoforged/neoforge/20.1.88/neoforge-20.1.88-client.jar" ≠ Some Dir ∧
  is_Some (mkdirsFs (dirname "/repo/lib/net.neoforged/neoforge/20.1.88/neoforge-20.1.88-client.jar")
             (fs (emptyState onlyClientOnDisk))) ∧
  ∃ m s',
    @processGeneratedFile sampleCollaborators sampleResolver "/cache/libraries" twoVariants []
      (emptyState onlyClientOnDisk) = (Return ([] ++ [m]), s') ∧
    artifact m =
      @generateArtifact sampleCollaborators "client" (mkStats (N.of_nat (String.length "client")))
        "https://example.org/repo/lib/net.neoforged/neoforge/20.1.88/neoforge-20.1.88-client.jar" ∧
    fs s' !! "/repo/lib/net.neoforged/neoforge/20.1.88/neoforge-20.1.88-client.jar"
      = Some (File "client") ∧
    fs s' !! "/cache/libraries/net.neoforged/neoforge/20.1.88/neoforge-20.1.88-client.jar"
      = Some (File "client").
Proof.
  split; [reflexivity|]. split; [by repeat constructor|]. split; [reflexivity|].
  split; [discriminate|]. split; [discriminate|].
  destruct (mkdirsFs (dirname "/repo/lib/net.neoforged/neoforge/20.1.88/neoforge-20.1.88-client.jar")
              (fs (emptyState onlyClientOnDisk))) as [disk|] eqn:Hmk; [|by vm_compute in Hmk].
  split; [by eexists|].
  exact (@PipelineFacts.accepted_variant_copied sampleCollaborators sampleResolver
           "/cache/libraries" twoVariants [] (emptyState onlyClientOnDisk)
           [Some "universal"] (Some "client") [] "client" disk eq_refl
           ltac:(by repeat constructor) eq_refl ltac:(discriminate) ltac:(discriminate) Hmk).
Defined.

Lemma refused_copy_is_fatal_witness :
  GeneratedFile.classifiers twoVariants = [Some "universal"] ++ Some "client" :: [] ∧
  Forall (λ k, fs (emptyState destinationTaken)
               !! @targetLocalPathOf sampleCollaborators "/cache/libraries" twoVariants k = None)
         [Some "universal"] ∧
  fs (emptyState destinationTaken)
    !! @targetLocalPathOf sampleCollaborators "/cache/libraries" twoVariants (Some "client")
    = Some (File "client") ∧
  fs (emptyState destinationTaken)
    !! "/repo/lib/net.neoforged/neoforge/20.1.88/neoforge-20.1.88-client.jar" = Some Dir ∧
  ∃ s',
    @processGeneratedFile sampleCollaborators sampleResolver "/cache/libraries" twoVariants []
      (emptyState destinationTaken) =
      (Throw (IOError
         ("Cannot overwrite directory " +:+
          "'/repo/lib/net.neoforged/neoforge/20.1.88/neoforge-20.1.88-client.jar'" +:+
          " with non-directory " +:+
          "'/cache/libraries/net.neoforged/neoforge/20.1.88/neoforge-20.1.88-client.jar'.")), s') ∧
    fs s' = destinationTaken.
Proof.
  split; [reflexivity|]. split; [by repeat constructor|]. split; [reflexivity|].
  split; [reflexivity|].
  destruct (@PipelineFacts.refused_copy_is_fatal sampleCollaborators sampleResolver
              "/cache/libraries" twoVariants [] (emptyState destinationTaken)
              [Some "universal"] (Some "client") [] "client" eq_refl
              ltac:(by repeat constructor) eq_refl (or_intror eq_refl))
    as (s' & Hrun & Hdisk & _).
  exists s'. split; [exact Hrun | exact Hdisk].
Defined.

Lemma libraries_without_url_skipped_witness :
  Forall (λ entry, ManifestLibrary.url (ManifestLibrary.downloads_artifact entry) = EmptyString)
    [ManifestLibrary.mk "net.neoforged:embedded:1.0"
       (ManifestLibrary.mkDownload "net/neoforged/embedded/1.0/embedded-1.0.jar"
          EmptyString EmptyString 0)] ∧
  @librariesLoop sampleCollaborators sampleResolver "/cache/libraries"
    [ManifestLibrary.mk "net.neoforged:embedded:1.0"
       (ManifestLibrary.mkDownload "net/neoforged/embedded/1.0/embedded-1.0.jar"
          EmptyString EmptyString 0)] [] (emptyState ∅)
  = (Return [], emptyState ∅).
Proof.
  split; [by repeat constructor|].
  apply (@PipelineFacts.libraries_without_url_skipped sampleCollaborators). by repeat constructor.
Defined.

Lemma missing_library_is_fatal_witness :
  ManifestLibrary.url (ManifestLibrary.mkDownload "org/ow2/asm/asm/9.5/asm-9.5.jar"
                         "https://maven.neoforged.net/asm-9.5.jar" "da39a3ef" 3) ≠ EmptyString ∧
  fs (emptyState ∅) !! pathJoin ["/cache/libraries"; "org/ow2/asm/asm/9.5/asm-9.5.jar"] = None ∧
  @librariesLoop sampleCollaborators sampleResolver "/cache/libraries"
    ([] ++ ManifestLibrary.mk "org.ow2.asm:asm:9.5"
             (ManifestLibrary.mkDownload "org/ow2/asm/asm/9.5/asm-9.5.jar"
                "https://maven.neoforged.net/asm-9.5.jar" "da39a3ef" 3) :: [])
    [] (emptyState ∅)
  = (Throw (JsError "Expected library org.ow2.asm:asm:9.5 not found!"),
     addTrace [EvPathExists "/cache/libraries/org/ow2/asm/asm/9.5/asm-9.5.jar"] (emptyState ∅)).
Proof.
  split; [discriminate|]. split; [reflexivity|].
  apply (@PipelineFacts.missing_library_is_fatal sampleCollaborators sampleResolver
           "/cache/libraries"
           (ManifestLibrary.mk "org.ow2.asm:asm:9.5"
              (ManifestLibrary.mkDownload "org/ow2/asm/asm/9.5/asm-9.5.jar"
                 "https://maven.neoforged.net/asm-9.5.jar" "da39a3ef" 3))
           [] (emptyState ∅)); [discriminate | reflexivity | reflexivity].
Defined.

Lemma processVersionManifest_outcome_witness :
  fs (emptyState manifestOnDisk)
    !! getVersionManifestPath sampleResolver "/cache/neoforge/20.1.88" = Some (File "version.json") ∧
  ∃ r s',
    @processVersionManifest sampleCollaborators sampleResolver "/cache/neoforge/20.1.88"
      (emptyState manifestOnDisk) = (r, s') ∧
    isReturn (r, s') = true ∧
    fs s' !! "/repo/versions/neoforge-20.1.88/neoforge-20.1.88.json" = Some (File "version.json").
Proof.
  split; [reflexivity|].
  destruct (@PipelineFacts.processVersionManifest_outcome sampleCollaborators sampleResolver
              "/cache/neoforge/20.1.88" (emptyState manifestOnDisk) "version.json" eq_refl)
    as (r & s' & Hrun & Hcase).
  exists r, s'. split; [exact Hrun|].
  change (@parseManifest sampleCollaborators "version.json") with (Some sampleManifest) in Hcase.
  destruct (mkdirsFs _ _) as [disk|] eqn:Hmk in Hcase; [|by vm_compute in Hmk].
  destruct Hcase as [-> ->]. split; [reflexivity|]. apply lookup_insert_eq.
Defined.

Lemma installer_spawned_at_most_once_witness :
  @processWithInstaller sampleCollaborators sampleResolver sampleInstallerPath
    (constructed sampleCollaborators sampleResolver freshDisk)
  = ((@processWithInstaller sampleCollaborators sampleResolver sampleInstallerPath
        (constructed sampleCollaborators sampleResolver freshDisk)).1,
     (@processWithInstaller sampleCollaborators sampleResolver sampleInstallerPath
        (constructed sampleCollaborators sampleResolver freshDisk)).2) ∧
  spawnsOf (trace (@processWithInstaller sampleCollaborators sampleResolver sampleInstallerPath
                     (constructed sampleCollaborators sampleResolver freshDisk)).2)
  = [EvSpawn "java"
       ["-jar"; "/cache/neoforge/20.1.88/neoforge-20.1.88-installer.jar"; "--installClient";
        "/cache/neoforge/20.1.88"]
       "/cache/neoforge/20.1.88"].
Proof.
  assert (Hrun : ∀ x : Outcome Module * State, x = (x.1, x.2)) by (by intros []).
  split; [apply Hrun|].
  destruct (@CacheFacts.installer_spawned_at_most_once sampleCollaborators sampleResolver
              sampleInstallerPath (constructed sampleCollaborators sampleResolver freshDisk)
              _ _ (Hrun _)) as [Hnone | Hone].
  - by vm_compute in Hnone.
  - rewrite Hone. reflexivity.
Defined.

Lemma cache_hit_skips_installer_witness :
  is_Some (fs (constructed sampleCollaborators sampleResolver cachedDisk)
           !! @getNeoForgeCacheDirectory sampleCollaborators (neoforgeVersion sampleResolver)) ∧
  invalidateCache sampleResolver = false ∧
  isReturn (@processWithInstaller sampleCollaborators sampleResolver sampleInstallerPath
              (constructed sampleCollaborators sampleResolver cachedDisk)) = true ∧
  spawnsOf (trace (@processWithInstaller sampleCollaborators sampleResolver sampleInstallerPath
                     (constructed sampleCollaborators sampleResolver cachedDisk)).2)
  = spawnsOf (trace (constructed sampleCollaborators sampleResolver cachedDisk)).
Proof.
  split; [by eexists|]. split; [reflexivity|]. split; [by vm_compute|].
  apply (@CacheFacts.cache_hit_skips_installer sampleCollaborators sampleResolver
           sampleInstallerPath (constructed sampleCollaborators sampleResolver cachedDisk)
           (@processWithInstaller sampleCollaborators sampleResolver sampleInstallerPath
              (constructed sampleCollaborators sampleResolver cachedDisk)).1);
    [by eexists | reflexivity | by destruct (processWithInstaller _ _ _)].
Defined.

Lemma discardOutput_removes_cache_witness :
  discardOutput discardingResolver = true ∧
  isReturn (@processWithInstaller sampleCollaborators discardingResolver sampleInstallerPath
              (constructed sampleCollaborators discardingResolver freshDisk)) = true ∧
  ∀ p, within "/cache/neoforge/20.1.88" p = true →
       fs (@processWithInstaller sampleCollaborators discardingResolver sampleInstallerPath
             (constructed sampleCollaborators discardingResolver freshDisk)).2 !! p = None.
Proof.
  split; [reflexivity|]. split; [by vm_compute|].
  destruct (@processWithInstaller sampleCollaborators discardingResolver sampleInstallerPath
              (constructed sampleCollaborators discardingResolver freshDisk))
    as [[root|e] s'] eqn:Hrun; [|by vm_compute in Hrun].
  exact (@CacheFacts.discardOutput_removes_cache sampleCollaborators discardingResolver
           sampleInstallerPath _ root s' eq_refl Hrun).
Defined.

End PipelineExamples.

Module MetadataExamples.
Import NeoForgeModStructure ModSamples.

Lemma processZip_default_record_witness :
  (∅ : StreamZip) !! "META-INF/neoforge.mods.toml" ≫= tomlParse = None ∧
  modMetadata (stateWithHint None) !! jarName = None ∧
  ∃ s' more,
    processZip ∅ jarName jarPath (stateWithHint None) =
      (Return (mkModsToml "javafml" EmptyString
                 (Some [mkModEntry "coolmod" "1.0" "CoolMod" EmptyString])),
       s') ∧
    modMetadata s' =
      <[jarName := mkModsToml "javafml" EmptyString
                     (Some [mkModEntry "coolmod" "1.0" "CoolMod" EmptyString])]>
        (modMetadata (stateWithHint None)) ∧
    modLogs s' =
      modLogs (stateWithHint None) ++
      mkLog "NeoForgeModStructure" Error
        "NeoForgeMod CoolMod-1.0.jar does not contain neoforge.mods.toml file." :: more.
Proof.
  split; [reflexivity|]. split; [reflexivity|].
  exact (@MetadataFacts.processZip_default_record sampleCollaborators ∅ jarName jarPath
           (stateWithHint None) eq_refl eq_refl).
Defined.

Lemma processZip_pass_through_witness :
  declaredZip !! "META-INF/neoforge.mods.toml" = Some "declared.toml" ∧
  @tomlParse passThroughCollaborators "declared.toml" = Some declaredToml ∧
  mods declaredToml = Some declaredEntries ∧
  Forall (λ entry, modId entry ≠ @EXAMPLE_MOD_ID passThroughCollaborators
                   ∧ version entry ≠ JAR_VERSION_WILDCARD) declaredEntries ∧
  ∃ s',
    @processZip passThroughCollaborators declaredZip jarName jarPath (stateWithHint None)
      = (Return declaredToml, s') ∧
    modMetadata s' = <[jarName := declaredToml]> (modMetadata (stateWithHint None)).
Proof.
  assert (Hplain : Forall (λ entry, modId entry ≠ @EXAMPLE_MOD_ID passThroughCollaborators
                                    ∧ version entry ≠ JAR_VERSION_WILDCARD) declaredEntries)
    by (repeat constructor; discriminate).
  split; [reflexivity|]. split; [reflexivity|]. split; [reflexivity|]. split; [exact Hplain|].
  exact (@MetadataFacts.processZip_pass_through passThroughCollaborators declaredZip jarName
           jarPath "declared.toml" declaredToml declaredEntries (stateWithHint None)
           eq_refl eq_refl eq_refl Hplain).
Defined.

Lemma processZip_idempotent_witness :
  zipWith (Some manifestOneVersion) !! "META-INF/neoforge.mods.toml" = Some "placeholder.toml" ∧
  tomlParse "placeholder.toml" = Some placeholderToml ∧
  ∃ x s1 s2,
    processZip (zipWith (Some manifestOneVersion)) jarName jarPath (stateWithHint None)
      = (Return x, s1) ∧
    processZip (zipWith (Some manifestOneVersion)) jarName jarPath s1 = (Return x, s2) ∧
    modMetadata s2 = modMetadata s1.
Proof.
  split; [reflexivity|]. split; [reflexivity|].
  destruct (processZip (zipWith (Some manifestOneVersion)) jarName jarPath (stateWithHint None))
    as [[x|e] s1] eqn:Hrun; [|by vm_compute in Hrun].
  destruct (@MetadataFacts.processZip_idempotent sampleCollaborators
              (zipWith (Some manifestOneVersion)) jarName jarPath "placeholder.toml"
              placeholderToml (stateWithHint None) x s1 eq_refl eq_refl Hrun) as (s2 & Hsecond & Hcache).
  by exists x, s1, s2.
Defined.

(** A metadata file without a [[mods]] table: the run stops at the loop, and
    the document without entries stays in the cache. *)
Example header_only_metadata_throws :
  (@processZip passThroughCollaborators headerOnlyZip jarName jarPath (stateWithHint None)).1
    = Throw (TypeError "x.mods is not iterable") ∧
  modMetadata
    (@processZip passThroughCollaborators headerOnlyZip jarName jarPath (stateWithHint None)).2
    !! jarName = Some headerOnlyToml.
Proof. split; by vm_compute. Qed.

(** Once such a document is cached, a later query on an archive without
    metadata fails in the same way instead of falling back to the filename. *)
Example cached_header_only_metadata_throws :
  (@processZip passThroughCollaborators ∅ jarName jarPath
     (@processZip passThroughCollaborators headerOnlyZip jarName jarPath (stateWithHint None)).2).1
    = Throw (TypeError "x.mods is not iterable").
Proof. by vm_compute. Qed.

End MetadataExamples.
